(** * PullPal: the PR lifecycle tracker, its webhook ingestion, its
      reconciliation against GitHub and the metrics formatting.

    A shallow embedding of [pr-tracker.ts], [github-webhook.ts],
    [slack-notifier.ts] and [metrics.ts].

    Conventions of the embedding.
    - A JavaScript [Date] is its [getTime()] value, an integer number of
      milliseconds, in [Z]; [Date.now()] is a parameter [now] of the
      operation that reads it.  A run of [syncWithGitHub] reads the clock
      once per [trackPR]; the run is given one reading for all of them.
    - Timestamps of the GitHub API and of webhook payloads are taken as
      parsed ([new Date(s).getTime()]); a review carries its [submitted_at].
    - PR numbers and review counts are integers in [Z].
    - The process-wide [Map<number, TrackedPR>] is an association list in
      insertion order, with the [get]/[set]/[delete] behaviour of a
      JavaScript [Map]: [set] on a present key replaces the value in place,
      [set] on an absent key appends.
    - [async] functions are run to completion one after the other; an
      operation is a function from the world before to an outcome (returned
      or thrown) and the world after.  The world holds the store, the
      console and the Slack outbox.
    - The collaborators are parameters: the answers of Octokit, the HMAC
      of Node's [crypto], the environment.
    - A string is held as its bytes, so [Buffer.from(s)] is [s] itself; an
      error is held as its message. *)

From Stdlib Require Import ZArith List String Ascii Bool Lia.
From Stdlib Require Import DecimalString QArith Qround.
Import ListNotations.

#[local] Open Scope Z_scope.

(** ** JavaScript helpers *)

(** Template-literal rendering of an integer. *)
Definition string_of_Z (z : Z) : string :=
  NilZero.string_of_int (Z.to_int z).

(** [x || 0] on an optional number: [undefined] and [0] both give [0]. *)
Definition or0 (x : option Z) : Z :=
  match x with
  | Some n => n
  | None => 0
  end.

(** [s || 'unknown'] on an optional string: [undefined] and the empty string
    are falsy. *)
Definition or_unknown (x : option string) : string :=
  match x with
  | Some EmptyString => "unknown"
  | Some s => s
  | None => "unknown"
  end.

Definition mem_Z (k : Z) (l : list Z) : bool := existsb (Z.eqb k) l.

Definition mem_string (s : string) (l : list string) : bool :=
  existsb (String.eqb s) l.

(** [[...new Set(xs)]]: the distinct elements in order of first occurrence. *)
Definition set_add (seen : list string) (x : string) : list string :=
  if mem_string x seen then seen else seen ++ [x].

Definition array_from_set (xs : list string) : list string :=
  fold_left set_add xs [].

(** ** Data model ([pr-tracker.ts]) *)

Record PRData := mkPRData {
  number : Z;
  title : string;
  url : string;
  author : string;
  createdAt : Z;
  owner : string;
  repo : string;
  isDraft : bool;
  lastReviewedAt : option Z;
  lastUpdated : option Z;
  reviewCount : option Z
}.

(** [interface TrackedPR extends PRData]: the inherited fields are [base]. *)
Record TrackedPR := mkTrackedPR {
  base :> PRData;
  reviewers : list string;
  age : Z
}.

(** [Partial<TrackedPR>]: a property is supplied ([Some]) or left out.  A
    supplied property carries a value of the field's type. *)
Record PartialTrackedPR := mkPartial {
  u_number : option Z;
  u_title : option string;
  u_url : option string;
  u_author : option string;
  u_createdAt : option Z;
  u_owner : option string;
  u_repo : option string;
  u_isDraft : option bool;
  u_lastReviewedAt : option Z;
  u_lastUpdated : option Z;
  u_reviewCount : option Z;
  u_reviewers : option (list string);
  u_age : option Z
}.

(** ** The JavaScript [Map] holding the tracked PRs *)

Definition Store := list (Z * TrackedPR).

Fixpoint map_get (k : Z) (m : Store) : option TrackedPR :=
  match m with
  | [] => None
  | (k', v) :: m' => if k =? k' then Some v else map_get k m'
  end.

Fixpoint map_set (k : Z) (v : TrackedPR) (m : Store) : Store :=
  match m with
  | [] => [(k, v)]
  | (k', v') :: m' =>
      if k =? k' then (k, v) :: m' else (k', v') :: map_set k v m'
  end.

(** [delete] drops the entry under the key, wherever it is. *)
Definition map_delete (k : Z) (m : Store) : Store :=
  filter (fun kv => negb (k =? fst kv)) m.

Definition map_keys (m : Store) : list Z := map fst m.

Definition map_values (m : Store) : list TrackedPR := map snd m.

(** A [Map] never holds a key twice. *)
Definition wf_store (m : Store) : Prop := NoDup (map_keys m).

(** ** Slack messages ([slack-notifier.ts]) *)

Record PRNotification := mkPRNotification {
  n_number : Z;
  n_title : string;
  n_url : string;
  n_author : string;
  n_owner : string;
  n_repo : string
}.

Inductive SlackMessage :=
| MsgPROpened (p : PRNotification)
| MsgPRReviewed (p : PRNotification) (reviewer reviewState : string)
| MsgPRMerged (p : PRNotification).

(** ** The world: store, console, Slack outbox *)

Inductive ConsoleLine :=
| console_log (msg : string)
| console_warn (msg : string)
| console_error (msg : string).

Record World := mkWorld {
  trackedPRs : Store;
  console : list ConsoleLine;
  slack : list SlackMessage
}.

Definition initial_world : World := mkWorld [] [] [].

Inductive Outcome (A : Type) :=
| Returned (a : A)
| Threw (error : string).

Arguments Returned {A} a.
Arguments Threw {A} error.

(** An [async] function run to completion. *)
Definition M (A : Type) : Type := World -> Outcome A * World.

Definition ret {A} (a : A) : M A := fun w => (Returned a, w).

Definition throw {A} (error : string) : M A := fun w => (Threw error, w).

Definition bind {A B} (m : M A) (f : A -> M B) : M B :=
  fun w =>
    match m w with
    | (Returned a, w') => f a w'
    | (Threw e, w') => (Threw e, w')
    end.

Definition try_catch {A} (m : M A) (handler : string -> M A) : M A :=
  fun w =>
    match m w with
    | (Returned a, w') => (Returned a, w')
    | (Threw e, w') => handler e w'
    end.

Declare Scope js_scope.
Delimit Scope js_scope with js.
Notation "x <- m ;; k" := (bind m (fun x => k))
  (at level 61, m at next level, right associativity) : js_scope.
Notation "m ;; k" := (bind m (fun _ => k))
  (at level 61, right associativity) : js_scope.
#[local] Open Scope js_scope.

Definition get_store : M Store := fun w => (Returned (trackedPRs w), w).

Definition modify_store (f : Store -> Store) : M unit :=
  fun w => (Returned tt, mkWorld (f (trackedPRs w)) (console w) (slack w)).

Definition print (line : ConsoleLine) : M unit :=
  fun w => (Returned tt, mkWorld (trackedPRs w) (console w ++ [line]) (slack w)).

Definition post_message (msg : SlackMessage) : M unit :=
  fun w => (Returned tt, mkWorld (trackedPRs w) (console w) (slack w ++ [msg])).

(** [for (const x of xs) { body }]: a throw leaves the loop. *)
Fixpoint for_of {A} (xs : list A) (body : A -> M unit) : M unit :=
  match xs with
  | [] => ret tt
  | x :: xs' => body x ;; for_of xs' body
  end.

(** The result of an awaited call to a collaborator. *)
Inductive Fetched (A : Type) :=
| Resolved (data : A)
| Rejected (error : string).

Arguments Resolved {A} data.
Arguments Rejected {A} error.

Definition await {A} (r : Fetched A) : M A :=
  match r with
  | Resolved data => ret data
  | Rejected e => throw e
  end.

Definition run {A} (m : M A) (w : World) : World := snd (m w).

Definition outcome {A} (m : M A) (w : World) : Outcome A := fst (m w).

(** ** The source of truth (Octokit) *)

Record GhPull := mkGhPull {
  gh_number : Z;
  gh_title : string;
  gh_html_url : string;
  gh_user_login : option string;
  gh_created_at : Z;
  gh_updated_at : Z;
  gh_draft : bool;
  gh_merged_at : option Z
}.

Record GhReview := mkGhReview {
  rv_user_login : option string;
  rv_submitted_at : Z;
  rv_state : string
}.

Inductive PullState := state_open | state_closed | state_all.

Record Octokit := mkOctokit {
  pulls_list : string -> string -> PullState -> Fetched (list GhPull);
  pulls_listReviews : string -> string -> Z -> Fetched (list GhReview)
}.

(** ** pr-tracker.ts *)

Module PrTracker.

Definition with_counts (prData : PRData) (rc : option Z) : PRData :=
  mkPRData (number prData) (title prData) (url prData) (author prData)
           (createdAt prData) (owner prData) (repo prData) (isDraft prData)
           (lastReviewedAt prData) (lastUpdated prData) rc.

(** The object literal stored by [trackPR]. *)
Definition tracked_entry (now : Z) (prData : PRData)
    (existing : option TrackedPR) : TrackedPR :=
  let age := (now - createdAt prData) / (1000 * 60 * 60) in
  mkTrackedPR
    (with_counts prData
       (Some (or0 (match existing with
                   | Some e => reviewCount e
                   | None => None
                   end))))
    (match existing with
     | Some e => reviewers e
     | None => []
     end)
    age.

Definition trackPR (now : Z) (prData : PRData) : M unit :=
  store <- get_store ;;
  let existing := map_get (number prData) store in
  modify_store (map_set (number prData) (tracked_entry now prData existing)) ;;
  print (console_log ("Tracking PR #" ++ string_of_Z (number prData)
                        ++ ": " ++ title prData)).

Definition pick {A} (supplied : option A) (current : A) : A :=
  match supplied with
  | Some v => v
  | None => current
  end.

Definition pick_opt {A} (supplied : option A) (current : option A) : option A :=
  match supplied with
  | Some v => Some v
  | None => current
  end.

(** The object literal stored by [updatePRStatus]:
    [{...pr, ...updates, reviewCount: ...}]. *)
Definition merged_entry (pr : TrackedPR) (updates : PartialTrackedPR)
    : TrackedPR :=
  mkTrackedPR
    (mkPRData
       (pick (u_number updates) (number pr))
       (pick (u_title updates) (title pr))
       (pick (u_url updates) (url pr))
       (pick (u_author updates) (author pr))
       (pick (u_createdAt updates) (createdAt pr))
       (pick (u_owner updates) (owner pr))
       (pick (u_repo updates) (repo pr))
       (pick (u_isDraft updates) (isDraft pr))
       (pick_opt (u_lastReviewedAt updates) (lastReviewedAt pr))
       (pick_opt (u_lastUpdated updates) (lastUpdated pr))
       (match u_reviewCount updates with
        | Some delta => Some (or0 (reviewCount pr) + delta)
        | None => reviewCount pr
        end))
    (pick (u_reviewers updates) (reviewers pr))
    (pick (u_age updates) (age pr)).

Definition not_found_warning (prNumber : Z) : ConsoleLine :=
  console_warn ("PR #" ++ string_of_Z prNumber ++ " not found in tracker").

Definition updatePRStatus (prNumber : Z) (updates : PartialTrackedPR)
    : M unit :=
  store <- get_store ;;
  match map_get prNumber store with
  | None => print (not_found_warning prNumber)
  | Some pr =>
      modify_store (map_set prNumber (merged_entry pr updates)) ;;
      print (console_log ("Updated PR #" ++ string_of_Z prNumber ++ " status"))
  end.

Definition removePR (prNumber : Z) : M unit :=
  modify_store (map_delete prNumber) ;;
  print (console_log ("Removed PR #" ++ string_of_Z prNumber
                        ++ " from tracking")).

Definition getTrackedPRs (w : World) : list TrackedPR :=
  map_values (trackedPRs w).

Definition is_stale (now threshold : Z) (pr : TrackedPR) : bool :=
  let age := now - createdAt pr in
  let hasNoRecentReview :=
    match lastReviewedAt pr with
    | None => true
    | Some t => threshold <? now - t
    end in
  (threshold <? age) && hasNoRecentReview.

Definition getStalePRs (now : Z) (hoursThreshold : Z) (w : World)
    : list TrackedPR :=
  let threshold := hoursThreshold * 60 * 60 * 1000 in
  filter (is_stale now threshold) (map_values (trackedPRs w)).

Definition needs_review (pr : TrackedPR) : bool :=
  match lastReviewedAt pr with
  | None => true
  | Some _ =>
      match reviewCount pr with
      | Some c => c =? 0
      | None => false
      end
  end.

Definition getPRsNeedingReview (w : World) : list TrackedPR :=
  filter needs_review (map_values (trackedPRs w)).

Definition set_reviewers (pr : TrackedPR) (rs : list string) : TrackedPR :=
  mkTrackedPR (base pr) rs (age pr).

(** [reviews.length > 0 ? reviews[reviews.length - 1] : null] *)
Definition lastReview (reviews : list GhReview) : option GhReview :=
  last (map Some reviews) None.

Definition sync_prData (owner repo : string) (pr : GhPull)
    (reviews : list GhReview) : PRData :=
  mkPRData (gh_number pr) (gh_title pr) (gh_html_url pr)
           (or_unknown (gh_user_login pr))
           (gh_created_at pr) owner repo (gh_draft pr)
           (match lastReview reviews with
            | Some r => Some (rv_submitted_at r)
            | None => None
            end)
           (Some (gh_updated_at pr))
           (Some (Z.of_nat (List.length reviews))).

(** The body of the second loop of [syncWithGitHub] for one PR. *)
Definition sync_one (octokit : Octokit) (now : Z) (owner repo : string)
    (pr : GhPull) : M unit :=
  if gh_draft pr then ret tt
  else
    reviews <- await (pulls_listReviews octokit owner repo (gh_number pr)) ;;
    trackPR now (sync_prData owner repo pr reviews) ;;
    let reviewers := map (fun r => or_unknown (rv_user_login r)) reviews in
    store <- get_store ;;
    match map_get (gh_number pr) store with
    | Some pr_tracked =>
        modify_store (map_set (gh_number pr)
                        (set_reviewers pr_tracked (array_from_set reviewers)))
    | None => ret tt
    end.

Definition syncWithGitHub (octokit : Octokit) (now : Z) (owner repo : string)
    : M unit :=
  try_catch
    (pullRequests <- await (pulls_list octokit owner repo state_open) ;;
     print (console_log ("Syncing "
                           ++ string_of_Z (Z.of_nat (List.length pullRequests))
                           ++ " open PRs from GitHub")) ;;
     let openPRNumbers := map gh_number pullRequests in
     store <- get_store ;;
     for_of (map_keys store)
       (fun prNumber =>
          if negb (mem_Z prNumber openPRNumbers)
          then modify_store (map_delete prNumber)
          else ret tt) ;;
     for_of pullRequests (sync_one octokit now owner repo) ;;
     store' <- get_store ;;
     print (console_log ("Sync complete: "
                           ++ string_of_Z (Z.of_nat (List.length store'))
                           ++ " PRs tracked")))
    (fun error =>
       print (console_error ("Error syncing with GitHub: " ++ error)) ;;
       throw error).

Definition formatPRAge (pr : TrackedPR) : string :=
  let hours := age pr in
  if hours <? 1 then "just opened"
  else if hours <? 24 then string_of_Z hours ++ "h old"
  else
    let days := hours / 24 in
    string_of_Z days ++ "d old".

End PrTracker.

(** ** slack-notifier.ts *)

Record Env := mkEnv {
  SLACK_BOT_TOKEN : option string;
  GITHUB_WEBHOOK_SECRET : option string
}.

Module SlackNotifier.

(** [!process.env.SLACK_BOT_TOKEN] *)
Definition token_missing (env : Env) : bool :=
  match SLACK_BOT_TOKEN env with
  | None => true
  | Some EmptyString => true
  | Some _ => false
  end.

Definition disabled : ConsoleLine :=
  console_log "Slack notifications disabled (no SLACK_BOT_TOKEN)".

(** The post is taken to be accepted by Slack; the source catches and logs a
    rejected post, and never propagates it. *)
Definition notifyPROpened (env : Env) (pr : PRNotification) : M unit :=
  if token_missing env then print disabled
  else
    post_message (MsgPROpened pr) ;;
    print (console_log ("Slack notification sent for PR #"
                          ++ string_of_Z (n_number pr))).

Definition notifyPRReviewed (env : Env) (pr : PRNotification)
    (reviewer reviewState : string) : M unit :=
  if token_missing env then print disabled
  else
    post_message (MsgPRReviewed pr reviewer reviewState) ;;
    print (console_log ("Slack review notification sent for PR #"
                          ++ string_of_Z (n_number pr))).

Definition notifyPRMerged (env : Env) (pr : PRNotification) : M unit :=
  if token_missing env then print disabled
  else
    post_message (MsgPRMerged pr) ;;
    print (console_log ("Slack merge notification sent for PR #"
                          ++ string_of_Z (n_number pr))).

End SlackNotifier.

(** ** github-webhook.ts *)

(** Node's [crypto]: [hmac_sha256_hex key data] is
    [crypto.createHmac('sha256', key).update(data).digest('hex')]. *)
Record Crypto := mkCrypto {
  hmac_sha256_hex : string -> string -> string
}.

Module GithubWebhook.

Import PrTracker SlackNotifier.

Record PullRequestPayload := mkPullRequestPayload {
  p_number : Z;
  p_title : string;
  p_html_url : string;
  p_user_login : string;
  p_created_at : Z;
  p_state : string;
  p_draft : bool
}.

Record ReviewPayload := mkReviewPayload {
  r_state : string;
  r_user_login : string;
  r_submitted_at : Z
}.

Record WebhookPayload := mkWebhookPayload {
  action : option string;
  pull_request : option PullRequestPayload;
  review : option ReviewPayload;
  repository_name : string;
  repository_owner_login : string
}.

(** The [prData] literal built by the handlers. *)
Definition payload_prData (pull_request : PullRequestPayload)
    (payload : WebhookPayload) : PRData :=
  mkPRData (p_number pull_request) (p_title pull_request)
           (p_html_url pull_request) (p_user_login pull_request)
           (p_created_at pull_request)
           (repository_owner_login payload) (repository_name payload)
           (p_draft pull_request) None None None.

Definition notification_of (prData : PRData) : PRNotification :=
  mkPRNotification (number prData) (title prData) (url prData)
                   (author prData) (owner prData) (repo prData).

Definition action_is (payload : WebhookPayload) (name : string) : bool :=
  match action payload with
  | Some a => String.eqb a name
  | None => false
  end.

Definition show_action (payload : WebhookPayload) : string :=
  match action payload with
  | Some a => a
  | None => "undefined"
  end.

(** [{ lastUpdated: new Date() }] *)
Definition activity_updates (now : Z) : PartialTrackedPR :=
  mkPartial None None None None None None None None None
            (Some now) None None None.

(** [{ lastReviewedAt: reviewData.submittedAt, reviewCount: 1 }] *)
Definition review_updates (submittedAt : Z) : PartialTrackedPR :=
  mkPartial None None None None None None None None
            (Some submittedAt) None (Some 1) None None.

Definition handlePullRequestEvent (env : Env) (now : Z)
    (payload : WebhookPayload) : M unit :=
  match pull_request payload with
  | None => ret tt
  | Some pull_request =>
      let prData := payload_prData pull_request payload in
      if action_is payload "opened" then
        if negb (p_draft pull_request) then
          trackPR now prData ;;
          notifyPROpened env (notification_of prData)
        else ret tt
      else if action_is payload "ready_for_review" then
        trackPR now prData ;;
        notifyPROpened env (notification_of prData)
      else if action_is payload "closed" then
        if String.eqb (p_state pull_request) "closed" then
          removePR (p_number pull_request) ;;
          let wasMerged := String.eqb (p_state pull_request) "closed" in
          if wasMerged then notifyPRMerged env (notification_of prData)
          else ret tt
        else ret tt
      else if action_is payload "reopened" then
        trackPR now prData
      else if action_is payload "synchronize" then
        updatePRStatus (p_number pull_request) (activity_updates now)
      else
        print (console_log ("Unhandled pull_request action: "
                              ++ show_action payload))
  end.

Definition handlePullRequestReviewEvent (env : Env)
    (payload : WebhookPayload) : M unit :=
  match pull_request payload, review payload with
  | Some pull_request, Some review =>
      let prData := payload_prData pull_request payload in
      if action_is payload "submitted" then
        updatePRStatus (p_number pull_request)
          (review_updates (r_submitted_at review)) ;;
        notifyPRReviewed env (notification_of prData)
          (r_user_login review) (r_state review)
      else ret tt
  | _, _ => ret tt
  end.

Definition handlePullRequestReviewCommentEvent (now : Z)
    (payload : WebhookPayload) : M unit :=
  match pull_request payload with
  | None => ret tt
  | Some pull_request =>
      if action_is payload "created" then
        updatePRStatus (p_number pull_request) (activity_updates now)
      else ret tt
  end.

Definition secret_not_set : ConsoleLine :=
  console_warn
    "WARNING: GITHUB_WEBHOOK_SECRET not set - skipping signature verification".

(** The message of the TypeError of [Buffer.from(undefined)]. *)
Definition ERR_INVALID_ARG_TYPE : string :=
  "The first argument must be of type string or an instance of Buffer, ArrayBuffer, or Array or an Array-like Object. Received undefined".

(** The message of the RangeError of [crypto.timingSafeEqual] on buffers of
    different byte lengths. *)
Definition ERR_CRYPTO_TIMING_SAFE_EQUAL_LENGTH : string :=
  "Input buffers must have the same byte length".

(** [Buffer.from(s)]; [None] is [undefined], a header that is missing. *)
Definition Buffer_from (s : option string) : M string :=
  match s with
  | Some bytes => ret bytes
  | None => throw ERR_INVALID_ARG_TYPE
  end.

Definition timingSafeEqual (a b : string) : M bool :=
  if Nat.eqb (String.length a) (String.length b) then ret (String.eqb a b)
  else throw ERR_CRYPTO_TIMING_SAFE_EQUAL_LENGTH.

Definition verifySignature (crypto : Crypto) (env : Env) (payload : string)
    (signature : option string) : M bool :=
  match GITHUB_WEBHOOK_SECRET env with
  | None | Some EmptyString => print secret_not_set ;; ret true
  | Some secret =>
      let digest :=
        ("sha256=" ++ hmac_sha256_hex crypto secret payload)%string in
      a <- Buffer_from signature ;;
      b <- Buffer_from (Some digest) ;;
      timingSafeEqual a b
  end.

(** [handleWebhook] from the answer [isValid] of [verifySignature] on. *)
Definition handle_verdict (env : Env) (now : Z) (isValid : bool)
    (event : string) (payload : WebhookPayload) : M unit :=
  if negb isValid then throw "Invalid webhook signature"
  else
    print (console_log ("Received GitHub webhook: " ++ event ++ " - "
                          ++ show_action payload)) ;;
    try_catch
      (if String.eqb event "pull_request" then
         handlePullRequestEvent env now payload
       else if String.eqb event "pull_request_review" then
         handlePullRequestReviewEvent env payload
       else if String.eqb event "pull_request_review_comment" then
         handlePullRequestReviewCommentEvent now payload
       else print (console_log ("Unhandled event type: " ++ event)))
      (fun error =>
         print (console_error ("Error handling webhook event " ++ event
                                 ++ ": " ++ error)) ;;
         throw error).

(** [payload] holds the fields of the delivery that the handlers read;
    [body] is the text [JSON.stringify(payload)] of the whole delivery, and
    [signature] the [x-hub-signature-256] header the route hands over,
    [None] when the request has none. *)
Definition handleWebhook (crypto : Crypto) (env : Env) (now : Z)
    (event : string) (payload : WebhookPayload) (body : string)
    (signature : option string) : M unit :=
  isValid <- verifySignature crypto env body signature ;;
  handle_verdict env now isValid event payload.

End GithubWebhook.

(** ** metrics.ts *)

Module Metrics.

Definition Qlt_bool (x y : Q) : bool := negb (Qle_bool y x).

(** The argument is a mean, a JavaScript number that need not be an integer:
    it is taken in exact rational arithmetic. *)
Definition formatTimeDifference (milliseconds : Q) : string :=
  let hours := (milliseconds / (1000 * 60 * 60))%Q in
  if Qlt_bool hours 1 then
    let minutes := Qfloor (milliseconds / (1000 * 60))%Q in
    string_of_Z minutes ++ "m"
  else if Qlt_bool hours 24 then
    string_of_Z (Qfloor hours) ++ "h"
  else
    let days := Qfloor (hours / 24)%Q in
    if days =? 1 then "1 day"
    else string_of_Z days ++ " days".

(** [closedPRs.filter((pr) => pr.merged_at)] *)
Definition is_merged (pr : GhPull) : bool :=
  match gh_merged_at pr with
  | Some _ => true
  | None => false
  end.

(** The first loop of [getPRMetrics]: total time to first review and the
    number of PRs counted; a PR whose reviews cannot be fetched is skipped. *)
Definition review_time_step (octokit : Octokit) (owner repo : string)
    (acc : Z * Z) (pr : GhPull) : Z * Z :=
  match pulls_listReviews octokit owner repo (gh_number pr) with
  | Resolved (firstReview :: _) =>
      let timeToReview := rv_submitted_at firstReview - gh_created_at pr in
      (fst acc + timeToReview, snd acc + 1)
  | Resolved [] => acc
  | Rejected _ => acc
  end.

Definition review_time_totals (octokit : Octokit) (owner repo : string)
    (mergedPRs : list GhPull) : Z * Z :=
  fold_left (review_time_step octokit owner repo) (firstn 30 mergedPRs) (0, 0).

Definition merge_time_step (acc : Z * Z) (pr : GhPull) : Z * Z :=
  match gh_merged_at pr with
  | Some merged_at =>
      let timeToMerge := merged_at - gh_created_at pr in
      (fst acc + timeToMerge, snd acc + 1)
  | None => acc
  end.

Definition merge_time_totals (mergedPRs : list GhPull) : Z * Z :=
  fold_left merge_time_step (firstn 30 mergedPRs) (0, 0).

Definition average_string (totals : Z * Z) : string :=
  let (total, count) := totals in
  if 0 <? count then formatTimeDifference (inject_Z total / inject_Z count)%Q
  else "N/A".

Definition averageReviewTime (octokit : Octokit) (owner repo : string)
    (closedPRs : list GhPull) : string :=
  average_string
    (review_time_totals octokit owner repo (filter is_merged closedPRs)).

Definition averageMergeTime (closedPRs : list GhPull) : string :=
  average_string (merge_time_totals (filter is_merged closedPRs)).

End Metrics.

(** ** The operations as store transformers *)

Module StoreView.

Import PrTracker.

Definition trackPR_store (now : Z) (prData : PRData) (s : Store) : Store :=
  map_set (number prData)
          (tracked_entry now prData (map_get (number prData) s)) s.

Definition updatePRStatus_store (prNumber : Z) (updates : PartialTrackedPR)
    (s : Store) : Store :=
  match map_get prNumber s with
  | Some pr => map_set prNumber (merged_entry pr updates) s
  | None => s
  end.

End StoreView.


(** ** Vocabulary of the statements *)


(** The count a record stands for, as the code reads it ([reviewCount || 0]). *)
Definition count_of (pr : TrackedPR) : Z := or0 (reviewCount pr).

Definition hours_ms (h : Z) : Z := h * 60 * 60 * 1000.

(** A sequence of [updatePRStatus] calls on one PR. *)
Fixpoint updates_run (prNumber : Z) (us : list PartialTrackedPR) : M unit :=
  match us with
  | [] => ret tt
  | u :: us' =>
      PrTracker.updatePRStatus prNumber u ;; updates_run prNumber us'
  end.

(** Every supplied count delta is a count: not negative. *)
Definition count_delta (u : PartialTrackedPR) : Prop :=
  match u_reviewCount u with
  | Some delta => 0 <= delta
  | None => True
  end.


(** ** Reconciliation as a store transformer *)

Module SyncView.

Import PrTracker StoreView.

Definition review_logins (reviews : list GhReview) : list string :=
  map (fun r => or_unknown (rv_user_login r)) reviews.

(** One pass of the second loop for a PR that is not a draft and whose
    reviews were fetched: [trackPR], then the overwrite of [reviewers]. *)
Definition upsert (now : Z) (owner repo : string) (pr : GhPull)
    (reviews : list GhReview) (s : Store) : Store :=
  let s1 := trackPR_store now (sync_prData owner repo pr reviews) s in
  match map_get (gh_number pr) s1 with
  | Some pr_tracked =>
      map_set (gh_number pr)
              (set_reviewers pr_tracked (array_from_set (review_logins reviews)))
              s1
  | None => s1
  end.

(** The second loop: it stops at the first PR whose reviews are not
    fetched. *)
Fixpoint sync_loop_store (octokit : Octokit) (now : Z) (owner repo : string)
    (prs : list GhPull) (s : Store) : Store :=
  match prs with
  | [] => s
  | pr :: rest =>
      if gh_draft pr then sync_loop_store octokit now owner repo rest s
      else
        match pulls_listReviews octokit owner repo (gh_number pr) with
        | Resolved reviews =>
            sync_loop_store octokit now owner repo rest
              (upsert now owner repo pr reviews s)
        | Rejected _ => s
        end
  end.

Fixpoint sync_loop_error (octokit : Octokit) (owner repo : string)
    (prs : list GhPull) : option string :=
  match prs with
  | [] => None
  | pr :: rest =>
      if gh_draft pr then sync_loop_error octokit owner repo rest
      else
        match pulls_listReviews octokit owner repo (gh_number pr) with
        | Resolved _ => sync_loop_error octokit owner repo rest
        | Rejected e => Some e
        end
  end.

(** The PRs the second loop gets to upsert, with their reviews. *)
Fixpoint processed (octokit : Octokit) (owner repo : string)
    (prs : list GhPull) : list (GhPull * list GhReview) :=
  match prs with
  | [] => []
  | pr :: rest =>
      if gh_draft pr then processed octokit owner repo rest
      else
        match pulls_listReviews octokit owner repo (gh_number pr) with
        | Resolved reviews => (pr, reviews) :: processed octokit owner repo rest
        | Rejected _ => []
        end
  end.

Definition upsert_all (now : Z) (owner repo : string)
    (items : list (GhPull * list GhReview)) (s : Store) : Store :=
  fold_left (fun acc item => upsert now owner repo (fst item) (snd item) acc)
            items s.

(** The first loop, key by key. *)
Definition prune_loop (openPRNumbers : list Z) (keys : list Z) (s : Store)
    : Store :=
  fold_left (fun acc prNumber =>
               if negb (mem_Z prNumber openPRNumbers)
               then map_delete prNumber acc else acc)
            keys s.

Definition prune (openPRNumbers : list Z) (s : Store) : Store :=
  filter (fun kv => mem_Z (fst kv) openPRNumbers) s.

Definition sync_store (octokit : Octokit) (now : Z) (owner repo : string)
    (s : Store) : Store :=
  match pulls_list octokit owner repo state_open with
  | Resolved pullRequests =>
      sync_loop_store octokit now owner repo pullRequests
        (prune (map gh_number pullRequests) s)
  | Rejected _ => s
  end.

Definition sync_error (octokit : Octokit) (owner repo : string)
    : option string :=
  match pulls_list octokit owner repo state_open with
  | Resolved pullRequests => sync_loop_error octokit owner repo pullRequests
  | Rejected e => Some e
  end.

(** The entry reconciliation leaves for a PR, given the count the store held
    for its number. *)
Definition synced_entry (now : Z) (owner repo : string) (pr : GhPull)
    (reviews : list GhReview) (held : Z) : TrackedPR :=
  mkTrackedPR
    (with_counts (sync_prData owner repo pr reviews) (Some held))
    (array_from_set (review_logins reviews))
    ((now - gh_created_at pr) / (1000 * 60 * 60)).

Definition count_at (k : Z) (s : Store) : Z :=
  match map_get k s with
  | Some e => or0 (reviewCount e)
  | None => 0
  end.

Definition add_key (keys : list Z) (k : Z) : list Z :=
  if mem_Z k keys then keys else keys ++ [k].

End SyncView.

Definition item_numbers (items : list (GhPull * list GhReview)) : list Z :=
  map (fun item => gh_number (fst item)) items.

(** ** Scenarios *)

Module Scenarios.

#[local] Open Scope string_scope.

Definition open_pr (n : Z) : GhPull :=
  mkGhPull n "Add feature" "https://github.com/acme/app/pull"
           (Some "alice") 1000 2000 false None.

Definition review_by (login : string) (submitted_at : Z) : GhReview :=
  mkGhReview (Some login) submitted_at "APPROVED".

(** Five open PRs; the reviews of PR 3 cannot be fetched, every other PR
    has one review. *)
Definition five_open_third_fails : Octokit :=
  mkOctokit
    (fun _ _ _ => Resolved (map open_pr [1; 2; 3; 4; 5]))
    (fun _ _ n =>
       if Z.eqb n 3 then Rejected "HttpError: 502"
       else Resolved [review_by "bob" 5000]).

(** One open PR with two reviews, by bob and then by carol. *)
Definition one_open_two_reviews : Octokit :=
  mkOctokit
    (fun _ _ _ => Resolved [open_pr 1])
    (fun _ _ _ => Resolved [review_by "bob" 5000; review_by "carol" 7000]).

(** PRs 1 and 2 are open, the reviews of PR 2 cannot be fetched. *)
Definition two_open_second_fails : Octokit :=
  mkOctokit
    (fun _ _ _ => Resolved [open_pr 1; open_pr 2])
    (fun _ _ n =>
       if Z.eqb n 2 then Rejected "HttpError: 502"
       else Resolved [review_by "bob" 5000]).

(** A store tracking PR 9 only, as [trackPR] leaves it. *)
Definition tracking_pr9 : World :=
  run (PrTracker.trackPR 3600000
         (mkPRData 9 "Old work" "https://github.com/acme/app/pull/9" "dave"
                   0 "acme" "app" false None None None))
      initial_world.

Definition draft_pr : PRData :=
  mkPRData 7 "WIP" "https://github.com/acme/app/pull/7" "erin"
           0 "acme" "app" true None None None.

End Scenarios.

(** ** Sequences of operations *)

Module Ingestion.

Import PrTracker StoreView GithubWebhook.

(** What a webhook delivery can do to the store; [tracks] describes the PR
    data it may hand to [trackPR]. *)
Inductive ingestion_step (tracks : PRData -> Prop) (s : Store)
    : Store -> Prop :=
| step_none : ingestion_step tracks s s
| step_track now prData :
    tracks prData -> ingestion_step tracks s (trackPR_store now prData s)
| step_update prNumber updates :
    u_reviewers updates = None ->
    u_isDraft updates = None ->
    ingestion_step tracks s (updatePRStatus_store prNumber updates s)
| step_remove prNumber : ingestion_step tracks s (map_delete prNumber s).

(** The PR data a [pull_request] delivery hands to [trackPR]: the snapshot
    of the payload; it is a draft only on [ready_for_review] or [reopened],
    the [opened] branch drops drafts. *)
Definition payload_tracks (payload : WebhookPayload) (prData : PRData)
    : Prop :=
  exists pull,
    pull_request payload = Some pull /\
    prData = payload_prData pull payload /\
    (p_draft pull = true ->
     action_is payload "ready_for_review" = true \/
     action_is payload "reopened" = true).


Inductive Op :=
| OpTrack (now : Z) (prData : PRData)
| OpUpdateStatus (prNumber : Z) (updates : PartialTrackedPR)
| OpRemove (prNumber : Z)
| OpSync (octokit : Octokit) (now : Z) (owner repo : string)
| OpWebhook (crypto : Crypto) (env : Env) (now : Z) (event : string)
            (payload : WebhookPayload) (body : string)
            (signature : option string).

Definition run_op (op : Op) : M unit :=
  match op with
  | OpTrack now prData => trackPR now prData
  | OpUpdateStatus prNumber updates => updatePRStatus prNumber updates
  | OpRemove prNumber => removePR prNumber
  | OpSync octokit now owner repo => syncWithGitHub octokit now owner repo
  | OpWebhook crypto env now event payload body signature =>
      handleWebhook crypto env now event payload body signature
  end.

(** The operations one after the other; a throw ends the operation that
    threw (its caller logs it), not the sequence. *)
Fixpoint run_ops (ops : list Op) (w : World) : World :=
  match ops with
  | [] => w
  | op :: rest => run_ops rest (run (run_op op) w)
  end.

Definition no_draft (s : Store) : Prop :=
  Forall (fun kv : Z * TrackedPR => isDraft (snd kv) = false) s.

(** The operation is not handed a draft: [trackPR] gets a PR that is not a
    draft, [updatePRStatus] no [isDraft: true], and a [ready_for_review] or
    [reopened] delivery a snapshot that is not a draft. *)
Definition hands_no_draft (op : Op) : Prop :=
  match op with
  | OpTrack _ prData => isDraft prData = false
  | OpUpdateStatus _ updates => u_isDraft updates <> Some true
  | OpRemove _ => True
  | OpSync _ _ _ _ => True
  | OpWebhook _ _ _ _ payload _ _ =>
      forall pull,
        pull_request payload = Some pull ->
        action_is payload "ready_for_review" = true \/
        action_is payload "reopened" = true ->
        p_draft pull = false
  end.

End Ingestion.

(** ** The tiers of the average strings *)

Module MetricsView.

#[local] Open Scope string_scope.

(** The rule the description gives for the averages, that of [formatAge]:
    "just opened" below 1h, "<N>h" from 1h to 23h, "<N>d" with the day floor
    from 24h on, on a duration in milliseconds. *)
Definition formatAge_tiering (milliseconds : Q) : string :=
  let hours := (milliseconds / (1000 * 60 * 60))%Q in
  if Metrics.Qlt_bool hours 1 then "just opened"
  else if Metrics.Qlt_bool hours 24 then string_of_Z (Qfloor hours) ++ "h"
  else string_of_Z (Qfloor (hours / 24)%Q) ++ "d".

(** The tiers of [formatTimeDifference] on the mean [total / count], in
    integer arithmetic. *)
Definition mean_tier (total count : Z) : string :=
  if Z.ltb total (count * 3600000) then
    string_of_Z (total / (count * 60000)) ++ "m"
  else if Z.ltb total (count * 86400000) then
    string_of_Z (total / (count * 3600000)) ++ "h"
  else
    let days := total / (count * 86400000) in
    if Z.eqb days 1 then "1 day" else string_of_Z days ++ " days".

Definition merged_pr (n created_at merged_at : Z) : GhPull :=
  mkGhPull n "Fix" "https://github.com/acme/app/pull" (Some "alice")
           created_at merged_at false (Some merged_at).

(** Three merged PRs, first reviewed 1h, 3h and 5h after creation. *)
Definition three_merged : list GhPull :=
  [merged_pr 11 0 90000000; merged_pr 12 0 90000000; merged_pr 13 0 90000000].

Definition three_merged_reviews : Octokit :=
  mkOctokit
    (fun _ _ _ => Resolved three_merged)
    (fun _ _ n =>
       if Z.eqb n 11 then Resolved [mkGhReview (Some "bob") 3600000 "APPROVED"]
       else if Z.eqb n 12 then
         Resolved [mkGhReview (Some "bob") 10800000 "APPROVED"]
       else Resolved [mkGhReview (Some "carol") 18000000 "COMMENTED";
                      mkGhReview (Some "bob") 20000000 "APPROVED"]).

End MetricsView.

(** ** A PR through its life *)

Module Lifecycle.

#[local] Open Scope string_scope.

Import GithubWebhook Ingestion.

(** The entry of PR 9 in [Scenarios.tracking_pr9]: created at 0, tracked one
    hour later. *)
Definition pr9 : TrackedPR :=
  mkTrackedPR
    (mkPRData 9 "Old work" "https://github.com/acme/app/pull/9" "dave"
              0 "acme" "app" false None None (Some 0))
    [] 1.

Definition pr9_snapshot : PullRequestPayload :=
  mkPullRequestPayload 9 "Old work" "https://github.com/acme/app/pull/9"
                       "dave" 0 "open" false.

(** The delivery of a review of PR 9 submitted at [submitted_at]. *)
Definition review_of_pr9 (submitted_at : Z) : WebhookPayload :=
  mkWebhookPayload (Some "submitted") (Some pr9_snapshot)
                   (Some (mkReviewPayload "approved" "bob" submitted_at))
                   "app" "acme".

Definition pr9_reviewed (submitted_at : Z) : TrackedPR :=
  mkTrackedPR
    (mkPRData 9 "Old work" "https://github.com/acme/app/pull/9" "dave"
              0 "acme" "app" false (Some submitted_at) None (Some 1))
    [] 1.

(** Neither a Slack token nor a webhook secret. *)
Definition no_token : Env := mkEnv None None.

(** A stand-in for the HMAC of [crypto] in the scenarios. *)
Definition keyed : Crypto := mkCrypto (fun key data => key ++ "/" ++ data).

(** A webhook secret, no Slack token. *)
Definition signing : Env := mkEnv None (Some "s3cret").

(** The JSON text of a delivery, abbreviated. *)
Definition raw : string := "{...}".

(** The header GitHub sends for [body] under the secret of [signing]. *)
Definition signed (body : string) : option string :=
  Some ("sha256=" ++ hmac_sha256_hex keyed "s3cret" body).

(** [{ reviewCount: delta }] *)
Definition count_update (delta : Z) : PartialTrackedPR :=
  mkPartial None None None None None None None None None None (Some delta)
            None None.

(** A draft PR is opened, then PR 9 is tracked, reviewed, reconciled and
    removed. *)
Definition draft_opened : WebhookPayload :=
  mkWebhookPayload (Some "opened")
                   (Some (mkPullRequestPayload 7 "WIP"
                            "https://github.com/acme/app/pull/7" "erin" 0
                            "open" true))
                   None "app" "acme".

(** The same draft PR, closed and then reopened. *)
Definition draft_reopened : WebhookPayload :=
  mkWebhookPayload (Some "reopened")
                   (Some (mkPullRequestPayload 7 "WIP"
                            "https://github.com/acme/app/pull/7" "erin" 0
                            "open" true))
                   None "app" "acme".

Definition a_day_of_operations : list Op :=
  [ OpWebhook keyed signing 1000 "pull_request" draft_opened raw
              (signed raw);
    OpTrack 3600000
      (mkPRData 9 "Old work" "https://github.com/acme/app/pull/9" "dave"
                0 "acme" "app" false None None None);
    OpUpdateStatus 9 (review_updates 7200000);
    OpSync Scenarios.five_open_third_fails 9000000 "acme" "app";
    OpRemove 1 ].

End Lifecycle.

(** * More of the code: sequences, the notifier's digests, the metrics and
      the scheduler *)

From Stdlib Require Import Sorted Permutation.

(** ** Sequences of review deliveries *)

Module Deliveries.

Import GithubWebhook.

(** Review deliveries handled one after the other. *)
Definition review_deliveries (env : Env) (payloads : list WebhookPayload)
    : M unit :=
  for_of payloads (handlePullRequestReviewEvent env).

(** A [submitted] review delivery for PR [n]. *)
Definition submitted_for (n : Z) (payload : WebhookPayload) : Prop :=
  action payload = Some "submitted"%string /\
  (exists pull, pull_request payload = Some pull /\ p_number pull = n) /\
  (exists rv, review payload = Some rv).

Definition submitted_at_of (payload : WebhookPayload) : option Z :=
  match review payload with
  | Some rv => Some (r_submitted_at rv)
  | None => None
  end.

End Deliveries.

(** ** The reviewers of the entries *)

Module Reviewers.

Import Ingestion.

(** No entry lists a reviewer twice. *)
Definition reviewers_distinct (s : Store) : Prop :=
  Forall (fun kv : Z * TrackedPR => NoDup (reviewers (snd kv))) s.

(** The operation is not handed a list of reviewers with a repetition (only
    [updatePRStatus] can be handed one at all). *)
Definition hands_distinct_reviewers (op : Op) : Prop :=
  match op with
  | OpUpdateStatus _ updates =>
      match u_reviewers updates with
      | Some rs => NoDup rs
      | None => True
      end
  | _ => True
  end.

End Reviewers.

(** ** More scenarios *)

Module Scenarios2.

#[local] Open Scope string_scope.

Import Scenarios.

Definition draft_upstream (n : Z) : GhPull :=
  mkGhPull n "Old work" "https://github.com/acme/app/pull" (Some "dave")
           0 2000 true None.

(** PR 9 is open but a draft now, PR 1 is open with two reviews. *)
Definition pr9_turned_draft : Octokit :=
  mkOctokit
    (fun _ _ _ => Resolved [draft_upstream 9; open_pr 1])
    (fun _ _ n =>
       if Z.eqb n 9 then Rejected "HttpError: 404"
       else Resolved [review_by "bob" 5000; review_by "bob" 7000]).

(** A Slack token, no webhook secret. *)
Definition with_token : Env := mkEnv (Some "xoxb-token") None.

(** A Slack token and a webhook secret. *)
Definition with_token_signing : Env :=
  mkEnv (Some "xoxb-token") (Some "s3cret").

Definition pr9_payload (act state : string) : GithubWebhook.WebhookPayload :=
  GithubWebhook.mkWebhookPayload (Some act)
    (Some (GithubWebhook.mkPullRequestPayload 9 "Old work"
             "https://github.com/acme/app/pull/9" "dave" 0 state false))
    None "app" "acme".

Definition pr9_pull (state : string) : GithubWebhook.PullRequestPayload :=
  GithubWebhook.mkPullRequestPayload 9 "Old work"
    "https://github.com/acme/app/pull/9" "dave" 0 state false.

(** PRs 1 and 2 are open; the reviews of neither can be fetched, with
    different rejections. *)
Definition both_reviews_fail : Octokit :=
  mkOctokit
    (fun _ _ _ => Resolved [open_pr 1; open_pr 2])
    (fun _ _ n =>
       if Z.eqb n 1 then Rejected "HttpError: 502"
       else Rejected "HttpError: 404").

End Scenarios2.

(** ** The parts of a delivery *)

Module Delivery.

Import GithubWebhook.

(** [!process.env.GITHUB_WEBHOOK_SECRET] *)
Definition secret_missing (env : Env) : bool :=
  match GITHUB_WEBHOOK_SECRET env with
  | None => true
  | Some EmptyString => true
  | Some _ => false
  end.

(** The delivery carries the signature GitHub computes: no secret is
    configured, or the header is "sha256=" followed by the HMAC of the body
    under the secret. *)
Definition accepted (crypto : Crypto) (env : Env) (body : string)
    (signature : option string) : Prop :=
  secret_missing env = true \/
  exists secret,
    GITHUB_WEBHOOK_SECRET env = Some secret /\
    signature = Some ("sha256=" ++ hmac_sha256_hex crypto secret body)%string.

(** The first line [handleWebhook] prints for a delivery it accepts. *)
Definition received_line (event : string) (payload : WebhookPayload)
    : ConsoleLine :=
  console_log ("Received GitHub webhook: " ++ event ++ " - "
                 ++ show_action payload).

(** The [switch (event)] of [handleWebhook]. *)
Definition dispatch (env : Env) (now : Z) (event : string)
    (payload : WebhookPayload) : M unit :=
  if String.eqb event "pull_request" then
    handlePullRequestEvent env now payload
  else if String.eqb event "pull_request_review" then
    handlePullRequestReviewEvent env payload
  else if String.eqb event "pull_request_review_comment" then
    handlePullRequestReviewCommentEvent now payload
  else print (console_log ("Unhandled event type: " ++ event)).

End Delivery.

(** ** What an operation may add to the console and to Slack *)

Module Outbox.

(** From any world, [m] only appends to the console and to the Slack
    outbox, at most [k] messages, and none when no token is configured. *)
Definition posts_at_most {A} (env : Env) (k : nat) (m : M A) : Prop :=
  forall w,
    exists later posted,
      console (run m w) = console w ++ later /\
      slack (run m w) = slack w ++ posted /\
      (List.length posted <= k)%nat /\
      (SlackNotifier.token_missing env = true -> posted = []).

End Outbox.

(** ** metrics.ts: the report of [getPRMetrics] *)

Module MetricsReport.

Import PrTracker.

(** A [Map<string, number>] of counts, in insertion order. *)
Definition Tally := list (string * Z).

(** [m.set(k, (m.get(k) || 0) + 1)] *)
Fixpoint bump (k : string) (m : Tally) : Tally :=
  match m with
  | [] => [(k, 1)]
  | (k', n) :: m' =>
      if String.eqb k k' then (k', n + 1) :: m' else (k', n) :: bump k m'
  end.

Definition tally (keys : list string) : Tally :=
  fold_left (fun m k => bump k m) keys [].

(** [entries.sort((a, b) => b.count - a.count)]: [Array.prototype.sort] is
    stable, so the result is the one arrangement by decreasing count that
    keeps entries of equal count in their order; an insertion sort that
    does so computes it. *)
Fixpoint insert_desc (x : string * Z) (sorted : list (string * Z))
    : list (string * Z) :=
  match sorted with
  | [] => [x]
  | y :: rest =>
      if snd y <=? snd x then x :: y :: rest else y :: insert_desc x rest
  end.

Definition sort_desc (entries : list (string * Z)) : list (string * Z) :=
  fold_right insert_desc [] entries.

(** [Array.from(counts.entries()).map(...).sort(...).slice(0, 5)] *)
Definition top5 (counts : Tally) : list (string * Z) :=
  firstn 5 (sort_desc counts).

(** The third loop of [getPRMetrics]: the number of reviews and the reviews
    per reviewer over the sample; a PR whose reviews cannot be fetched is
    skipped. *)
Definition review_count_step (octokit : Octokit) (owner repo : string)
    (acc : Z * Tally) (pr : GhPull) : Z * Tally :=
  match pulls_listReviews octokit owner repo (gh_number pr) with
  | Resolved reviews =>
      (fst acc + Z.of_nat (List.length reviews),
       fold_left (fun m review => bump (or_unknown (rv_user_login review)) m)
                 reviews (snd acc))
  | Rejected _ => acc
  end.

Definition review_counts (octokit : Octokit) (owner repo : string)
    (mergedPRs : list GhPull) : Z * Tally :=
  fold_left (review_count_step octokit owner repo) (firstn 30 mergedPRs)
            (0, []).

(** [Math.round(x * 10) / 10], in exact rational arithmetic; [Math.round]
    takes a half upwards. *)
Definition round1 (x : Q) : Q :=
  (inject_Z (Qfloor (x * 10 + (1 # 2))) / 10)%Q.

Record ReviewStats := mkReviewStats {
  totalReviewed : Z;
  totalMerged : Z;
  avgReviewsPerPR : Q
}.

Record PRMetrics := mkPRMetrics {
  totalOpenPRs : Z;
  needingReview : Z;
  stalePRs : Z;
  averageReviewTime : string;
  averageMergeTime : string;
  reviewStats : ReviewStats;
  topContributors : list (string * Z);
  topReviewers : list (string * Z)
}.

Definition len {A} (l : list A) : Z := Z.of_nat (List.length l).

(** The report computed from the store and the closed PRs once fetched. *)
Definition report (octokit : Octokit) (now : Z) (owner repo : string)
    (w : World) (closedPRs : list GhPull) : PRMetrics :=
  let trackedPRs := getTrackedPRs w in
  let needingReview := getPRsNeedingReview w in
  let stalePRs := getStalePRs now 24 w in
  let mergedPRs := filter Metrics.is_merged closedPRs in
  let reviewed := Metrics.review_time_totals octokit owner repo mergedPRs in
  let reviewedCount := snd reviewed in
  let avgReviewTime := Metrics.average_string reviewed in
  let merged := Metrics.merge_time_totals mergedPRs in
  let mergedCount := snd merged in
  let avgMergeTime := Metrics.average_string merged in
  let counted := review_counts octokit owner repo mergedPRs in
  let totalReviews := fst counted in
  let reviewerCounts := snd counted in
  let avgReviewsPerPR :=
    if 0 <? mergedCount
    then (inject_Z totalReviews / inject_Z mergedCount)%Q
    else 0%Q in
  let contributorCounts := tally (map (fun pr : TrackedPR => author pr)
                                      trackedPRs) in
  mkPRMetrics (len trackedPRs) (len needingReview) (len stalePRs)
              avgReviewTime avgMergeTime
              (mkReviewStats reviewedCount mergedCount
                             (round1 avgReviewsPerPR))
              (top5 contributorCounts) (top5 reviewerCounts).

Definition read_world : M World := fun w => (Returned w, w).

Definition getPRMetrics (octokit : Octokit) (now : Z) (owner repo : string)
    : M PRMetrics :=
  try_catch
    (w <- read_world ;;
     closedPRs <- await (pulls_list octokit owner repo state_closed) ;;
     ret (report octokit now owner repo w closedPRs))
    (fun error =>
       print (console_error ("Error calculating metrics: " ++ error)) ;;
       throw error).

(** How often [k] occurs in [keys]. *)
Definition occurrences (k : string) (keys : list string) : Z :=
  len (filter (String.eqb k) keys).

(** The logins of the reviews the third loop counts. *)
Definition sampled_logins (octokit : Octokit) (owner repo : string)
    (mergedPRs : list GhPull) : list string :=
  flat_map
    (fun pr =>
       match pulls_listReviews octokit owner repo (gh_number pr) with
       | Resolved reviews =>
           map (fun review => or_unknown (rv_user_login review)) reviews
       | Rejected _ => []
       end)
    (firstn 30 mergedPRs).

(** A leaderboard of the keys [keys]: at most five entries, no key twice,
    each with the number of its occurrences, by decreasing count, and no key
    left out that occurs more often than a listed one. *)
Definition leaderboard_of (keys : list string) (top : list (string * Z))
    : Prop :=
  (List.length top <= 5)%nat /\
  NoDup (map fst top) /\
  (forall k n, In (k, n) top -> n = occurrences k keys /\ 1 <= n) /\
  StronglySorted (fun x y : string * Z => snd y <= snd x) top /\
  (forall k, In k keys -> ~ In k (map fst top) ->
             List.length top = 5%nat /\
             forall k' n, In (k', n) top -> occurrences k keys <= n).

End MetricsReport.

Module TallyView.

Import MetricsReport.

(** [m.get(k)] *)
Fixpoint tally_get (k : string) (m : Tally) : option Z :=
  match m with
  | [] => None
  | (k', n) :: m' => if String.eqb k k' then Some n else tally_get k m'
  end.

Definition bump_all (keys : list string) (m : Tally) : Tally :=
  fold_left (fun m k => bump k m) keys m.

(** [m] counts the keys of [keys]. *)
Definition counts_of (keys : list string) (m : Tally) : Prop :=
  NoDup (map fst m) /\
  forall k, tally_get k m
            = if 0 <? occurrences k keys then Some (occurrences k keys)
              else None.

End TallyView.

Module SampleView.

(** The PR counts towards the time to first review: its reviews are
    fetched and there is one. *)
Definition has_first_review (octokit : Octokit) (owner repo : string)
    (pr : GhPull) : bool :=
  match pulls_listReviews octokit owner repo (gh_number pr) with
  | Resolved (_ :: _) => true
  | Resolved [] => false
  | Rejected _ => false
  end.

(** A duration as the report writes it: whole minutes, whole hours, "1 day"
    or whole days. *)
Definition duration_string (s : string) : Prop :=
  exists n : Z,
    s = (string_of_Z n ++ "m")%string \/
    s = (string_of_Z n ++ "h")%string \/
    s = "1 day"%string \/
    s = (string_of_Z n ++ " days")%string.

End SampleView.

(** ** The digests of slack-notifier.ts and scheduler.ts *)

(** [interface StalePRNotification extends PRNotification] *)
Record StalePRNotification := mkStalePRNotification {
  s_pr :> PRNotification;
  s_age : string;
  s_reviewCount : Z
}.

(** What [notifyStalePRs] and [sendDailySummary] post: the fallback text and
    the per-PR sections of the first, the four figures of the second.  The
    blocks that are the same in every post (headers, dividers, hints) and
    the date line of the summary are left out. *)
Inductive DigestPost :=
| StaleDigest (text : string) (prBlocks : list string)
| DailySummary (totalPRs needingReview stalePRs : Z) (avgReviewTime : string).

(** The world of the scheduled jobs: the world of the tracker and the
    digests posted. *)
Record Desk := mkDesk {
  tracker : World;
  digests : list DigestPost
}.

Definition Job (A : Type) : Type := Desk -> Outcome A * Desk.

Definition ret_s {A} (a : A) : Job A := fun d => (Returned a, d).

Definition bind_s {A B} (m : Job A) (f : A -> Job B) : Job B :=
  fun d =>
    match m d with
    | (Returned a, d') => f a d'
    | (Threw e, d') => (Threw e, d')
    end.

Definition try_catch_s {A} (m : Job A) (handler : string -> Job A) : Job A :=
  fun d =>
    match m d with
    | (Returned a, d') => (Returned a, d')
    | (Threw e, d') => handler e d'
    end.

(** An operation of the tracker, run at the desk. *)
Definition lift {A} (m : M A) : Job A :=
  fun d =>
    match m (tracker d) with
    | (o, w') => (o, mkDesk w' (digests d))
    end.

Definition post_digest (post : DigestPost) : Job unit :=
  fun d => (Returned tt, mkDesk (tracker d) (digests d ++ [post])).

Definition run_s {A} (m : Job A) (d : Desk) : Desk := snd (m d).

Definition outcome_s {A} (m : Job A) (d : Desk) : Outcome A := fst (m d).

Declare Scope desk_scope.
Delimit Scope desk_scope with desk.
Notation "x <- m ;; k" := (bind_s m (fun x => k))
  (at level 61, m at next level, right associativity) : desk_scope.
Notation "m ;; k" := (bind_s m (fun _ => k))
  (at level 61, right associativity) : desk_scope.

Module Digests.

Import SlackNotifier.

#[local] Open Scope desk_scope.

(** [n !== 1 ? 's' : ''] *)
Definition plural (n : Z) : string := if n =? 1 then "" else "s".

Definition newline : string := String "010"%char "".

(** The text of the section of one PR. *)
Definition stale_block (pr : StalePRNotification) : string :=
  "• *<" ++ n_url pr ++ "|#" ++ string_of_Z (n_number pr) ++ ": "
    ++ n_title pr ++ ">*" ++ newline
    ++ "  Opened by " ++ n_author pr ++ " • " ++ s_age pr ++ " • "
    ++ string_of_Z (s_reviewCount pr) ++ " review"
    ++ plural (s_reviewCount pr).

Definition stale_text (prs : list StalePRNotification) : string :=
  string_of_Z (Z.of_nat (List.length prs)) ++ " stale PR"
    ++ plural (Z.of_nat (List.length prs)) ++ " need attention".

(** The post is taken to be accepted by Slack, as for the other
    notifications. *)
Definition notifyStalePRs (env : Env) (prs : list StalePRNotification)
    : Job unit :=
  if token_missing env then lift (print disabled)
  else if Nat.eqb (List.length prs) 0 then ret_s tt
  else
    post_digest (StaleDigest (stale_text prs) (map stale_block prs)) ;;
    lift (print (console_log ("Slack stale PR notification sent ("
                                ++ string_of_Z (Z.of_nat (List.length prs))
                                ++ " PRs)"))).

Definition sendDailySummary (env : Env)
    (totalPRs needingReview stalePRs : Z) (avgReviewTime : string) : Job unit :=
  if token_missing env then lift (print disabled)
  else
    post_digest (DailySummary totalPRs needingReview stalePRs avgReviewTime) ;;
    lift (print (console_log "Slack daily summary sent")).

End Digests.

Module Scheduler.

Import PrTracker SlackNotifier Digests.

#[local] Open Scope desk_scope.

Record SchedulerEnv := mkSchedulerEnv {
  slack_env : Env;
  GITHUB_OWNER : option string;
  GITHUB_REPO : option string;
  STALE_PR_HOURS : option string
}.

(** An environment variable that is set and not empty. *)
Definition truthy (x : option string) : option string :=
  match x with
  | Some EmptyString => None
  | Some s => Some s
  | None => None
  end.

(** [if (!owner || !repo)] *)
Definition configured (senv : SchedulerEnv) : option (string * string) :=
  match truthy (GITHUB_OWNER senv), truthy (GITHUB_REPO senv) with
  | Some owner, Some repo => Some (owner, repo)
  | _, _ => None
  end.

Definition not_configured : ConsoleLine :=
  console_error "GITHUB_OWNER and GITHUB_REPO must be configured".

(** [getStalePRs] on the result of [parseInt], which is a number or [NaN]
    ([None]); against a [NaN] threshold no comparison holds and no PR is
    stale. *)
Definition getStalePRs_parsed (now : Z) (hoursThreshold : option Z)
    (w : World) : list TrackedPR :=
  match hoursThreshold with
  | Some hours => getStalePRs now hours w
  | None => []
  end.

(** [{ ...pr, age: formatPRAge(pr), reviewCount: pr.reviewCount || 0 }] *)
Definition stale_notification (pr : TrackedPR) : StalePRNotification :=
  mkStalePRNotification
    (mkPRNotification (number pr) (title pr) (url pr) (author pr)
                      (owner pr) (repo pr))
    (formatPRAge pr) (or0 (reviewCount pr)).

Definition read_tracker : Job World := fun d => (Returned (tracker d), d).

Section Jobs.

(** [parseInt(s, 10)] of the runtime; [None] is [NaN]. *)
Variable parseInt : string -> option Z.

Variable octokit : Octokit.

(** [now] is the clock during the sync, [later] the clock of the reads that
    follow it. *)
Variables (now later : Z).

Definition staleThreshold (senv : SchedulerEnv) : option Z :=
  parseInt (match truthy (STALE_PR_HOURS senv) with
            | Some s => s
            | None => "24"
            end).

Definition checkStalePRs (senv : SchedulerEnv) : Job unit :=
  match configured senv with
  | None => lift (print not_configured)
  | Some (owner, repo) =>
      try_catch_s
        (lift (print (console_log "Running stale PR check...")) ;;
         lift (syncWithGitHub octokit now owner repo) ;;
         w <- read_tracker ;;
         let stalePRs := getStalePRs_parsed later (staleThreshold senv) w in
         if (0 <? List.length stalePRs)%nat then
           lift (print (console_log
                          ("Found "
                             ++ string_of_Z (Z.of_nat (List.length stalePRs))
                             ++ " stale PR(s)"))) ;;
           notifyStalePRs (slack_env senv) (map stale_notification stalePRs)
         else lift (print (console_log "No stale PRs found")))
        (fun error =>
           lift (print (console_error ("Error checking stale PRs: "
                                         ++ error))))
  end.

Definition sendDailyMetricsSummary (senv : SchedulerEnv) : Job unit :=
  match configured senv with
  | None => lift (print not_configured)
  | Some (owner, repo) =>
      try_catch_s
        (lift (print (console_log "Generating daily metrics summary...")) ;;
         lift (syncWithGitHub octokit now owner repo) ;;
         w <- read_tracker ;;
         let trackedPRs := getTrackedPRs w in
         let needingReview := getPRsNeedingReview w in
         let stalePRs := getStalePRs later 24 w in
         metrics <- lift (MetricsReport.getPRMetrics octokit later owner repo) ;;
         sendDailySummary (slack_env senv)
           (MetricsReport.len trackedPRs) (MetricsReport.len needingReview)
           (MetricsReport.len stalePRs)
           (MetricsReport.averageReviewTime metrics))
        (fun error =>
           lift (print (console_error ("Error sending daily summary: "
                                         ++ error))))
  end.

Definition periodicSync (senv : SchedulerEnv) : Job unit :=
  match configured senv with
  | None => ret_s tt
  | Some (owner, repo) =>
      try_catch_s
        (lift (print (console_log "Running periodic GitHub sync...")) ;;
         lift (syncWithGitHub octokit now owner repo))
        (fun error =>
           lift (print (console_error ("Error during periodic sync: "
                                         ++ error))))
  end.

End Jobs.

End Scheduler.

(** ** What an operation never does *)

Module Quiet.

(** [m] never changes the Slack outbox. *)
Definition no_slack {A} (m : M A) : Prop :=
  forall w, slack (run m w) = slack w.

End Quiet.

Module Schedules.

#[local] Open Scope string_scope.

Import Scenarios2.

(** Owner and repository configured, Slack token set, no
    [STALE_PR_HOURS]. *)
Definition acme_app : Scheduler.SchedulerEnv :=
  Scheduler.mkSchedulerEnv with_token (Some "acme") (Some "app") None.

(** No repository configured. *)
Definition owner_only : Scheduler.SchedulerEnv :=
  Scheduler.mkSchedulerEnv with_token (Some "acme") None None.

(** [parseInt] as far as the scenarios call it: on the default
    threshold. *)
Definition parse_default (s : string) : option Z :=
  if String.eqb s "24" then Some 24 else None.

(** The desk around [Scenarios.tracking_pr9], nothing posted yet. *)
Definition desk_pr9 : Desk := mkDesk Scenarios.tracking_pr9 [].

End Schedules.
(** * Facts about the store *)

Section StoreFacts.

Implicit Types (k : Z) (v : TrackedPR) (m : Store).

Lemma mem_Z_In k (l : list Z) : mem_Z k l = true <-> In k l.
Proof.
  unfold mem_Z. rewrite existsb_exists. split.
  - intros (x & Hin & Heq). apply Z.eqb_eq in Heq. now subst.
  - intros Hin. exists k. split; [assumption | apply Z.eqb_refl].
Qed.

Lemma mem_Z_not_In k (l : list Z) : mem_Z k l = false <-> ~ In k l.
Proof.
  rewrite <- mem_Z_In. destruct (mem_Z k l); intuition congruence.
Qed.

Lemma map_get_set_same k v m : map_get k (map_set k v m) = Some v.
Proof.
  induction m as [|[k' v'] m IH]; simpl.
  - now rewrite Z.eqb_refl.
  - destruct (Z.eqb_spec k k') as [->|Hne]; simpl.
    + now rewrite Z.eqb_refl.
    + destruct (Z.eqb_spec k k'); [contradiction | exact IH].
Qed.

Lemma map_get_set_other k k' v m :
  k' <> k -> map_get k' (map_set k v m) = map_get k' m.
Proof.
  intros Hne. induction m as [|[k0 v0] m IH]; simpl.
  - destruct (Z.eqb_spec k' k); [contradiction | reflexivity].
  - destruct (Z.eqb_spec k k0) as [->|Hk]; simpl.
    + destruct (Z.eqb_spec k' k0); [contradiction | reflexivity].
    + now rewrite IH.
Qed.

Lemma map_get_set k k' v m :
  map_get k' (map_set k v m) = if k' =? k then Some v else map_get k' m.
Proof.
  destruct (Z.eqb_spec k' k) as [->|Hne].
  - apply map_get_set_same.
  - now apply map_get_set_other.
Qed.

Lemma map_set_set k v v' m : map_set k v' (map_set k v m) = map_set k v' m.
Proof.
  induction m as [|[k0 v0] m IH]; simpl.
  - now rewrite Z.eqb_refl.
  - destruct (Z.eqb_spec k k0) as [->|Hk]; simpl.
    + now rewrite Z.eqb_refl.
    + destruct (Z.eqb_spec k k0); [contradiction | now rewrite IH].
Qed.

Lemma map_get_None k m : map_get k m = None <-> ~ In k (map_keys m).
Proof.
  induction m as [|[k0 v0] m IH]; simpl.
  - intuition.
  - destruct (Z.eqb_spec k k0) as [->|Hk].
    + split; [discriminate | intros H; exfalso; apply H; now left].
    + rewrite IH. intuition.
Qed.

Lemma map_get_Some_In k v m : map_get k m = Some v -> In (k, v) m.
Proof.
  induction m as [|[k0 v0] m IH]; simpl; [discriminate|].
  destruct (Z.eqb_spec k k0) as [->|Hk].
  - intros [= ->]. now left.
  - intros H. right. now apply IH.
Qed.

Lemma In_map_get k v m : wf_store m -> In (k, v) m -> map_get k m = Some v.
Proof.
  unfold wf_store, map_keys.
  induction m as [|[k0 v0] m IH]; simpl; [intros _ []|].
  intros Hnd [Heq | Hin]; inversion Hnd as [|? ? Hnotin Hnd']; subst.
  - injection Heq as Hk Hv. subst. now rewrite Z.eqb_refl.
  - destruct (Z.eqb_spec k k0) as [->|Hk].
    + exfalso. apply Hnotin. change k0 with (fst (k0, v)). now apply in_map.
    + now apply IH.
Qed.

Lemma map_keys_set k v m :
  map_keys (map_set k v m)
  = if mem_Z k (map_keys m) then map_keys m else map_keys m ++ [k].
Proof.
  unfold map_keys, mem_Z. induction m as [|[k0 v0] m IH]; simpl; [reflexivity|].
  destruct (Z.eqb_spec k k0) as [->|Hk]; simpl; [reflexivity|].
  rewrite IH. now destruct (existsb (Z.eqb k) (map fst m)).
Qed.

Lemma wf_store_set k v m : wf_store m -> wf_store (map_set k v m).
Proof.
  unfold wf_store. rewrite map_keys_set.
  destruct (mem_Z k (map_keys m)) eqn:E; [trivial|].
  intros Hnd. apply mem_Z_not_In in E.
  apply NoDup_rev in Hnd. rewrite <- (rev_involutive (_ ++ _)).
  apply NoDup_rev. rewrite rev_app_distr. simpl. constructor; [|assumption].
  now rewrite <- in_rev.
Qed.

Lemma map_keys_filter (f : Z -> bool) m :
  map_keys (filter (fun kv => f (fst kv)) m) = filter f (map_keys m).
Proof.
  unfold map_keys. induction m as [|[k0 v0] m IH]; simpl; [reflexivity|].
  destruct (f k0); simpl; now rewrite IH.
Qed.

Lemma NoDup_filter_Z (f : Z -> bool) (l : list Z) :
  NoDup l -> NoDup (filter f l).
Proof.
  induction 1 as [|x l Hx Hnd IH]; simpl; [constructor|].
  destruct (f x); [|assumption].
  constructor; [|assumption]. rewrite filter_In. tauto.
Qed.

Lemma wf_store_filter (f : Z -> bool) m :
  wf_store m -> wf_store (filter (fun kv => f (fst kv)) m).
Proof.
  unfold wf_store. rewrite map_keys_filter. apply NoDup_filter_Z.
Qed.

Lemma wf_store_delete k m : wf_store m -> wf_store (map_delete k m).
Proof.
  apply (wf_store_filter (fun k' => negb (k =? k'))).
Qed.

Lemma map_get_filter (f : Z -> bool) k m :
  map_get k (filter (fun kv => f (fst kv)) m)
  = if f k then map_get k m else None.
Proof.
  induction m as [|[k0 v0] m IH]; simpl.
  - now destruct (f k).
  - destruct (f k0) eqn:Ef; simpl.
    + destruct (Z.eqb_spec k k0) as [->|Hk]; [now rewrite Ef | exact IH].
    + destruct (Z.eqb_spec k k0) as [->|Hk]; [now rewrite IH, Ef | exact IH].
Qed.

Lemma map_get_delete k k' m :
  map_get k' (map_delete k m) = if k' =? k then None else map_get k' m.
Proof.
  unfold map_delete.
  rewrite (map_get_filter (fun x => negb (k =? x))).
  rewrite (Z.eqb_sym k k'). now destruct (k' =? k).
Qed.

(** Two maps with the same keys in the same order and the same value under
    every key are the same map. *)
Lemma store_ext m m' :
  wf_store m ->
  map_keys m = map_keys m' ->
  (forall k, map_get k m = map_get k m') ->
  m = m'.
Proof.
  unfold wf_store, map_keys. revert m'.
  induction m as [|[k0 v0] m IH]; intros [|[k1 v1] m'] Hnd Hkeys Hget;
    simpl in *; try discriminate; [reflexivity|].
  injection Hkeys as <- Hkeys. inversion Hnd as [|? ? Hnotin Hnd']; subst.
  pose proof (Hget k0) as H0. rewrite Z.eqb_refl in H0. injection H0 as <-.
  f_equal. apply IH; [assumption | assumption |].
  intros k. specialize (Hget k).
  destruct (Z.eqb_spec k k0) as [Heq|Hk]; [|exact Hget].
  rewrite Heq. transitivity (@None TrackedPR); [|symmetry].
  - now apply map_get_None.
  - apply map_get_None. unfold map_keys. now rewrite <- Hkeys.
Qed.

End StoreFacts.

(** * The operations as store transformers *)

Section Effects.

Import PrTracker StoreView.

Lemma trackPR_returns now prData w :
  outcome (trackPR now prData) w = Returned tt.
Proof. reflexivity. Qed.

Lemma trackPR_run now prData w :
  trackedPRs (run (trackPR now prData) w)
  = trackPR_store now prData (trackedPRs w).
Proof. reflexivity. Qed.

Lemma updatePRStatus_returns prNumber updates w :
  outcome (updatePRStatus prNumber updates) w = Returned tt.
Proof.
  unfold outcome, updatePRStatus, bind, get_store.
  now destruct (map_get prNumber (trackedPRs w)).
Qed.

Lemma updatePRStatus_run prNumber updates w :
  trackedPRs (run (updatePRStatus prNumber updates) w)
  = updatePRStatus_store prNumber updates (trackedPRs w).
Proof.
  unfold run, updatePRStatus, updatePRStatus_store, bind, get_store.
  now destruct (map_get prNumber (trackedPRs w)).
Qed.

Lemma removePR_run prNumber w :
  trackedPRs (run (removePR prNumber) w) = map_delete prNumber (trackedPRs w).
Proof. reflexivity. Qed.


Lemma map_get_updatePRStatus_store prNumber updates s k :
  map_get k (updatePRStatus_store prNumber updates s)
  = if k =? prNumber
    then option_map (fun pr => merged_entry pr updates) (map_get prNumber s)
    else map_get k s.
Proof.
  unfold updatePRStatus_store.
  destruct (map_get prNumber s) as [pr|] eqn:E.
  - now rewrite map_get_set.
  - destruct (Z.eqb_spec k prNumber) as [Heq|_]; [now rewrite Heq|reflexivity].
Qed.

Lemma map_keys_set_present k v s pr :
  map_get k s = Some pr -> map_keys (map_set k v s) = map_keys s.
Proof.
  intros Hget. rewrite map_keys_set.
  destruct (mem_Z k (map_keys s)) eqn:E; [reflexivity|].
  apply mem_Z_not_In, map_get_None in E. congruence.
Qed.

Lemma map_keys_updatePRStatus_store prNumber updates s :
  map_keys (updatePRStatus_store prNumber updates s) = map_keys s.
Proof.
  unfold updatePRStatus_store.
  destruct (map_get prNumber s) as [pr|] eqn:E; [|reflexivity].
  now apply map_keys_set_present with pr.
Qed.

Lemma wf_trackPR_store now prData s :
  wf_store s -> wf_store (trackPR_store now prData s).
Proof. apply wf_store_set. Qed.

Lemma wf_updatePRStatus_store prNumber updates s :
  wf_store s -> wf_store (updatePRStatus_store prNumber updates s).
Proof.
  unfold wf_store. now rewrite map_keys_updatePRStatus_store.
Qed.

End Effects.

(** * The partial update *)

Section UpdateStatus.

Import PrTracker StoreView.


Lemma updatePRStatus_count_step prNumber u s pr :
  map_get prNumber s = Some pr ->
  count_delta u ->
  exists pr',
    map_get prNumber (updatePRStatus_store prNumber u s) = Some pr' /\
    count_of pr <= count_of pr'.
Proof.
  intros Hget Hd. unfold updatePRStatus_store. rewrite Hget.
  exists (merged_entry pr u). split; [apply map_get_set_same|].
  unfold count_of, count_delta in *. simpl.
  destruct (u_reviewCount u); simpl; lia.
Qed.

Lemma updates_run_snoc prNumber us u w :
  run (updates_run prNumber (us ++ [u])) w
  = run (updatePRStatus prNumber u) (run (updates_run prNumber us) w).
Proof.
  revert w. induction us as [|u0 us IH]; intros w; simpl.
  - unfold run, bind, ret. simpl.
    destruct (updatePRStatus prNumber u w) as [[[]|e] w1] eqn:E; reflexivity.
  - unfold run, bind in *.
    pose proof (updatePRStatus_returns prNumber u0 w) as Hret.
    unfold outcome in Hret.
    destruct (updatePRStatus prNumber u0 w) as [[[]|e] w1]; simpl in Hret;
      [|discriminate].
    apply IH.
Qed.

Lemma updates_run_monotone prNumber us :
  Forall count_delta us ->
  forall w pr,
    map_get prNumber (trackedPRs w) = Some pr ->
    exists pr',
      map_get prNumber (trackedPRs (run (updates_run prNumber us) w))
      = Some pr' /\
      count_of pr <= count_of pr'.
Proof.
  induction 1 as [|u us Hu Hus IH]; intros w pr Hget; simpl.
  - exists pr. split; [exact Hget | lia].
  - destruct (updatePRStatus_count_step prNumber u _ pr Hget Hu)
      as (pr1 & Hget1 & Hle1).
    rewrite <- updatePRStatus_run in Hget1.
    destruct (IH _ _ Hget1) as (pr2 & Hget2 & Hle2).
    exists pr2. split; [|lia].
    rewrite <- Hget2. unfold run, bind.
    pose proof (updatePRStatus_returns prNumber u w) as Hret.
    unfold outcome in Hret.
    destruct (updatePRStatus prNumber u w) as [[[]|e] w1]; simpl in Hret;
      [reflexivity | discriminate].
Qed.

(** C8. For a tracked PR the review count never decreases along a sequence
    of [updatePRStatus] calls whose supplied [reviewCount] deltas are counts
    (not negative): after every call of the sequence the stored count is at
    least its value before that call, and so at least the initial one. *)
Theorem reviewCount_monotone
    (prNumber : Z) (us : list PartialTrackedPR) (u : PartialTrackedPR)
    (w : World) (pr : TrackedPR) :
  map_get prNumber (trackedPRs w) = Some pr ->
  Forall count_delta (us ++ [u]) ->
  exists before after,
    map_get prNumber (trackedPRs (run (updates_run prNumber us) w))
    = Some before /\
    map_get prNumber (trackedPRs (run (updates_run prNumber (us ++ [u])) w))
    = Some after /\
    count_of pr <= count_of before /\
    count_of before <= count_of after.
Proof.
  intros Hget Hall. apply Forall_app in Hall as [Hus Hu].
  inversion Hu as [|? ? Hu' _]; subst.
  destruct (updates_run_monotone prNumber us Hus w pr Hget)
    as (before & Hb & Hle).
  destruct (updatePRStatus_count_step prNumber u _ before Hb Hu')
    as (after & Ha & Hle').
  exists before, after. repeat split; try assumption.
  now rewrite updates_run_snoc, updatePRStatus_run.
Qed.

End UpdateStatus.

(** * Running the operations *)

Ltac run_js :=
  unfold run, outcome, bind, ret, throw, try_catch, await, get_store,
    modify_store, print, post_message in *;
  simpl in *.

Lemma run_bind {A B} (m : M A) (f : A -> M B) w a :
  outcome m w = Returned a ->
  run (bind m f) w = run (f a) (run m w).
Proof.
  unfold run, outcome, bind. destruct (m w) as [[x|e] w1]; simpl;
    [now intros [= ->] | discriminate].
Qed.

Lemma outcome_bind {A B} (m : M A) (f : A -> M B) w a :
  outcome m w = Returned a ->
  outcome (bind m f) w = outcome (f a) (run m w).
Proof.
  unfold run, outcome, bind. destruct (m w) as [[x|e] w1]; simpl;
    [now intros [= ->] | discriminate].
Qed.

Lemma run_bind_threw {A B} (m : M A) (f : A -> M B) w e :
  outcome m w = Threw e ->
  run (bind m f) w = run m w /\ outcome (bind m f) w = Threw e.
Proof.
  unfold run, outcome, bind. destruct (m w) as [[x|e'] w1]; simpl;
    [discriminate | now intros [= ->]].
Qed.

Lemma run_try_catch {A} (m : M A) (h : string -> M A) w a :
  outcome m w = Returned a ->
  run (try_catch m h) w = run m w.
Proof.
  unfold run, outcome, try_catch. destruct (m w) as [[x|e] w1]; simpl;
    [reflexivity | discriminate].
Qed.

Lemma outcome_try_catch {A} (m : M A) (h : string -> M A) w a :
  outcome m w = Returned a ->
  outcome (try_catch m h) w = Returned a.
Proof.
  unfold run, outcome, try_catch. destruct (m w) as [[x|e] w1]; simpl;
    [trivial | discriminate].
Qed.

(** One step of a sequence whose first action returns [a] by computation. *)
Ltac step_bind w a :=
  match goal with
  | |- context [run (bind ?m ?f) w] =>
      rewrite (run_bind m f w a eq_refl), (outcome_bind m f w a eq_refl)
  end.

Section Notifier.

Import SlackNotifier.

Lemma notifyPROpened_store env pr w :
  outcome (notifyPROpened env pr) w = Returned tt /\
  trackedPRs (run (notifyPROpened env pr) w) = trackedPRs w.
Proof. unfold notifyPROpened. destruct (token_missing env); now run_js. Qed.

Lemma notifyPRReviewed_store env pr reviewer reviewState w :
  outcome (notifyPRReviewed env pr reviewer reviewState) w = Returned tt /\
  trackedPRs (run (notifyPRReviewed env pr reviewer reviewState) w)
  = trackedPRs w.
Proof. unfold notifyPRReviewed. destruct (token_missing env); now run_js. Qed.

Lemma notifyPRMerged_store env pr w :
  outcome (notifyPRMerged env pr) w = Returned tt /\
  trackedPRs (run (notifyPRMerged env pr) w) = trackedPRs w.
Proof. unfold notifyPRMerged. destruct (token_missing env); now run_js. Qed.

End Notifier.

Section QueryEngine.

Import PrTracker StoreView GithubWebhook.

Lemma needs_review_iff pr :
  needs_review pr = true
  <-> reviewCount pr = Some 0 \/ lastReviewedAt pr = None.
Proof.
  unfold needs_review.
  destruct (lastReviewedAt pr) as [t|]; [|intuition].
  destruct (reviewCount pr) as [c|].
  - rewrite Z.eqb_eq. split.
    + intros ->. now left.
    + intros [[= ->] | [=]]. reflexivity.
  - split; [discriminate | intros [[=]|[=]]].
Qed.

Lemma is_stale_iff now threshold pr :
  is_stale now threshold pr = true
  <-> threshold < now - createdAt pr /\
      (lastReviewedAt pr = None \/
       exists t, lastReviewedAt pr = Some t /\ threshold < now - t).
Proof.
  unfold is_stale. rewrite andb_true_iff, Z.ltb_lt.
  destruct (lastReviewedAt pr) as [t|].
  - rewrite Z.ltb_lt. split.
    + intros [H1 H2]. split; [assumption|]. right. now exists t.
    + intros [H1 [[=] | (t' & [= <-] & H2)]]. now split.
  - split; [intros [H1 _]; split; [assumption | now left] | now intros [H1 _]].
Qed.

Lemma review_event_store env payload w :
  trackedPRs (run (handlePullRequestReviewEvent env payload) w)
  = match pull_request payload, review payload with
    | Some pull, Some rv =>
        if action_is payload "submitted"
        then updatePRStatus_store (p_number pull)
               (review_updates (r_submitted_at rv)) (trackedPRs w)
        else trackedPRs w
    | _, _ => trackedPRs w
    end.
Proof.
  unfold handlePullRequestReviewEvent.
  destruct (pull_request payload) as [pull|]; [|reflexivity].
  destruct (review payload) as [rv|]; [|reflexivity].
  destruct (action_is payload "submitted"); [|reflexivity].
  rewrite (run_bind _ _ w tt (updatePRStatus_returns _ _ w)).
  rewrite (proj2 (notifyPRReviewed_store _ _ _ _ _)).
  apply updatePRStatus_run.
Qed.

(** C6. [getPRsNeedingReview] returns exactly the tracked PRs whose
    [reviewCount] is 0 or whose [lastReviewedAt] is absent, and
    [getStalePRs(thresholdHours)] exactly the tracked PRs created more than
    the threshold ago that have no review or a last review more than the
    threshold ago.  A PR created 30h ago without reviews is stale (24h) and
    needs review; after the webhook of one review submitted 1h ago it is
    neither; a PR last reviewed 48h ago is stale (24h) again. *)
Theorem queries_select
    (now thresholdHours : Z) (w : World) (pr : TrackedPR) :
  (In pr (getPRsNeedingReview w)
   <-> In pr (getTrackedPRs w) /\
       (reviewCount pr = Some 0 \/ lastReviewedAt pr = None)) /\
  (In pr (getStalePRs now thresholdHours w)
   <-> In pr (getTrackedPRs w) /\
       hours_ms thresholdHours < now - createdAt pr /\
       (lastReviewedAt pr = None \/
        exists t, lastReviewedAt pr = Some t /\
                  hours_ms thresholdHours < now - t)) /\
  (In pr (getTrackedPRs w) ->
   createdAt pr = now - hours_ms 30 ->
   lastReviewedAt pr = None ->
   In pr (getStalePRs now 24 w) /\ In pr (getPRsNeedingReview w)) /\
  (forall env payload pull rv,
     pull_request payload = Some pull ->
     review payload = Some rv ->
     action payload = Some "submitted"%string ->
     r_submitted_at rv = now - hours_ms 1 ->
     map_get (p_number pull) (trackedPRs w) = Some pr ->
     createdAt pr = now - hours_ms 30 ->
     lastReviewedAt pr = None ->
     reviewCount pr = Some 0 ->
     let w' := run (handlePullRequestReviewEvent env payload) w in
     exists pr',
       map_get (p_number pull) (trackedPRs w') = Some pr' /\
       ~ In pr' (getStalePRs now 24 w') /\
       ~ In pr' (getPRsNeedingReview w')) /\
  (In pr (getTrackedPRs w) ->
   lastReviewedAt pr = Some (now - hours_ms 48) ->
   createdAt pr <= now - hours_ms 48 ->
   In pr (getStalePRs now 24 w)).
Proof.
  assert (Hneeds : forall w0 p, In p (getPRsNeedingReview w0)
            <-> In p (getTrackedPRs w0) /\
                (reviewCount p = Some 0 \/ lastReviewedAt p = None)).
  { intros w0 p. unfold getPRsNeedingReview, getTrackedPRs.
    now rewrite filter_In, needs_review_iff. }
  assert (Hstale : forall th w0 p, In p (getStalePRs now th w0)
            <-> In p (getTrackedPRs w0) /\
                hours_ms th < now - createdAt p /\
                (lastReviewedAt p = None \/
                 exists t, lastReviewedAt p = Some t /\
                           hours_ms th < now - t)).
  { intros th w0 p. unfold getStalePRs, getTrackedPRs.
    now rewrite filter_In, is_stale_iff. }
  split; [apply Hneeds|]. split; [apply Hstale|].
  split; [|split].
  - intros Hin Hc Hl. split.
    + apply Hstale. split; [assumption|]. split; [|now left].
      rewrite Hc. unfold hours_ms. lia.
    + apply Hneeds. split; [assumption | now right].
  - intros env payload pull rv Hpull Hrv Hact Hsub Hget Hc Hl Hrc w'.
    subst w'. rewrite review_event_store, Hpull, Hrv.
    unfold action_is. rewrite Hact. simpl.
    unfold updatePRStatus_store. rewrite Hget.
    eexists. split; [apply map_get_set_same|].
    split.
    + rewrite Hstale. intros (_ & _ & [Hnone | (t & Ht & Hlt)]).
      * discriminate Hnone.
      * simpl in Ht. injection Ht as <-. rewrite Hsub in Hlt.
        unfold hours_ms in Hlt. lia.
    + rewrite Hneeds. simpl. rewrite Hrc. simpl.
      intros (_ & [[=] | [=]]).
  - intros Hin Hl Hc. apply Hstale. split; [assumption|]. split.
    + unfold hours_ms in *. lia.
    + right. eexists. split; [exact Hl|]. unfold hours_ms. lia.
Qed.

End QueryEngine.

(** * Event ingestion and the reviewers field *)

Section Ingestion.

Import PrTracker StoreView SlackNotifier GithubWebhook Ingestion.




Lemma pull_request_event_step env now payload w :
  outcome (handlePullRequestEvent env now payload) w = Returned tt /\
  ingestion_step (payload_tracks payload) (trackedPRs w)
    (trackedPRs (run (handlePullRequestEvent env now payload) w)).
Proof.
  unfold handlePullRequestEvent.
  destruct (pull_request payload) as [pull|] eqn:Hpull;
    [|split; [reflexivity|constructor]].
  set (prData := payload_prData pull payload).
  assert (Htrack_notify :
            (p_draft pull = true ->
             action_is payload "ready_for_review" = true \/
             action_is payload "reopened" = true) ->
            outcome (trackPR now prData ;;
                     notifyPROpened env (notification_of prData)) w
            = Returned tt /\
            ingestion_step (payload_tracks payload) (trackedPRs w)
              (trackedPRs (run (trackPR now prData ;;
                                notifyPROpened env (notification_of prData)) w))).
  { intros Hdraft.
    rewrite (run_bind (trackPR now prData) _ w tt eq_refl),
            (outcome_bind (trackPR now prData) _ w tt eq_refl).
    destruct (notifyPROpened_store env (notification_of prData)
                (run (trackPR now prData) w)) as [Heq Hst].
    rewrite Heq, Hst. split; [reflexivity|].
    rewrite trackPR_run. apply step_track. now exists pull. }
  destruct (action_is payload "opened").
  { destruct (p_draft pull) eqn:Hd; simpl; [split; [reflexivity|constructor]|].
    apply Htrack_notify. discriminate. }
  destruct (action_is payload "ready_for_review") eqn:Hready.
  { apply Htrack_notify. intros _. now left. }
  destruct (action_is payload "closed").
  { destruct (String.eqb (p_state pull) "closed");
      [|split; [reflexivity|constructor]].
    rewrite (run_bind (removePR (p_number pull)) _ w tt eq_refl),
            (outcome_bind (removePR (p_number pull)) _ w tt eq_refl).
    destruct (notifyPRMerged_store env (notification_of prData)
                (run (removePR (p_number pull)) w)) as [Heq Hst].
    rewrite Heq, Hst. split; [reflexivity|].
    rewrite removePR_run. apply step_remove. }
  destruct (action_is payload "reopened") eqn:Hreopened.
  { split; [reflexivity|]. rewrite trackPR_run. apply step_track.
    exists pull. repeat split; try assumption. intros _. now right. }
  destruct (action_is payload "synchronize").
  { split; [apply updatePRStatus_returns|].
    rewrite updatePRStatus_run. now apply step_update. }
  split; [reflexivity|constructor].
Qed.

Lemma review_event_returns env payload w :
  outcome (handlePullRequestReviewEvent env payload) w = Returned tt.
Proof.
  unfold handlePullRequestReviewEvent.
  destruct (pull_request payload) as [pull|]; [|reflexivity].
  destruct (review payload) as [rv|]; [|reflexivity].
  destruct (action_is payload "submitted"); [|reflexivity].
  rewrite (outcome_bind _ _ w tt (updatePRStatus_returns _ _ w)).
  apply notifyPRReviewed_store.
Qed.

Lemma review_event_step tracks env payload w :
  ingestion_step tracks (trackedPRs w)
    (trackedPRs (run (handlePullRequestReviewEvent env payload) w)).
Proof.
  rewrite review_event_store.
  destruct (pull_request payload) as [pull|]; [|constructor].
  destruct (review payload) as [rv|]; [|constructor].
  destruct (action_is payload "submitted"); [|constructor].
  now apply step_update.
Qed.

Lemma review_comment_event_step now payload w :
  outcome (handlePullRequestReviewCommentEvent now payload) w = Returned tt /\
  ingestion_step (payload_tracks payload) (trackedPRs w)
    (trackedPRs (run (handlePullRequestReviewCommentEvent now payload) w)).
Proof.
  unfold handlePullRequestReviewCommentEvent.
  destruct (pull_request payload) as [pull|]; [|split; [reflexivity|constructor]].
  destruct (action_is payload "created"); [|split; [reflexivity|constructor]].
  split; [apply updatePRStatus_returns|].
  rewrite updatePRStatus_run. now apply step_update.
Qed.

Lemma handle_verdict_step env now isValid event payload w :
  ingestion_step (payload_tracks payload) (trackedPRs w)
    (trackedPRs (run (handle_verdict env now isValid event payload) w)).
Proof.
  unfold handle_verdict. destruct isValid; simpl; [|constructor].
  match goal with
  | |- context [run (bind ?m ?f) w] => rewrite (run_bind m f w tt eq_refl)
  end.
  set (w0 := run (print _) w).
  change (trackedPRs w) with (trackedPRs w0).
  assert (Hgen : forall (m : M unit) h,
             outcome m w0 = Returned tt ->
             ingestion_step (payload_tracks payload) (trackedPRs w0)
               (trackedPRs (run m w0)) ->
             ingestion_step (payload_tracks payload) (trackedPRs w0)
               (trackedPRs (run (try_catch m h) w0))).
  { intros m h Hret Hstep. now rewrite (run_try_catch _ _ w0 tt). }
  destruct (String.eqb event "pull_request").
  { apply Hgen; apply pull_request_event_step. }
  destruct (String.eqb event "pull_request_review").
  { apply Hgen; [apply review_event_returns | apply review_event_step]. }
  destruct (String.eqb event "pull_request_review_comment").
  { apply Hgen; apply review_comment_event_step. }
  apply Hgen; [reflexivity | constructor].
Qed.

(** [verifySignature] touches the console only, and only to warn that no
    secret is set. *)
Lemma verifySignature_world crypto env body signature w :
  trackedPRs (run (verifySignature crypto env body signature) w)
  = trackedPRs w /\
  slack (run (verifySignature crypto env body signature) w) = slack w /\
  console (run (verifySignature crypto env body signature) w)
  = console w
    ++ (if Delivery.secret_missing env then [secret_not_set] else []).
Proof.
  unfold verifySignature, Delivery.secret_missing.
  destruct (GITHUB_WEBHOOK_SECRET env) as [[|c secret]|];
    try (repeat split; reflexivity).
  destruct signature as [s|]; unfold run, bind, Buffer_from, timingSafeEqual,
    ret, throw; simpl.
  - destruct (Nat.eqb _ _); simpl; rewrite app_nil_r; repeat split.
  - rewrite app_nil_r. repeat split.
Qed.

Lemma verifySignature_cases crypto env body signature w :
  verifySignature crypto env body signature w
  = match GITHUB_WEBHOOK_SECRET env with
    | None | Some EmptyString =>
        (Returned true, run (print secret_not_set) w)
    | Some secret =>
        let expected :=
          ("sha256=" ++ hmac_sha256_hex crypto secret body)%string in
        match signature with
        | None => (Threw ERR_INVALID_ARG_TYPE, w)
        | Some header =>
            if Nat.eqb (String.length header) (String.length expected)
            then (Returned (String.eqb header expected), w)
            else (Threw ERR_CRYPTO_TIMING_SAFE_EQUAL_LENGTH, w)
        end
    end.
Proof.
  unfold verifySignature.
  destruct (GITHUB_WEBHOOK_SECRET env) as [[|c secret]|];
    try reflexivity.
  cbv zeta. set (expected := ("sha256=" ++ _)%string).
  destruct signature as [header|]; [|reflexivity].
  unfold bind, Buffer_from, timingSafeEqual, ret, throw. cbv beta iota.
  now destruct (Nat.eqb _ _).
Qed.

Lemma handleWebhook_run crypto env now event payload body signature w :
  handleWebhook crypto env now event payload body signature w
  = match outcome (verifySignature crypto env body signature) w with
    | Returned isValid =>
        handle_verdict env now isValid event payload
          (run (verifySignature crypto env body signature) w)
    | Threw e =>
        (Threw e, run (verifySignature crypto env body signature) w)
    end.
Proof.
  unfold handleWebhook, bind, outcome, run.
  now destruct (verifySignature crypto env body signature w) as [[b|e] w1].
Qed.

Lemma handleWebhook_step crypto env now event payload body signature w :
  ingestion_step (payload_tracks payload) (trackedPRs w)
    (trackedPRs
       (run (handleWebhook crypto env now event payload body signature) w)).
Proof.
  unfold run at 1. rewrite handleWebhook_run.
  destruct (verifySignature_world crypto env body signature w) as (Hs & _).
  destruct (outcome (verifySignature crypto env body signature) w)
    as [isValid|e]; cbn [snd].
  - rewrite <- Hs at 1. apply handle_verdict_step.
  - rewrite Hs. constructor.
Qed.


End Ingestion.

(** * Reconciliation *)

Section Reconciliation.

Import PrTracker StoreView SyncView.

Variable octokit : Octokit.
Variables (now : Z) (owner repo : string).

Lemma upsert_eq pr reviews s :
  upsert now owner repo pr reviews s
  = map_set (gh_number pr)
      (synced_entry now owner repo pr reviews (count_at (gh_number pr) s)) s.
Proof.
  unfold upsert, trackPR_store. simpl.
  rewrite map_get_set_same, map_set_set.
  f_equal. unfold synced_entry, set_reviewers, tracked_entry, count_at. simpl.
  now destruct (map_get (gh_number pr) s).
Qed.

Lemma map_get_upsert pr reviews s k :
  map_get k (upsert now owner repo pr reviews s)
  = if k =? gh_number pr
    then Some (synced_entry now owner repo pr reviews
                 (count_at (gh_number pr) s))
    else map_get k s.
Proof. rewrite upsert_eq. apply map_get_set. Qed.

Lemma count_at_upsert pr reviews s k :
  count_at k (upsert now owner repo pr reviews s) = count_at k s.
Proof.
  unfold count_at at 1. rewrite map_get_upsert.
  destruct (Z.eqb_spec k (gh_number pr)) as [->|Hk]; reflexivity.
Qed.

Lemma map_keys_upsert pr reviews s :
  map_keys (upsert now owner repo pr reviews s)
  = add_key (map_keys s) (gh_number pr).
Proof. rewrite upsert_eq. apply map_keys_set. Qed.

Lemma wf_upsert pr reviews s :
  wf_store s -> wf_store (upsert now owner repo pr reviews s).
Proof. rewrite upsert_eq. apply wf_store_set. Qed.

Lemma sync_one_run pr w :
  (outcome (sync_one octokit now owner repo pr) w
   = if gh_draft pr then Returned tt
     else match pulls_listReviews octokit owner repo (gh_number pr) with
          | Resolved _ => Returned tt
          | Rejected e => Threw e
          end) /\
  trackedPRs (run (sync_one octokit now owner repo pr) w)
  = (if gh_draft pr then trackedPRs w
     else match pulls_listReviews octokit owner repo (gh_number pr) with
          | Resolved reviews => upsert now owner repo pr reviews (trackedPRs w)
          | Rejected _ => trackedPRs w
          end).
Proof.
  unfold sync_one. destruct (gh_draft pr); [split; reflexivity|].
  destruct (pulls_listReviews octokit owner repo (gh_number pr))
    as [reviews|e]; [|split; reflexivity].
  unfold upsert, trackPR_store, run, outcome, bind, await, ret, trackPR,
    get_store, modify_store, print. simpl.
  rewrite map_get_set_same. simpl. split; reflexivity.
Qed.

Lemma sync_loop_run prs : forall w,
  (outcome (for_of prs (sync_one octokit now owner repo)) w
   = match sync_loop_error octokit owner repo prs with
     | None => Returned tt
     | Some e => Threw e
     end) /\
  trackedPRs (run (for_of prs (sync_one octokit now owner repo)) w)
  = sync_loop_store octokit now owner repo prs (trackedPRs w).
Proof.
  induction prs as [|pr rest IH]; intros w; simpl; [split; reflexivity|].
  destruct (sync_one_run pr w) as [Hout Hst].
  destruct (gh_draft pr).
  - rewrite (run_bind _ _ w tt Hout), (outcome_bind _ _ w tt Hout).
    destruct (IH (run (sync_one octokit now owner repo pr) w)) as [IHo IHs].
    now rewrite IHo, IHs, Hst.
  - destruct (pulls_listReviews octokit owner repo (gh_number pr))
      as [reviews|e].
    + rewrite (run_bind _ _ w tt Hout), (outcome_bind _ _ w tt Hout).
      destruct (IH (run (sync_one octokit now owner repo pr) w)) as [IHo IHs].
      now rewrite IHo, IHs, Hst.
    + destruct (run_bind_threw _ (fun _ => for_of rest
                  (sync_one octokit now owner repo)) w e Hout) as [Hr Ho].
      now rewrite Hr, Ho, Hst.
Qed.

Lemma sync_loop_store_processed prs s :
  sync_loop_store octokit now owner repo prs s
  = upsert_all now owner repo (processed octokit owner repo prs) s.
Proof.
  revert s. induction prs as [|pr rest IH]; intros s; simpl; [reflexivity|].
  destruct (gh_draft pr); [apply IH|].
  destruct (pulls_listReviews octokit owner repo (gh_number pr));
    [apply IH | reflexivity].
Qed.

Lemma processed_incl prs item :
  In item (processed octokit owner repo prs) ->
  In (fst item) prs /\ gh_draft (fst item) = false /\
  pulls_listReviews octokit owner repo (gh_number (fst item))
  = Resolved (snd item).
Proof.
  induction prs as [|pr rest IH]; simpl; [intros []|].
  destruct (gh_draft pr) eqn:Ed.
  - intros Hin. destruct (IH Hin) as (H1 & H2 & H3). auto.
  - destruct (pulls_listReviews octokit owner repo (gh_number pr))
      as [reviews|e] eqn:Er; [|intros []].
    intros [<- | Hin]; simpl; [auto|].
    destruct (IH Hin) as (H1 & H2 & H3). auto.
Qed.

Lemma prune_loop_run openPRNumbers keys : forall w,
  outcome (for_of keys
             (fun prNumber =>
                if negb (mem_Z prNumber openPRNumbers)
                then modify_store (map_delete prNumber)
                else ret tt)) w = Returned tt /\
  trackedPRs (run (for_of keys
                     (fun prNumber =>
                        if negb (mem_Z prNumber openPRNumbers)
                        then modify_store (map_delete prNumber)
                        else ret tt)) w)
  = prune_loop openPRNumbers keys (trackedPRs w) /\
  console (run (for_of keys
                  (fun prNumber =>
                     if negb (mem_Z prNumber openPRNumbers)
                     then modify_store (map_delete prNumber)
                     else ret tt)) w)
  = console w.
Proof.
  induction keys as [|k keys IH]; intros w; simpl; [repeat split|].
  unfold prune_loop in *. simpl.
  destruct (negb (mem_Z k openPRNumbers)).
  - rewrite (run_bind (modify_store (map_delete k)) _ w tt eq_refl),
            (outcome_bind (modify_store (map_delete k)) _ w tt eq_refl).
    exact (IH (run (modify_store (map_delete k)) w)).
  - rewrite (run_bind (ret tt) _ w tt eq_refl),
            (outcome_bind (ret tt) _ w tt eq_refl).
    exact (IH (run (ret tt) w)).
Qed.

Lemma filter_filter_store (f g : Z * TrackedPR -> bool) (s : Store) :
  filter f (filter g s) = filter (fun kv => g kv && f kv) s.
Proof.
  induction s as [|kv s IH]; simpl; [reflexivity|].
  destruct (g kv); simpl; [destruct (f kv)|]; now rewrite IH.
Qed.

Lemma prune_loop_filter openPRNumbers keys : forall s,
  prune_loop openPRNumbers keys s
  = filter (fun kv => mem_Z (fst kv) openPRNumbers
                      || negb (mem_Z (fst kv) keys)) s.
Proof.
  unfold prune_loop.
  induction keys as [|k keys IH]; intros s; simpl.
  - symmetry. apply forallb_filter_id. apply forallb_forall.
    intros kv _. apply orb_true_r.
  - rewrite IH. destruct (mem_Z k openPRNumbers) eqn:Ek; simpl.
    + apply filter_ext. intros [k0 v0]. simpl.
      destruct (Z.eqb_spec k0 k) as [->|Hk]; [now rewrite Ek | reflexivity].
    + unfold map_delete. rewrite filter_filter_store.
      apply filter_ext. intros [k0 v0]. simpl.
      rewrite (Z.eqb_sym k k0).
      destruct (Z.eqb_spec k0 k) as [->|Hk]; simpl; [now rewrite Ek | reflexivity].
Qed.

Lemma prune_loop_prune openPRNumbers s :
  prune_loop openPRNumbers (map_keys s) s = prune openPRNumbers s.
Proof.
  rewrite prune_loop_filter. unfold prune.
  apply filter_ext_in. intros [k v] Hin. simpl.
  assert (Hk : mem_Z k (map_keys s) = true).
  { apply mem_Z_In. unfold map_keys. change k with (fst (k, v)).
    now apply in_map. }
  rewrite Hk. apply orb_false_r.
Qed.

(** What a run of [syncWithGitHub] does to the store, and how it ends. *)
Lemma syncWithGitHub_run w :
  (outcome (syncWithGitHub octokit now owner repo) w
   = match sync_error octokit owner repo with
     | None => Returned tt
     | Some e => Threw e
     end) /\
  trackedPRs (run (syncWithGitHub octokit now owner repo) w)
  = sync_store octokit now owner repo (trackedPRs w).
Proof.
  unfold syncWithGitHub, sync_store, sync_error.
  destruct (pulls_list octokit owner repo state_open) as [prs|e];
    [|split; reflexivity].
  unfold run, outcome, try_catch.
  match goal with
  | |- context [bind ?m ?f w] => set (body := bind m f)
  end.
  assert (Hbody :
            (outcome body w
             = match sync_loop_error octokit owner repo prs with
               | None => Returned tt
               | Some e => Threw e
               end) /\
            trackedPRs (run body w)
            = sync_loop_store octokit now owner repo prs
                (prune (map gh_number prs) (trackedPRs w))).
  { subst body. unfold await.
    step_bind w prs. set (w1 := run (ret prs) w).
    step_bind w1 tt. set (w2 := run (print _) w1).
    step_bind w2 (trackedPRs w2). set (w3 := run get_store w2).
    destruct (prune_loop_run (map gh_number prs) (map_keys (trackedPRs w2)) w3)
      as (Hpo & Hps & _).
    rewrite (run_bind _ _ w3 tt Hpo), (outcome_bind _ _ w3 tt Hpo).
    set (w4 := run (for_of (map_keys (trackedPRs w2)) _) w3) in *.
    assert (Hw4 : trackedPRs w4 = prune (map gh_number prs) (trackedPRs w)).
    { rewrite Hps. change (trackedPRs w3) with (trackedPRs w2).
      rewrite prune_loop_prune. reflexivity. }
    destruct (sync_loop_run prs w4) as [Hlo Hls].
    rewrite Hw4 in Hls.
    destruct (sync_loop_error octokit owner repo prs) as [e|].
    - destruct (run_bind_threw _
                  (fun _ => store' <- get_store ;;
                     print (console_log ("Sync complete: "
                        ++ string_of_Z (Z.of_nat (List.length store'))
                        ++ " PRs tracked"))) w4 e Hlo) as [Hr Ho].
      now rewrite Hr, Ho.
    - rewrite (run_bind _ _ w4 tt Hlo), (outcome_bind _ _ w4 tt Hlo).
      split; [reflexivity|]. exact Hls. }
  destruct Hbody as [Hbo Hbs]. unfold run, outcome in Hbo, Hbs.
  destruct (body w) as [[[]|e] w']; simpl in *.
  - split; assumption.
  - split; assumption.
Qed.

End Reconciliation.

(** * Reconciliation is idempotent *)

Section Idempotence.

Import PrTracker StoreView SyncView.

Variable octokit : Octokit.
Variables (now : Z) (owner repo : string).

Lemma add_key_In keys k x : In x (add_key keys k) <-> In x keys \/ x = k.
Proof.
  unfold add_key. destruct (mem_Z k keys) eqn:E.
  - apply mem_Z_In in E. split; [now left | intros [H | ->]; assumption].
  - rewrite in_app_iff. simpl. intuition.
Qed.

Lemma fold_add_key_In ns : forall keys x,
  In x (fold_left add_key ns keys) <-> In x keys \/ In x ns.
Proof.
  induction ns as [|n ns IH]; intros keys x; simpl; [intuition|].
  rewrite IH, add_key_In. intuition.
Qed.

Lemma fold_add_key_absorb ns keys :
  (forall n, In n ns -> In n keys) -> fold_left add_key ns keys = keys.
Proof.
  induction ns as [|n ns IH]; intros Hin; simpl; [reflexivity|].
  assert (Hn : add_key keys n = keys).
  { unfold add_key. now rewrite (proj2 (mem_Z_In n keys) (Hin n (or_introl eq_refl))). }
  rewrite Hn. apply IH. intros m Hm. apply Hin. now right.
Qed.

Lemma map_keys_upsert_all items : forall s,
  map_keys (upsert_all now owner repo items s)
  = fold_left add_key (item_numbers items) (map_keys s).
Proof.
  induction items as [|[pr reviews] items IH]; intros s; simpl; [reflexivity|].
  unfold upsert_all in *. simpl. now rewrite IH, map_keys_upsert.
Qed.

Lemma wf_upsert_all items : forall s,
  wf_store s -> wf_store (upsert_all now owner repo items s).
Proof.
  induction items as [|[pr reviews] items IH]; intros s Hwf; [exact Hwf|].
  apply IH. now apply wf_upsert.
Qed.

Lemma count_at_upsert_all items : forall s k,
  count_at k (upsert_all now owner repo items s) = count_at k s.
Proof.
  induction items as [|[pr reviews] items IH]; intros s k; [reflexivity|].
  unfold upsert_all in *. simpl. now rewrite IH, count_at_upsert.
Qed.

Lemma map_get_upsert_all_frame items : forall s k,
  ~ In k (item_numbers items) ->
  map_get k (upsert_all now owner repo items s) = map_get k s.
Proof.
  induction items as [|[pr reviews] items IH]; intros s k Hk; [reflexivity|].
  assert (Hrest : ~ In k (item_numbers items))
    by (intros H; apply Hk; right; exact H).
  assert (Hne : k <> gh_number pr) by (intros ->; apply Hk; now left).
  unfold upsert_all in *. simpl. rewrite IH by assumption.
  rewrite map_get_upsert.
  destruct (Z.eqb_spec k (gh_number pr)); [contradiction | reflexivity].
Qed.

(** The entries a pass leaves depend on the store it starts from only
    through the counts it holds and the entries of the numbers the pass does
    not touch. *)
Lemma map_get_upsert_all_cong items : forall s t,
  (forall k, count_at k s = count_at k t) ->
  (forall k, ~ In k (item_numbers items) -> map_get k s = map_get k t) ->
  forall k, map_get k (upsert_all now owner repo items s)
            = map_get k (upsert_all now owner repo items t).
Proof.
  induction items as [|[pr reviews] items IH]; intros s t Hcount Hframe k.
  - apply Hframe. intros [].
  - unfold upsert_all in *. simpl. apply IH.
    + intros k'. now rewrite !count_at_upsert.
    + intros k' Hk'. rewrite !map_get_upsert, Hcount.
      destruct (Z.eqb_spec k' (gh_number pr)) as [->|Hne]; [reflexivity|].
      apply Hframe. intros [Heq | Hin]; [now apply Hne | now apply Hk'].
Qed.

Lemma upsert_all_idempotent items s :
  wf_store s ->
  upsert_all now owner repo items (upsert_all now owner repo items s)
  = upsert_all now owner repo items s.
Proof.
  intros Hwf.
  apply store_ext.
  - now do 2 apply wf_upsert_all.
  - rewrite map_keys_upsert_all. apply fold_add_key_absorb.
    intros n Hn. rewrite map_keys_upsert_all, fold_add_key_In. now right.
  - apply map_get_upsert_all_cong.
    + intros k. apply count_at_upsert_all.
    + intros k Hk. now apply map_get_upsert_all_frame.
Qed.

Lemma prune_fixed openPRNumbers s :
  (forall k, In k (map_keys s) -> In k openPRNumbers) ->
  prune openPRNumbers s = s.
Proof.
  intros Hin. unfold prune. apply forallb_filter_id, forallb_forall.
  intros [k v] Hkv. simpl. apply mem_Z_In, Hin.
  unfold map_keys. change k with (fst (k, v)). now apply in_map.
Qed.

Lemma prune_keys openPRNumbers s k :
  In k (map_keys (prune openPRNumbers s)) -> In k openPRNumbers.
Proof.
  unfold prune.
  rewrite (map_keys_filter (fun x => mem_Z x openPRNumbers)), filter_In.
  intros [_ H]. now apply mem_Z_In.
Qed.

Lemma wf_prune openPRNumbers s :
  wf_store s -> wf_store (prune openPRNumbers s).
Proof. apply (wf_store_filter (fun x => mem_Z x openPRNumbers)). Qed.

Lemma sync_store_idempotent s :
  wf_store s ->
  sync_store octokit now owner repo (sync_store octokit now owner repo s)
  = sync_store octokit now owner repo s.
Proof.
  intros Hwf. unfold sync_store.
  destruct (pulls_list octokit owner repo state_open) as [prs|e];
    [|reflexivity].
  rewrite !sync_loop_store_processed.
  set (items := processed octokit owner repo prs).
  set (s0 := prune (map gh_number prs) s).
  rewrite prune_fixed.
  - apply upsert_all_idempotent. now apply wf_prune.
  - intros k. rewrite map_keys_upsert_all, fold_add_key_In.
    intros [Hk | Hk].
    + now apply prune_keys in Hk.
    + unfold item_numbers in Hk. apply in_map_iff in Hk as (item & <- & Hitem).
      apply processed_incl in Hitem as (Hin & _).
      now apply in_map.
Qed.

Lemma wf_sync_store s :
  wf_store s -> wf_store (sync_store octokit now owner repo s).
Proof.
  intros Hwf. unfold sync_store.
  destruct (pulls_list octokit owner repo state_open) as [prs|e];
    [|assumption].
  rewrite sync_loop_store_processed. now apply wf_upsert_all, wf_prune.
Qed.

(** C3. Running [syncWithGitHub] twice in a row against an unchanged
    source (the same open-PR list and the same review list per PR) at a
    fixed clock leaves, after the second run, the store the first run left:
    the same entries under the same keys in the same order.  The second run
    also ends the way the first did. *)
Theorem sync_twice_same_store (w : World) :
  wf_store (trackedPRs w) ->
  let w1 := run (syncWithGitHub octokit now owner repo) w in
  let w2 := run (syncWithGitHub octokit now owner repo) w1 in
  trackedPRs w2 = trackedPRs w1 /\
  outcome (syncWithGitHub octokit now owner repo) w1
  = outcome (syncWithGitHub octokit now owner repo) w.
Proof.
  intros Hwf w1 w2. subst w1 w2. split.
  - rewrite !(proj2 (syncWithGitHub_run octokit now owner repo _)).
    now apply sync_store_idempotent.
  - now rewrite !(proj1 (syncWithGitHub_run octokit now owner repo _)).
Qed.

End Idempotence.

(** * Reconciliation and failures of the source *)

Section SyncFailures.

Import PrTracker StoreView SyncView Scenarios.

(** When the open-PR list cannot be fetched, the run throws and the store
    is the one it started from. *)
Lemma sync_list_failure_keeps_store octokit now owner repo e w :
  pulls_list octokit owner repo state_open = Rejected e ->
  outcome (syncWithGitHub octokit now owner repo) w = Threw e /\
  trackedPRs (run (syncWithGitHub octokit now owner repo) w) = trackedPRs w.
Proof.
  intros Hlist.
  destruct (syncWithGitHub_run octokit now owner repo w) as [Ho Hs].
  rewrite Ho, Hs. unfold sync_error, sync_store. now rewrite Hlist.
Qed.

(** Reconciliation never changes the count held for a number that stays
    open: what [trackPR] stores is the count already held, or 0. *)
Lemma sync_store_keeps_counts octokit now owner repo prs s k :
  pulls_list octokit owner repo state_open = Resolved prs ->
  count_at k (sync_store octokit now owner repo s)
  = if mem_Z k (map gh_number prs) then count_at k s else 0.
Proof.
  intros Hlist. unfold sync_store. rewrite Hlist.
  rewrite sync_loop_store_processed, count_at_upsert_all.
  unfold count_at, prune.
  rewrite (map_get_filter (fun x => mem_Z x (map gh_number prs))).
  now destruct (mem_Z k (map gh_number prs)).
Qed.

(** C1 (the code departs from the specification). With five open PRs of which the
    third has its review fetch rejected, [syncWithGitHub] does abort: it
    throws the rejection, PRs 1 and 2 are upserted, and PRs 4 and 5, whose
    reviews could be fetched, are not upserted at all.  The failing PR 3 is
    left as it was (untracked). *)
Theorem sync_aborts_at_first_review_failure :
  let w := run (syncWithGitHub five_open_third_fails 3600000 "acme" "app")
               initial_world in
  outcome (syncWithGitHub five_open_third_fails 3600000 "acme" "app")
          initial_world = Threw "HttpError: 502"%string /\
  map_keys (trackedPRs w) = [1; 2] /\
  map_get 3 (trackedPRs w) = None /\
  pulls_listReviews five_open_third_fails "acme" "app" 4
  = Resolved [review_by "bob" 5000] /\
  map_get 4 (trackedPRs w) = None /\
  pulls_listReviews five_open_third_fails "acme" "app" 5
  = Resolved [review_by "bob" 5000] /\
  map_get 5 (trackedPRs w) = None.
Proof.
  intros w. split; [reflexivity|].
  assert (Hkeys : map_keys (trackedPRs w) = [1; 2]) by (vm_compute; reflexivity).
  split; [exact Hkeys|].
  assert (Habsent : forall k, ~ In k [1; 2] -> map_get k (trackedPRs w) = None).
  { intros k Hk. apply map_get_None. now rewrite Hkeys. }
  split; [apply Habsent; simpl; lia|].
  split; [reflexivity|].
  split; [apply Habsent; simpl; lia|].
  split; [reflexivity|].
  apply Habsent; simpl; lia.
Qed.

(** C2 (the code departs from the specification). After a successful run over one
    open PR with two fetched reviews, the entry has the deduplicated
    reviewers and the timestamp of the last review, but its [reviewCount] is
    0, not 2: [trackPR] overwrites the count carried by the synced data with
    the count the store held (none here). *)
Theorem sync_does_not_store_review_count :
  let w := run (syncWithGitHub one_open_two_reviews 3600000 "acme" "app")
               initial_world in
  outcome (syncWithGitHub one_open_two_reviews 3600000 "acme" "app")
          initial_world = Returned tt /\
  exists pr,
    map_get 1 (trackedPRs w) = Some pr /\
    reviewers pr = ["bob"; "carol"]%string /\
    lastReviewedAt pr = Some 7000 /\
    reviewCount pr = Some 0 /\
    reviewCount pr <> Some 2 /\
    In pr (getPRsNeedingReview w).
Proof.
  vm_compute. split; [reflexivity|].
  eexists. split; [reflexivity|].
  repeat split; try discriminate. now left.
Qed.

(** C5 (the code departs from the specification). A run that throws because the
    reviews of the second open PR cannot be fetched has already written to
    the store: PR 9, tracked before the run and no longer open, is gone, and
    PR 1 has been added. *)
Theorem sync_failure_leaves_partial_writes :
  let w := run (syncWithGitHub two_open_second_fails 3600000 "acme" "app")
               tracking_pr9 in
  outcome (syncWithGitHub two_open_second_fails 3600000 "acme" "app")
          tracking_pr9 = Threw "HttpError: 502"%string /\
  map_keys (trackedPRs tracking_pr9) = [9] /\
  map_keys (trackedPRs w) = [1] /\
  trackedPRs w <> trackedPRs tracking_pr9.
Proof.
  intros w.
  assert (Hbefore : map_keys (trackedPRs tracking_pr9) = [9]) by reflexivity.
  assert (Hafter : map_keys (trackedPRs w) = [1]) by (vm_compute; reflexivity).
  split; [reflexivity|]. split; [exact Hbefore|]. split; [exact Hafter|].
  intros Heq. rewrite Heq, Hbefore in Hafter. discriminate Hafter.
Qed.

End SyncFailures.

(** * Drafts and the store *)

Section Drafts.

Import PrTracker StoreView SyncView GithubWebhook Ingestion Scenarios.

Lemma no_draft_set k (v : TrackedPR) s :
  no_draft s -> isDraft v = false -> no_draft (map_set k v s).
Proof.
  unfold no_draft. intros Hs Hv.
  induction s as [|[k0 v0] s IH]; simpl.
  - now constructor.
  - inversion Hs as [|? ? H0 Hs']; subst.
    destruct (k =? k0); constructor; auto.
Qed.

Lemma no_draft_filter (f : Z * TrackedPR -> bool) s :
  no_draft s -> no_draft (filter f s).
Proof.
  unfold no_draft. rewrite !Forall_forall.
  intros Hs kv Hin. apply filter_In in Hin as [Hin _]. auto.
Qed.

Lemma no_draft_get k s (pr : TrackedPR) :
  no_draft s -> map_get k s = Some pr -> isDraft pr = false.
Proof.
  unfold no_draft. rewrite Forall_forall. intros Hs Hget.
  apply map_get_Some_In in Hget. exact (Hs _ Hget).
Qed.

Lemma no_draft_trackPR now prData s :
  no_draft s -> isDraft prData = false ->
  no_draft (trackPR_store now prData s).
Proof. intros Hs Hd. now apply no_draft_set. Qed.

Lemma no_draft_updatePRStatus prNumber updates s :
  no_draft s -> u_isDraft updates <> Some true ->
  no_draft (updatePRStatus_store prNumber updates s).
Proof.
  intros Hs Hu. unfold updatePRStatus_store.
  destruct (map_get prNumber s) as [pr|] eqn:Hget; [|assumption].
  apply no_draft_set; [assumption|]. simpl.
  destruct (u_isDraft updates) as [[|]|]; simpl;
    [congruence | reflexivity | now apply no_draft_get with prNumber s].
Qed.

Lemma no_draft_upsert_all now owner repo items : forall s,
  no_draft s ->
  (forall item, In item items -> gh_draft (fst item) = false) ->
  no_draft (upsert_all now owner repo items s).
Proof.
  induction items as [|[pr reviews] items IH]; intros s Hs Hitems;
    [exact Hs|].
  unfold upsert_all in *. simpl. apply IH.
  - rewrite upsert_eq. apply no_draft_set; [assumption|].
    exact (Hitems (pr, reviews) (or_introl eq_refl)).
  - intros item Hin. apply Hitems. now right.
Qed.

(** Reconciliation never adds a draft: the second loop skips them. *)
Lemma no_draft_sync_store octokit now owner repo s :
  no_draft s -> no_draft (sync_store octokit now owner repo s).
Proof.
  intros Hs. unfold sync_store.
  destruct (pulls_list octokit owner repo state_open) as [prs|e];
    [|assumption].
  rewrite sync_loop_store_processed. apply no_draft_upsert_all.
  - now apply no_draft_filter.
  - intros item Hin. now apply processed_incl in Hin.
Qed.

Lemma no_draft_ingestion_step tracks s s' :
  (forall prData, tracks prData -> isDraft prData = false) ->
  no_draft s -> ingestion_step tracks s s' -> no_draft s'.
Proof.
  intros Htracks Hs [| now prData Ht | prNumber updates _ Hu | prNumber].
  - assumption.
  - apply no_draft_trackPR; auto.
  - apply no_draft_updatePRStatus; [assumption|]. now rewrite Hu.
  - now apply no_draft_filter.
Qed.

Lemma no_draft_run_op op w :
  hands_no_draft op ->
  no_draft (trackedPRs w) -> no_draft (trackedPRs (run (run_op op) w)).
Proof.
  destruct op as [now prData | prNumber updates | prNumber
                 | octokit now owner repo
                 | crypto env now event payload body signature];
    intros Hop Hw; cbn [run_op hands_no_draft] in *.
  - rewrite trackPR_run. now apply no_draft_trackPR.
  - rewrite updatePRStatus_run. now apply no_draft_updatePRStatus.
  - rewrite removePR_run. now apply no_draft_filter.
  - rewrite (proj2 (syncWithGitHub_run octokit now owner repo w)).
    now apply no_draft_sync_store.
  - apply no_draft_ingestion_step
      with (tracks := payload_tracks payload) (s := trackedPRs w);
      [|assumption|apply handleWebhook_step].
    intros prData (pull & Hpull & -> & Hdraft). simpl.
    destruct (p_draft pull) eqn:Hd; [|reflexivity].
    rewrite <- Hd. apply Hop; [assumption | now apply Hdraft].
Qed.

Lemma wf_ingestion_step tracks s s' :
  wf_store s -> ingestion_step tracks s s' -> wf_store s'.
Proof.
  intros Hs [| now prData _ | prNumber updates _ _ | prNumber].
  - assumption.
  - now apply wf_trackPR_store.
  - now apply wf_updatePRStatus_store.
  - now apply wf_store_delete.
Qed.

(** Every operation keeps the store a well-formed map, so every store
    reached from the empty one is well formed. *)
Lemma wf_run_ops ops : forall w,
  wf_store (trackedPRs w) -> wf_store (trackedPRs (run_ops ops w)).
Proof.
  induction ops as [|op ops IH]; intros w Hw; [exact Hw|].
  simpl. apply IH.
  destruct op as [now prData | prNumber updates | prNumber
                 | octokit now owner repo
                 | crypto env now event payload body signature];
    cbn [run_op].
  - rewrite trackPR_run. now apply wf_trackPR_store.
  - rewrite updatePRStatus_run. now apply wf_updatePRStatus_store.
  - rewrite removePR_run. now apply wf_store_delete.
  - rewrite (proj2 (syncWithGitHub_run octokit now owner repo w)).
    now apply wf_sync_store.
  - eapply wf_ingestion_step; [exact Hw | apply handleWebhook_step].
Qed.

Lemma no_draft_run_ops ops : forall w,
  Forall hands_no_draft ops ->
  no_draft (trackedPRs w) -> no_draft (trackedPRs (run_ops ops w)).
Proof.
  induction ops as [|op ops IH]; intros w Hops Hw; [exact Hw|].
  inversion Hops as [|? ? Hop Hops']; subst. simpl.
  apply IH; [assumption|]. now apply no_draft_run_op.
Qed.

(** C4, as the code has it. [trackPR] and [updatePRStatus] store the
    [isDraft] flag they are handed; drafts are kept out by their callers:
    [syncWithGitHub] skips them and the [opened] branch of the webhook
    drops them.  So along every sequence of [trackPR], [updatePRStatus],
    [removePR], [syncWithGitHub] and webhook deliveries in which [trackPR] is
    handed no draft, [updatePRStatus] no [isDraft: true] and the
    [ready_for_review] and [reopened] deliveries no draft snapshot, a store
    without drafts never comes to hold a record with [isDraft] true, at any
    point of the sequence. *)
Theorem store_never_holds_a_draft
    (ops : list Op) (n : nat) (w : World) :
  no_draft (trackedPRs w) ->
  Forall hands_no_draft ops ->
  no_draft (trackedPRs (run_ops (firstn n ops) w)).
Proof.
  intros Hw Hops. apply no_draft_run_ops; [|assumption].
  rewrite <- (firstn_skipn n ops) in Hops.
  now apply Forall_app in Hops.
Qed.

(** C4, as stated, fails: [trackPR] called with a draft stores it. *)
Lemma trackPR_stores_a_draft :
  let w := run_ops [OpTrack 3600000 draft_pr] initial_world in
  exists pr, In pr (getTrackedPRs w) /\ isDraft pr = true.
Proof. vm_compute. eexists. split; [left; reflexivity | reflexivity]. Qed.

(** The [opened] branch of the webhook drops a draft; the [reopened] branch
    hands the snapshot to [trackPR] unchecked, and a reopened draft is
    tracked. *)
Lemma webhook_draft_opened_and_reopened :
  map_get 7 (trackedPRs (run (handleWebhook Lifecycle.keyed
                                Lifecycle.no_token 1000 "pull_request"
                                Lifecycle.draft_opened Lifecycle.raw None)
                             initial_world)) = None /\
  exists pr,
    map_get 7 (trackedPRs (run (handleWebhook Lifecycle.keyed
                                  Lifecycle.no_token 1000 "pull_request"
                                  Lifecycle.draft_reopened Lifecycle.raw None)
                               initial_world)) = Some pr /\
    isDraft pr = true.
Proof.
  split; [reflexivity|]. eexists. split; reflexivity.
Qed.

End Drafts.

(** * The average strings of the metrics *)

Section MetricsFormat.

Import Metrics MetricsView.

Lemma Qdiv_pos (x : Q) (d : positive) :
  (x / inject_Z (Zpos d))%Q = (Qnum x * 1 # Qden x * d).
Proof. destruct x as [n m]. reflexivity. Qed.

Lemma Qlt_bool_Z (n : Z) (m : positive) (k : Z) :
  Qlt_bool (n # m) (inject_Z k) = (n <? k * Zpos m).
Proof.
  unfold Qlt_bool, Qle_bool. simpl.
  destruct (Z.leb_spec (k * Zpos m) (n * 1)), (Z.ltb_spec n (k * Zpos m));
    simpl; try reflexivity; lia.
Qed.

(** [formatTimeDifference] on a mean, by the integer total and count. *)
Lemma formatTimeDifference_mean (total count : Z) :
  0 < count ->
  formatTimeDifference (inject_Z total / inject_Z count)
  = mean_tier total count.
Proof.
  intros Hc. destruct count as [|p|p]; try lia.
  unfold formatTimeDifference, mean_tier.
  change (1000 * 60 * 60)%Q with (inject_Z (Zpos 3600000)).
  change (1000 * 60)%Q with (inject_Z (Zpos 60000)).
  change 24%Q with (inject_Z (Zpos 24)).
  change 1%Q with (inject_Z 1).
  rewrite !Qdiv_pos. cbn [Qnum Qden inject_Z].
  rewrite !Qlt_bool_Z. cbn [Qfloor].
  rewrite !Pos2Z.inj_mul, !Z.mul_1_r, !Z.mul_1_l.
  replace (24 * (Z.pos p * 3600000)) with (Z.pos p * 86400000) by lia.
  replace (Z.pos p * 3600000 * 24) with (Z.pos p * 86400000) by lia.
  reflexivity.
Qed.

Lemma average_string_tier totals :
  average_string totals
  = if 0 <? snd totals then mean_tier (fst totals) (snd totals)
    else "N/A"%string.
Proof.
  destruct totals as [total count]. unfold average_string. simpl.
  destruct (Z.ltb_spec 0 count); [|reflexivity].
  now apply formatTimeDifference_mean.
Qed.

(** C9, as the code has it. The average time to first review and the
    average time to merge are [formatTimeDifference] of the mean in
    milliseconds over the sample of merged PRs, "N/A" on an empty sample.
    Its tiers are not those of [formatPRAge]: below 1h the minutes "<N>m"
    (minute floor), from 1h to below 24h "<N>h" (hour floor), from 24h on
    "1 day" when the day floor is 1 and "<N> days" otherwise.  Review
    latencies of 1h, 3h and 5h over three merged PRs give "3h". *)
Theorem average_strings_tiering
    (octokit : Octokit) (owner repo : string) (closedPRs : list GhPull) :
  let reviewed :=
    review_time_totals octokit owner repo (filter is_merged closedPRs) in
  let merged := merge_time_totals (filter is_merged closedPRs) in
  averageReviewTime octokit owner repo closedPRs
  = (if 0 <? snd reviewed then mean_tier (fst reviewed) (snd reviewed)
     else "N/A"%string) /\
  averageMergeTime closedPRs
  = (if 0 <? snd merged then mean_tier (fst merged) (snd merged)
     else "N/A"%string) /\
  review_time_totals three_merged_reviews "acme" "app" three_merged
  = (3600000 + 10800000 + 18000000, 3) /\
  averageReviewTime three_merged_reviews "acme" "app" three_merged
  = "3h"%string.
Proof.
  intros reviewed merged. split; [|split; [|split]].
  - apply average_string_tier.
  - apply average_string_tier.
  - reflexivity.
  - vm_compute. reflexivity.
Qed.

(** C9, as stated, fails: on a mean of 30 minutes the code gives "30m"
    where the rule of [formatAge] gives "just opened", and on a mean of 48
    hours "2 days" where that rule gives "2d". *)
Lemma average_strings_not_formatAge_tiers :
  average_string (1800000, 1) = "30m"%string /\
  formatAge_tiering (inject_Z 1800000 / inject_Z 1) = "just opened"%string /\
  average_string (172800000, 1) = "2 days"%string /\
  formatAge_tiering (inject_Z 172800000 / inject_Z 1) = "2d"%string /\
  average_string (1800000, 1)
  <> formatAge_tiering (inject_Z 1800000 / inject_Z 1) /\
  average_string (172800000, 1)
  <> formatAge_tiering (inject_Z 172800000 / inject_Z 1).
Proof. vm_compute. repeat split; discriminate. Qed.

End MetricsFormat.

(** * The statements at work on a PR *)

Section Instances.

Import PrTracker StoreView SyncView GithubWebhook Ingestion Scenarios
       Lifecycle.

Lemma reviewCount_monotone_on_pr9 :
  map_get 9 (trackedPRs tracking_pr9) = Some pr9 /\
  Forall count_delta ([review_updates 100] ++ [review_updates 200]) /\
  exists before after,
    map_get 9 (trackedPRs (run (updates_run 9 [review_updates 100])
                               tracking_pr9)) = Some before /\
    map_get 9 (trackedPRs (run (updates_run 9 ([review_updates 100]
                                                 ++ [review_updates 200]))
                               tracking_pr9)) = Some after /\
    count_of pr9 <= count_of before /\
    count_of before <= count_of after.
Proof.
  assert (Hget : map_get 9 (trackedPRs tracking_pr9) = Some pr9)
    by reflexivity.
  assert (Hdeltas : Forall count_delta
                      ([review_updates 100] ++ [review_updates 200])).
  { repeat constructor; unfold count_delta; simpl; lia. }
  split; [exact Hget|]. split; [exact Hdeltas|].
  exact (reviewCount_monotone 9 [review_updates 100] (review_updates 200)
           tracking_pr9 pr9 Hget Hdeltas).
Defined.

(** C8, as stated, fails: [updatePRStatus] adds the delta it is handed
    whatever its sign, and a negative one lowers the count. *)
Lemma negative_delta_lowers_reviewCount :
  map_get 9 (trackedPRs tracking_pr9) = Some pr9 /\
  exists after,
    map_get 9 (trackedPRs (run (updates_run 9 [count_update (-3)])
                               tracking_pr9)) = Some after /\
    reviewCount after = Some (-3) /\
    count_of after < count_of pr9.
Proof.
  split; [reflexivity|]. eexists. split; [reflexivity|].
  split; [reflexivity|]. vm_compute. reflexivity.
Qed.


Lemma sync_twice_same_store_on_pr9 :
  wf_store (trackedPRs tracking_pr9) /\
  trackedPRs
    (run (syncWithGitHub five_open_third_fails 9000000 "acme" "app")
       (run (syncWithGitHub five_open_third_fails 9000000 "acme" "app")
          tracking_pr9))
  = trackedPRs
      (run (syncWithGitHub five_open_third_fails 9000000 "acme" "app")
         tracking_pr9) /\
  outcome (syncWithGitHub five_open_third_fails 9000000 "acme" "app")
    (run (syncWithGitHub five_open_third_fails 9000000 "acme" "app")
       tracking_pr9)
  = outcome (syncWithGitHub five_open_third_fails 9000000 "acme" "app")
      tracking_pr9.
Proof.
  assert (Hwf : wf_store (trackedPRs tracking_pr9)).
  { unfold wf_store. simpl. constructor; [intros [] | constructor]. }
  split; [exact Hwf|].
  exact (sync_twice_same_store five_open_third_fails 9000000 "acme" "app"
           tracking_pr9 Hwf).
Defined.

Lemma store_never_holds_a_draft_on_a_day :
  no_draft (trackedPRs initial_world) /\
  Forall hands_no_draft a_day_of_operations /\
  no_draft (trackedPRs (run_ops (firstn 4 a_day_of_operations)
                                initial_world)).
Proof.
  assert (Hw : no_draft (trackedPRs initial_world)) by constructor.
  assert (Hops : Forall hands_no_draft a_day_of_operations).
  { unfold a_day_of_operations. repeat constructor; simpl; try discriminate.
    intros pull _ [H | H]; vm_compute in H; discriminate. }
  split; [exact Hw|]. split; [exact Hops|].
  exact (store_never_holds_a_draft a_day_of_operations 4 initial_world
           Hw Hops).
Defined.

Lemma queries_select_on_pr9 :
  (In pr9 (getStalePRs (hours_ms 30) 24 tracking_pr9) /\
   In pr9 (getPRsNeedingReview tracking_pr9)) /\
  (exists pr',
     map_get 9 (trackedPRs
                  (run (handlePullRequestReviewEvent no_token
                          (review_of_pr9 (hours_ms 29))) tracking_pr9))
     = Some pr' /\
     ~ In pr' (getStalePRs (hours_ms 30) 24
                 (run (handlePullRequestReviewEvent no_token
                         (review_of_pr9 (hours_ms 29))) tracking_pr9)) /\
     ~ In pr' (getPRsNeedingReview
                 (run (handlePullRequestReviewEvent no_token
                         (review_of_pr9 (hours_ms 29))) tracking_pr9))) /\
  In (pr9_reviewed (hours_ms 29))
     (getStalePRs (hours_ms 77) 24
        (run (handlePullRequestReviewEvent no_token
                (review_of_pr9 (hours_ms 29))) tracking_pr9)).
Proof.
  split; [|split].
  - destruct (queries_select (hours_ms 30) 24 tracking_pr9 pr9)
      as (_ & _ & Hfresh & _ & _).
    apply Hfresh; [left; reflexivity | reflexivity | reflexivity].
  - destruct (queries_select (hours_ms 30) 24 tracking_pr9 pr9)
      as (_ & _ & _ & Hreviewed & _).
    exact (Hreviewed no_token (review_of_pr9 (hours_ms 29)) pr9_snapshot
             (mkReviewPayload "approved" "bob" (hours_ms 29))
             eq_refl eq_refl eq_refl eq_refl eq_refl eq_refl eq_refl eq_refl).
  - destruct (queries_select (hours_ms 77) 24
                (run (handlePullRequestReviewEvent no_token
                        (review_of_pr9 (hours_ms 29))) tracking_pr9)
                (pr9_reviewed (hours_ms 29)))
      as (_ & _ & _ & _ & Hagain).
    apply Hagain; [left; reflexivity | reflexivity | vm_compute; discriminate].
Defined.

End Instances.

(** * Tracking and removing *)

Section TrackAndRemove.

Import PrTracker StoreView.

(** X1. [trackPR] then lookup: the call returns; the entry under the number
    carries the fields of the data handed in ([lastReviewedAt] and
    [lastUpdated] included, even when absent), the age in whole hours at the
    clock, and the reviewers and count of the entry it replaces (none and 0
    for a new number); every other entry is untouched; a tracked number
    keeps its place in the store, a new one goes last. *)
Theorem trackPR_then_lookup (now : Z) (prData : PRData) (w : World) :
  let w' := run (trackPR now prData) w in
  outcome (trackPR now prData) w = Returned tt /\
  (exists pr',
     map_get (number prData) (trackedPRs w') = Some pr' /\
     number pr' = number prData /\ title pr' = title prData /\
     url pr' = url prData /\ author pr' = author prData /\
     createdAt pr' = createdAt prData /\ owner pr' = owner prData /\
     repo pr' = repo prData /\ isDraft pr' = isDraft prData /\
     lastReviewedAt pr' = lastReviewedAt prData /\
     lastUpdated pr' = lastUpdated prData /\
     age pr' = (now - createdAt prData) / 3600000 /\
     match map_get (number prData) (trackedPRs w) with
     | Some existing =>
         reviewers pr' = reviewers existing /\
         reviewCount pr' = Some (or0 (reviewCount existing))
     | None => reviewers pr' = [] /\ reviewCount pr' = Some 0
     end) /\
  (forall k, k <> number prData ->
             map_get k (trackedPRs w') = map_get k (trackedPRs w)) /\
  map_keys (trackedPRs w')
  = (if mem_Z (number prData) (map_keys (trackedPRs w))
     then map_keys (trackedPRs w)
     else map_keys (trackedPRs w) ++ [number prData]).
Proof.
  intros w'. subst w'. rewrite trackPR_run. unfold trackPR_store.
  split; [reflexivity|]. split; [|split].
  - eexists. split; [apply map_get_set_same|].
    repeat (split; [reflexivity|]).
    destruct (map_get (number prData) (trackedPRs w)); split; reflexivity.
  - intros k Hk. now apply map_get_set_other.
  - apply map_keys_set.
Qed.

(** X2. Tracking the same data twice at the same clock is tracking it once:
    the second call leaves the store of the first. *)
Theorem trackPR_twice (now : Z) (prData : PRData) (w : World) :
  trackedPRs (run (trackPR now prData) (run (trackPR now prData) w))
  = trackedPRs (run (trackPR now prData) w).
Proof.
  rewrite !trackPR_run. unfold trackPR_store.
  rewrite map_get_set_same, map_set_set.
  unfold tracked_entry. simpl.
  now destruct (map_get (number prData) (trackedPRs w)).
Qed.

Lemma map_delete_absent k s : ~ In k (map_keys s) -> map_delete k s = s.
Proof.
  intros Hk. unfold map_delete. apply forallb_filter_id, forallb_forall.
  intros [k0 v0] Hin. simpl.
  destruct (Z.eqb_spec k k0) as [->|]; [|reflexivity].
  exfalso. apply Hk. unfold map_keys. change k0 with (fst (k0, v0)).
  now apply in_map.
Qed.

Lemma map_delete_set_absent k v s :
  ~ In k (map_keys s) -> map_delete k (map_set k v s) = s.
Proof.
  unfold map_delete, map_keys.
  induction s as [|[k0 v0] s IH]; simpl; intros Hk.
  - now rewrite Z.eqb_refl.
  - destruct (Z.eqb_spec k k0) as [->|Hne]; [exfalso; apply Hk; now left|].
    simpl. destruct (Z.eqb_spec k k0); [contradiction|]. simpl.
    f_equal. apply IH. intros H. apply Hk. now right.
Qed.

(** X3. [removePR]: the call returns; the number is no longer tracked; the
    other entries keep their values and their order; removing a number that
    is not tracked leaves the store as it is. *)
Theorem removePR_contract (prNumber : Z) (w : World) :
  let w' := run (removePR prNumber) w in
  outcome (removePR prNumber) w = Returned tt /\
  map_get prNumber (trackedPRs w') = None /\
  (forall k, k <> prNumber ->
             map_get k (trackedPRs w') = map_get k (trackedPRs w)) /\
  map_keys (trackedPRs w')
  = filter (fun k => negb (prNumber =? k)) (map_keys (trackedPRs w)) /\
  (map_get prNumber (trackedPRs w) = None -> trackedPRs w' = trackedPRs w).
Proof.
  intros w'. subst w'. rewrite removePR_run.
  split; [reflexivity|]. split; [|split; [|split]].
  - rewrite map_get_delete. now rewrite Z.eqb_refl.
  - intros k Hk. rewrite map_get_delete.
    destruct (Z.eqb_spec k prNumber); [contradiction | reflexivity].
  - apply (map_keys_filter (fun k => negb (prNumber =? k))).
  - intros Hnone. apply map_delete_absent. now apply map_get_None.
Qed.

(** X4. Removal forgets the history: when a removed PR is tracked again,
    its entry starts with no reviewers and a count of 0, whatever it had
    accumulated before. *)
Theorem removed_then_tracked_starts_afresh
    (now : Z) (prData : PRData) (w : World) :
  let w' := run (trackPR now prData) (run (removePR (number prData)) w) in
  exists pr',
    map_get (number prData) (trackedPRs w') = Some pr' /\
    reviewers pr' = [] /\ reviewCount pr' = Some 0.
Proof.
  intros w'. subst w'. rewrite trackPR_run, removePR_run.
  unfold trackPR_store. eexists. split; [apply map_get_set_same|].
  rewrite map_get_delete, Z.eqb_refl. split; reflexivity.
Qed.

End TrackAndRemove.

(** * Staleness, age and review deliveries *)

Section QueriesMore.

Import PrTracker StoreView GithubWebhook Deliveries Scenarios Lifecycle.

(** X5. Staleness only grows with time and shrinks with the threshold: a
    PR reported stale stays reported at any later clock and under any
    smaller threshold, as long as the store is not changed. *)
Theorem stale_later_and_stricter
    (now now' hoursThreshold hoursThreshold' : Z) (w : World)
    (pr : TrackedPR) :
  In pr (getStalePRs now hoursThreshold w) ->
  now <= now' ->
  hoursThreshold' <= hoursThreshold ->
  In pr (getStalePRs now' hoursThreshold' w).
Proof.
  unfold getStalePRs. rewrite !filter_In, !is_stale_iff.
  intros (Hin & Hage & Hreview) Hnow Hth.
  split; [assumption|]. split; [lia|].
  destruct Hreview as [Hnone | (t & Ht & Hlt)]; [now left|].
  right. exists t. split; [assumption | lia].
Qed.

Lemma stale_later_and_stricter_on_pr9 :
  In pr9 (getStalePRs (hours_ms 30) 24 tracking_pr9) /\
  hours_ms 30 <= hours_ms 31 /\
  12 <= 24 /\
  In pr9 (getStalePRs (hours_ms 31) 12 tracking_pr9).
Proof.
  assert (Hin : In pr9 (getStalePRs (hours_ms 30) 24 tracking_pr9))
    by (left; reflexivity).
  assert (Hnow : hours_ms 30 <= hours_ms 31) by (vm_compute; discriminate).
  assert (Hth : 12 <= 24) by lia.
  split; [exact Hin|]. split; [exact Hnow|]. split; [exact Hth|].
  exact (stale_later_and_stricter (hours_ms 30) (hours_ms 31) 24 12
           tracking_pr9 pr9 Hin Hnow Hth).
Defined.

(** X6. The age string of a PR as [trackPR] stores it, by the time since
    its creation at the clock of the call: "just opened" when that is less
    than an hour (or the creation lies ahead), the whole hours followed by
    "h old" below 24 hours, and the whole days followed by "d old" from
    there on. *)
Theorem formatPRAge_of_tracked (now : Z) (prData : PRData) (w : World) :
  let elapsed := now - createdAt prData in
  exists pr',
    map_get (number prData) (trackedPRs (run (trackPR now prData) w))
    = Some pr' /\
    formatPRAge pr'
    = (if Z.ltb elapsed 3600000 then "just opened"
       else if Z.ltb elapsed 86400000
            then string_of_Z (elapsed / 3600000) ++ "h old"
            else string_of_Z (elapsed / 86400000) ++ "d old")%string.
Proof.
  intros elapsed. rewrite trackPR_run. unfold trackPR_store.
  eexists. split; [apply map_get_set_same|].
  unfold formatPRAge. cbn [age tracked_entry].
  change (1000 * 60 * 60) with 3600000. fold elapsed.
  assert (H1 : (elapsed / 3600000 <? 1) = (elapsed <? 3600000)).
  { destruct (Z.ltb_spec (elapsed / 3600000) 1), (Z.ltb_spec elapsed 3600000);
      try reflexivity; exfalso.
    - assert (1 <= elapsed / 3600000) by (apply Z.div_le_lower_bound; lia). lia.
    - assert (elapsed / 3600000 < 1) by (apply Z.div_lt_upper_bound; lia). lia. }
  assert (H24 : (elapsed / 3600000 <? 24) = (elapsed <? 86400000)).
  { destruct (Z.ltb_spec (elapsed / 3600000) 24),
             (Z.ltb_spec elapsed 86400000); try reflexivity; exfalso.
    - assert (24 <= elapsed / 3600000) by (apply Z.div_le_lower_bound; lia). lia.
    - assert (elapsed / 3600000 < 24) by (apply Z.div_lt_upper_bound; lia). lia. }
  rewrite H1, H24, Z.div_div by lia. reflexivity.
Qed.

Lemma action_is_eq payload name :
  action payload = Some name -> forall other,
  action_is payload other = String.eqb name other.
Proof. intros Hact other. unfold action_is. now rewrite Hact. Qed.

(** X7. Tracking a PR again through a [reopened] delivery keeps the count
    and the reviewers of its entry but drops [lastReviewedAt] and
    [lastUpdated], which the snapshot does not carry: whatever its count,
    the PR is listed by [getPRsNeedingReview] again. *)
Theorem reopened_forgets_last_review
    (env : Env) (now : Z) (payload : WebhookPayload)
    (pull : PullRequestPayload) (pr : TrackedPR) (w : World) :
  action payload = Some "reopened"%string ->
  pull_request payload = Some pull ->
  map_get (p_number pull) (trackedPRs w) = Some pr ->
  let w' := run (handlePullRequestEvent env now payload) w in
  exists pr',
    map_get (p_number pull) (trackedPRs w') = Some pr' /\
    reviewCount pr' = Some (or0 (reviewCount pr)) /\
    reviewers pr' = reviewers pr /\
    lastReviewedAt pr' = None /\
    lastUpdated pr' = None /\
    In pr' (getPRsNeedingReview w').
Proof.
  intros Hact Hpull Hget w'. subst w'.
  assert (Hrun : run (handlePullRequestEvent env now payload) w
                 = run (trackPR now (payload_prData pull payload)) w).
  { unfold handlePullRequestEvent. rewrite Hpull.
    rewrite !(action_is_eq payload _ Hact). reflexivity. }
  rewrite Hrun. unfold getPRsNeedingReview.
  rewrite trackPR_run. unfold trackPR_store. cbn [number payload_prData].
  rewrite Hget. eexists. split; [apply map_get_set_same|].
  repeat (split; [reflexivity|]).
  apply filter_In. split; [|reflexivity].
  unfold map_values.
  match goal with
  | |- In ?v (map snd ?s) => change v with (snd (p_number pull, v))
  end.
  apply in_map. apply map_get_Some_In. apply map_get_set_same.
Qed.

Lemma reopened_forgets_last_review_on_pr9 :
  action (mkWebhookPayload (Some "reopened"%string) (Some pr9_snapshot) None
            "app"%string "acme"%string) = Some "reopened"%string /\
  map_get 9 (trackedPRs (run (handlePullRequestReviewEvent no_token
                                (review_of_pr9 7200000)) tracking_pr9))
  = Some (pr9_reviewed 7200000) /\
  exists pr',
    map_get 9
      (trackedPRs
         (run (handlePullRequestEvent no_token 9000000
                 (mkWebhookPayload (Some "reopened"%string)
                    (Some pr9_snapshot) None "app"%string "acme"%string))
              (run (handlePullRequestReviewEvent no_token
                      (review_of_pr9 7200000)) tracking_pr9)))
    = Some pr' /\
    reviewCount pr' = Some (or0 (reviewCount (pr9_reviewed 7200000))) /\
    reviewers pr' = reviewers (pr9_reviewed 7200000) /\
    lastReviewedAt pr' = None /\
    lastUpdated pr' = None /\
    In pr' (getPRsNeedingReview
              (run (handlePullRequestEvent no_token 9000000
                      (mkWebhookPayload (Some "reopened"%string)
                         (Some pr9_snapshot) None "app"%string "acme"%string))
                   (run (handlePullRequestReviewEvent no_token
                           (review_of_pr9 7200000)) tracking_pr9))).
Proof.
  split; [reflexivity|]. split; [reflexivity|].
  exact (reopened_forgets_last_review no_token 9000000
           (mkWebhookPayload (Some "reopened"%string) (Some pr9_snapshot) None
              "app"%string "acme"%string)
           pr9_snapshot (pr9_reviewed 7200000)
           (run (handlePullRequestReviewEvent no_token
                   (review_of_pr9 7200000)) tracking_pr9)
           eq_refl eq_refl eq_refl).
Defined.

End QueriesMore.

(** * Review deliveries one after the other *)

Section ReviewDeliveries.

Import PrTracker StoreView GithubWebhook Deliveries Scenarios Lifecycle.

Lemma last_cons_default {A} (l : list A) : forall (a d : A),
  last (a :: l) d = last l a.
Proof.
  induction l as [|b l IH]; intros a d; [reflexivity|].
  change (last (a :: b :: l) d) with (last (b :: l) d).
  now rewrite (IH b d), (IH b a).
Qed.

Lemma review_deliveries_cons env payload payloads w :
  run (review_deliveries env (payload :: payloads)) w
  = run (review_deliveries env payloads)
        (run (handlePullRequestReviewEvent env payload) w).
Proof.
  unfold review_deliveries. simpl.
  now rewrite (run_bind _ _ w tt (review_event_returns env payload w)).
Qed.

(** X8. Review deliveries for a tracked PR add up: after any number of
    [submitted] deliveries for it, its count has grown by the number of
    deliveries, its [lastReviewedAt] is the submission time carried by the
    delivery handled last (whether or not it is the latest submission), and
    its reviewers are what they were. *)
Theorem review_deliveries_add_up
    (env : Env) (n : Z) (payloads : list WebhookPayload) :
  Forall (submitted_for n) payloads ->
  forall (w : World) (pr : TrackedPR),
    map_get n (trackedPRs w) = Some pr ->
    exists pr',
      map_get n (trackedPRs (run (review_deliveries env payloads) w))
      = Some pr' /\
      count_of pr' = count_of pr + Z.of_nat (List.length payloads) /\
      lastReviewedAt pr'
      = last (map submitted_at_of payloads) (lastReviewedAt pr) /\
      reviewers pr' = reviewers pr.
Proof.
  induction 1 as [|payload payloads Hp Hps IH]; intros w pr Hget.
  - exists pr. simpl. repeat split; [assumption | unfold count_of; lia].
  - destruct Hp as (Hact & (pull & Hpull & Hn) & (rv & Hrv)).
    rewrite review_deliveries_cons.
    set (w1 := run (handlePullRequestReviewEvent env payload) w).
    assert (Hget1 : map_get n (trackedPRs w1)
                    = Some (merged_entry pr
                              (review_updates (r_submitted_at rv)))).
    { subst w1. rewrite review_event_store, Hpull, Hrv.
      rewrite (action_is_eq payload _ Hact). simpl.
      rewrite Hn. unfold updatePRStatus_store. rewrite Hget.
      apply map_get_set_same. }
    destruct (IH w1 _ Hget1) as (pr' & Hget' & Hcount & Hlast & Hrev).
    exists pr'. split; [assumption|]. split; [|split].
    + rewrite Hcount. unfold count_of. simpl List.length.
      rewrite Nat2Z.inj_succ. simpl. lia.
    + rewrite Hlast. simpl map. rewrite last_cons_default.
      unfold submitted_at_of. now rewrite Hrv.
    + rewrite Hrev. reflexivity.
Qed.

Lemma review_deliveries_add_up_on_pr9 :
  Forall (submitted_for 9) [review_of_pr9 7200000; review_of_pr9 5400000] /\
  map_get 9 (trackedPRs tracking_pr9) = Some pr9 /\
  exists pr',
    map_get 9 (trackedPRs
                 (run (review_deliveries no_token
                         [review_of_pr9 7200000; review_of_pr9 5400000])
                      tracking_pr9)) = Some pr' /\
    count_of pr'
    = count_of pr9
      + Z.of_nat (List.length [review_of_pr9 7200000; review_of_pr9 5400000]) /\
    lastReviewedAt pr'
    = last (map submitted_at_of
              [review_of_pr9 7200000; review_of_pr9 5400000])
           (lastReviewedAt pr9) /\
    reviewers pr' = reviewers pr9.
Proof.
  assert (Hall : Forall (submitted_for 9)
                   [review_of_pr9 7200000; review_of_pr9 5400000]).
  { repeat constructor; simpl; eexists; split; reflexivity || eauto. }
  assert (Hget : map_get 9 (trackedPRs tracking_pr9) = Some pr9)
    by reflexivity.
  split; [exact Hall|]. split; [exact Hget|].
  exact (review_deliveries_add_up no_token 9
           [review_of_pr9 7200000; review_of_pr9 5400000] Hall
           tracking_pr9 pr9 Hget).
Defined.

End ReviewDeliveries.

(** * The set of reviewers *)

Section ArrayFromSet.

Lemma mem_string_In x (l : list string) : mem_string x l = true <-> In x l.
Proof.
  unfold mem_string. rewrite existsb_exists. split.
  - intros (y & Hin & Heq). apply String.eqb_eq in Heq. now subst.
  - intros Hin. exists x. split; [assumption | apply String.eqb_refl].
Qed.

Lemma set_add_In seen x y : In y (set_add seen x) <-> In y seen \/ y = x.
Proof.
  unfold set_add. destruct (mem_string x seen) eqn:E.
  - apply mem_string_In in E. split; [now left | intros [H | ->]; assumption].
  - rewrite in_app_iff. simpl. intuition.
Qed.

Lemma set_add_NoDup seen x : NoDup seen -> NoDup (set_add seen x).
Proof.
  intros Hnd. unfold set_add. destruct (mem_string x seen) eqn:E; [assumption|].
  assert (Hx : ~ In x seen).
  { intros Hin. apply mem_string_In in Hin. congruence. }
  apply NoDup_rev in Hnd. rewrite <- (rev_involutive (seen ++ [x])).
  apply NoDup_rev. rewrite rev_app_distr. simpl.
  constructor; [now rewrite <- in_rev | assumption].
Qed.

Lemma fold_set_add_In xs : forall seen y,
  In y (fold_left set_add xs seen) <-> In y seen \/ In y xs.
Proof.
  induction xs as [|x xs IH]; intros seen y; simpl; [intuition|].
  rewrite IH, set_add_In. intuition.
Qed.

Lemma fold_set_add_NoDup xs : forall seen,
  NoDup seen -> NoDup (fold_left set_add xs seen).
Proof.
  induction xs as [|x xs IH]; intros seen Hnd; [exact Hnd|].
  simpl. apply IH. now apply set_add_NoDup.
Qed.

Lemma fold_set_add_fresh xs : forall seen,
  NoDup (seen ++ xs) -> fold_left set_add xs seen = seen ++ xs.
Proof.
  induction xs as [|x xs IH]; intros seen Hnd; simpl.
  - now rewrite app_nil_r.
  - assert (Hx : mem_string x seen = false).
    { destruct (mem_string x seen) eqn:E; [|reflexivity].
      apply mem_string_In in E. exfalso.
      apply NoDup_remove_2 in Hnd. apply Hnd, in_or_app. now left. }
    unfold set_add at 2. rewrite Hx.
    rewrite IH; rewrite <- app_assoc; [reflexivity | exact Hnd].
Qed.

Lemma fold_set_add_prefix xs : forall seen,
  exists more, fold_left set_add xs seen = seen ++ more.
Proof.
  induction xs as [|x xs IH]; intros seen; simpl.
  - exists []. now rewrite app_nil_r.
  - destruct (IH (set_add seen x)) as (more & Hmore). rewrite Hmore.
    unfold set_add. destruct (mem_string x seen).
    + now exists more.
    + exists (x :: more). now rewrite <- app_assoc.
Qed.

(** X9. [[...new Set(reviewers)]] lists every login of the input once: the
    result has no repetition and the same members as the input, starts with
    the first login of the input, is the input itself when that has no
    repetition, and is unchanged by a second pass. *)
Theorem array_from_set_distinct (xs : list string) :
  NoDup (array_from_set xs) /\
  (forall x, In x (array_from_set xs) <-> In x xs) /\
  (forall x rest, xs = x :: rest ->
                  exists more, array_from_set xs = x :: more) /\
  (NoDup xs -> array_from_set xs = xs) /\
  array_from_set (array_from_set xs) = array_from_set xs.
Proof.
  assert (Hnd : NoDup (array_from_set xs))
    by (apply fold_set_add_NoDup; constructor).
  assert (Hfresh : forall l, NoDup l -> array_from_set l = l)
    by (intros l Hl; now apply (fold_set_add_fresh l [])).
  split; [exact Hnd|]. split; [|split; [|split]].
  - intros x. unfold array_from_set. rewrite fold_set_add_In. simpl. tauto.
  - intros x rest ->. unfold array_from_set. simpl.
    apply (fold_set_add_prefix rest [x]).
  - apply Hfresh.
  - now apply Hfresh.
Qed.

End ArrayFromSet.

Lemma array_from_set_distinct_on_logins :
  NoDup ["bob"; "carol"]%string /\
  array_from_set ["bob"; "carol"]%string = ["bob"; "carol"]%string.
Proof.
  assert (Hnd : NoDup ["bob"; "carol"]%string).
  { repeat constructor; simpl; intuition discriminate. }
  split; [exact Hnd|].
  destruct (array_from_set_distinct ["bob"; "carol"]%string)
    as (_ & _ & _ & Hsame & _).
  exact (Hsame Hnd).
Defined.

(** * What a run of reconciliation leaves in the store *)

Section SyncStore.

Import PrTracker StoreView SyncView.

Variable octokit : Octokit.
Variables (now : Z) (gh_owner gh_repo : string).

Lemma sync_loop_error_None prs :
  sync_loop_error octokit gh_owner gh_repo prs = None <->
  (forall pr, In pr prs -> gh_draft pr = false ->
              exists reviews,
                pulls_listReviews octokit gh_owner gh_repo (gh_number pr)
                = Resolved reviews).
Proof.
  induction prs as [|pr0 prs IH]; simpl.
  - split; [intros _ pr [] | reflexivity].
  - destruct (gh_draft pr0) eqn:Ed.
    + rewrite IH. split.
      * intros H pr [<- | Hin] Hd; [congruence | now apply H].
      * intros H pr Hin. apply H. now right.
    + destruct (pulls_listReviews octokit gh_owner gh_repo (gh_number pr0))
        as [reviews|e] eqn:Er.
      * rewrite IH. split.
        -- intros H pr [<- | Hin] Hd; [now exists reviews | now apply H].
        -- intros H pr Hin. apply H. now right.
      * split; [discriminate|]. intros H.
        destruct (H pr0 (or_introl eq_refl) Ed) as (reviews & Hr). congruence.
Qed.

(** The error of the second loop is the rejection met first: that of the
    first PR of the list that is not a draft and whose reviews cannot be
    fetched. *)
Lemma sync_loop_error_first prs e :
  sync_loop_error octokit gh_owner gh_repo prs = Some e <->
  exists before pr after,
    prs = before ++ pr :: after /\
    gh_draft pr = false /\
    pulls_listReviews octokit gh_owner gh_repo (gh_number pr) = Rejected e /\
    forall p, In p before -> gh_draft p = false ->
              exists reviews,
                pulls_listReviews octokit gh_owner gh_repo (gh_number p)
                = Resolved reviews.
Proof.
  induction prs as [|pr0 prs IH]; simpl.
  - split; [discriminate|].
    intros (before & pr & after & Heq & _). now destruct before.
  - destruct (gh_draft pr0) eqn:Ed;
      [|destruct (pulls_listReviews octokit gh_owner gh_repo (gh_number pr0))
          as [reviews0|e0] eqn:Er].
    + rewrite IH. split.
      * intros (before & pr & after & -> & Hd & Hr & Hall).
        exists (pr0 :: before), pr, after. repeat split; try assumption.
        intros p [<- | Hin] Hp; [congruence | now apply Hall].
      * intros ([|p0 before] & pr & after & Heq & Hd & Hr & Hall);
          injection Heq as <- ->; [congruence|].
        exists before, pr, after. repeat split; try assumption.
        intros p Hin. apply Hall. now right.
    + rewrite IH. split.
      * intros (before & pr & after & -> & Hd & Hr & Hall).
        exists (pr0 :: before), pr, after. repeat split; try assumption.
        intros p [<- | Hin] Hp; [now exists reviews0 | now apply Hall].
      * intros ([|p0 before] & pr & after & Heq & Hd & Hr & Hall);
          injection Heq as <- ->; [congruence|].
        exists before, pr, after. repeat split; try assumption.
        intros p Hin. apply Hall. now right.
    + split.
      * intros [= <-]. exists [], pr0, prs. repeat split; try assumption.
        intros p [].
      * intros ([|p0 before] & pr & after & Heq & Hd & Hr & Hall);
          injection Heq as <- ->; [congruence|].
        destruct (Hall pr0 (or_introl eq_refl) Ed) as (reviews & Hres).
        congruence.
Qed.

Lemma processed_complete prs :
  sync_loop_error octokit gh_owner gh_repo prs = None ->
  forall pr reviews,
    In pr prs -> gh_draft pr = false ->
    pulls_listReviews octokit gh_owner gh_repo (gh_number pr) = Resolved reviews ->
    In (pr, reviews) (processed octokit gh_owner gh_repo prs).
Proof.
  induction prs as [|pr0 prs IH]; simpl; [intros _ pr reviews []|].
  destruct (gh_draft pr0) eqn:Ed.
  - intros Herr pr reviews [<- | Hin] Hd Hr; [congruence | now apply IH].
  - destruct (pulls_listReviews octokit gh_owner gh_repo (gh_number pr0))
      as [reviews0|e] eqn:Er; [|discriminate].
    intros Herr pr reviews [<- | Hin] Hd Hr.
    + left. congruence.
    + right. now apply IH.
Qed.

Lemma processed_numbers_incl prs k :
  In k (item_numbers (processed octokit gh_owner gh_repo prs)) ->
  exists pr, In pr prs /\ gh_draft pr = false /\ gh_number pr = k.
Proof.
  unfold item_numbers. rewrite in_map_iff. intros (item & <- & Hitem).
  apply processed_incl in Hitem as (Hin & Hd & _). now exists (fst item).
Qed.

Lemma processed_numbers_NoDup prs :
  NoDup (map gh_number prs) ->
  NoDup (item_numbers (processed octokit gh_owner gh_repo prs)).
Proof.
  induction prs as [|pr0 prs IH]; simpl; [constructor|].
  intros Hnd. inversion Hnd as [|? ? Hnotin Hnd']; subst.
  destruct (gh_draft pr0); [now apply IH|].
  destruct (pulls_listReviews octokit gh_owner gh_repo (gh_number pr0));
    [|constructor].
  simpl. constructor; [|now apply IH].
  intros Hin. apply processed_numbers_incl in Hin as (pr & Hpr & _ & Heq).
  apply Hnotin. rewrite <- Heq. now apply in_map.
Qed.

Lemma map_get_upsert_all_item items : forall s pr reviews,
  NoDup (item_numbers items) ->
  In (pr, reviews) items ->
  map_get (gh_number pr) (upsert_all now gh_owner gh_repo items s)
  = Some (synced_entry now gh_owner gh_repo pr reviews (count_at (gh_number pr) s)).
Proof.
  induction items as [|[pr0 reviews0] items IH]; intros s pr reviews Hnd Hin;
    [destruct Hin|].
  inversion Hnd as [|? ? Hnotin Hnd']; subst. simpl in Hnotin.
  change (upsert_all now gh_owner gh_repo ((pr0, reviews0) :: items) s)
    with (upsert_all now gh_owner gh_repo items
            (upsert now gh_owner gh_repo pr0 reviews0 s)).
  destruct Hin as [Heq | Hin].
  - injection Heq as -> ->.
    rewrite map_get_upsert_all_frame by assumption.
    rewrite map_get_upsert. now rewrite Z.eqb_refl.
  - rewrite (IH _ pr reviews Hnd' Hin). now rewrite count_at_upsert.
Qed.

Lemma map_get_prune openPRNumbers s k :
  map_get k (prune openPRNumbers s)
  = if mem_Z k openPRNumbers then map_get k s else None.
Proof. apply (map_get_filter (fun x => mem_Z x openPRNumbers)). Qed.

(** X10. After a run that fetched the open-PR list, however it ended, the
    store tracks open PRs only, and every PR that was tracked and is still
    open is still tracked; after a run that returned, every open PR that is
    not a draft is tracked. *)
Theorem sync_tracks_open_prs (prs : list GhPull) (w : World) :
  pulls_list octokit gh_owner gh_repo state_open = Resolved prs ->
  let w' := run (syncWithGitHub octokit now gh_owner gh_repo) w in
  (forall k, In k (map_keys (trackedPRs w')) -> In k (map gh_number prs)) /\
  (forall k, In k (map_keys (trackedPRs w)) -> In k (map gh_number prs) ->
             In k (map_keys (trackedPRs w'))) /\
  (outcome (syncWithGitHub octokit now gh_owner gh_repo) w = Returned tt ->
   forall pr, In pr prs -> gh_draft pr = false ->
              In (gh_number pr) (map_keys (trackedPRs w'))).
Proof.
  intros Hlist w'. subst w'.
  destruct (syncWithGitHub_run octokit now gh_owner gh_repo w) as [Hout Hst].
  rewrite Hst, Hout. unfold sync_store, sync_error. rewrite Hlist.
  rewrite sync_loop_store_processed.
  assert (Hkeys : forall k,
             In k (map_keys (upsert_all now gh_owner gh_repo
                               (processed octokit gh_owner gh_repo prs)
                               (prune (map gh_number prs) (trackedPRs w))))
             <-> In k (map_keys (prune (map gh_number prs) (trackedPRs w)))
                 \/ In k (item_numbers (processed octokit gh_owner gh_repo prs))).
  { intros k. now rewrite map_keys_upsert_all, fold_add_key_In. }
  assert (Hprune : forall k,
             In k (map_keys (prune (map gh_number prs) (trackedPRs w)))
             <-> In k (map_keys (trackedPRs w)) /\ In k (map gh_number prs)).
  { intros k. unfold prune.
    rewrite (map_keys_filter (fun x => mem_Z x (map gh_number prs))).
    now rewrite filter_In, mem_Z_In. }
  split; [|split].
  - intros k Hk. apply Hkeys in Hk as [Hk | Hk].
    + now apply Hprune in Hk.
    + apply processed_numbers_incl in Hk as (pr & Hin & _ & <-).
      now apply in_map.
  - intros k Hk Hopen. apply Hkeys. left. now apply Hprune.
  - destruct (sync_loop_error octokit gh_owner gh_repo prs) as [e|] eqn:Herr;
      [discriminate|].
    intros _ pr Hin Hd. apply Hkeys. right.
    destruct (proj1 (sync_loop_error_None prs) Herr pr Hin Hd)
      as (reviews & Hr).
    unfold item_numbers. apply in_map_iff. exists (pr, reviews).
    split; [reflexivity|]. now apply processed_complete.
Qed.

(** X11. Reconciliation leaves alone the entry of a PR that is open but
    listed as a draft only: the entry is neither removed nor refreshed, so a
    PR tracked before it was turned into a draft stays in the store as it
    was. *)
Theorem sync_keeps_entry_of_draft (prs : list GhPull) (w : World) (k : Z) :
  pulls_list octokit gh_owner gh_repo state_open = Resolved prs ->
  In k (map gh_number prs) ->
  (forall pr, In pr prs -> gh_number pr = k -> gh_draft pr = true) ->
  map_get k (trackedPRs (run (syncWithGitHub octokit now gh_owner gh_repo) w))
  = map_get k (trackedPRs w).
Proof.
  intros Hlist Hopen Hdraft.
  rewrite (proj2 (syncWithGitHub_run octokit now gh_owner gh_repo w)).
  unfold sync_store. rewrite Hlist, sync_loop_store_processed.
  rewrite map_get_upsert_all_frame.
  - rewrite map_get_prune. now rewrite (proj2 (mem_Z_In k _) Hopen).
  - intros Hin. apply processed_numbers_incl in Hin as (pr & Hpr & Hd & Heq).
    rewrite (Hdraft pr Hpr Heq) in Hd. discriminate.
Qed.

(** X12. After a run that returned on a list of distinct PR numbers, the
    entry of every open PR that is not a draft carries the upstream title,
    URL, author ("unknown" without a login), creation and update times, the
    owner and repo of the run, the age at the clock, the time of the last
    fetched review (none without reviews) and the distinct reviewer logins;
    its count is the count the store held for the number before the run (0
    for a new number), not the number of fetched reviews. *)
Theorem sync_entry_of_open_pr
    (prs : list GhPull) (w : World) (pr : GhPull) (reviews : list GhReview) :
  pulls_list octokit gh_owner gh_repo state_open = Resolved prs ->
  outcome (syncWithGitHub octokit now gh_owner gh_repo) w = Returned tt ->
  NoDup (map gh_number prs) ->
  In pr prs ->
  gh_draft pr = false ->
  pulls_listReviews octokit gh_owner gh_repo (gh_number pr) = Resolved reviews ->
  exists entry,
    map_get (gh_number pr)
            (trackedPRs (run (syncWithGitHub octokit now gh_owner gh_repo) w))
    = Some entry /\
    number entry = gh_number pr /\ title entry = gh_title pr /\
    url entry = gh_html_url pr /\
    author entry = or_unknown (gh_user_login pr) /\
    createdAt entry = gh_created_at pr /\
    owner entry = gh_owner /\ repo entry = gh_repo /\
    isDraft entry = false /\
    lastUpdated entry = Some (gh_updated_at pr) /\
    lastReviewedAt entry = option_map rv_submitted_at (lastReview reviews) /\
    reviewers entry
    = array_from_set (map (fun r => or_unknown (rv_user_login r)) reviews) /\
    age entry = (now - gh_created_at pr) / 3600000 /\
    reviewCount entry
    = Some (match map_get (gh_number pr) (trackedPRs w) with
            | Some before => or0 (reviewCount before)
            | None => 0
            end).
Proof.
  intros Hlist Hret Hnd Hin Hd Hr.
  destruct (syncWithGitHub_run octokit now gh_owner gh_repo w) as [Hout Hst].
  rewrite Hst. rewrite Hout in Hret. unfold sync_store, sync_error in *.
  rewrite Hlist in *. rewrite sync_loop_store_processed.
  destruct (sync_loop_error octokit gh_owner gh_repo prs) as [e|] eqn:Herr;
    [discriminate|].
  rewrite (map_get_upsert_all_item _ _ pr reviews).
  - eexists. split; [reflexivity|].
    repeat (split; [reflexivity|]).
    split; [exact Hd|].
    repeat (split; [reflexivity|]).
    simpl. unfold count_at. rewrite map_get_prune.
    rewrite (proj2 (mem_Z_In _ _) (in_map gh_number _ _ Hin)).
    reflexivity.
  - now apply processed_numbers_NoDup.
  - now apply processed_complete.
Qed.

(** X13. Reconciliation never changes a review count: after a run that
    fetched the open-PR list, however it ended and whatever reviews it
    fetched, the count held for a number that is open is the count held
    before the run (0 when the number was not tracked), and no count is held
    for any other number. *)
Theorem sync_keeps_held_counts (prs : list GhPull) (w : World) (k : Z) :
  pulls_list octokit gh_owner gh_repo state_open = Resolved prs ->
  count_at k (trackedPRs (run (syncWithGitHub octokit now gh_owner gh_repo) w))
  = if mem_Z k (map gh_number prs) then count_at k (trackedPRs w) else 0.
Proof.
  intros Hlist.
  rewrite (proj2 (syncWithGitHub_run octokit now gh_owner gh_repo w)).
  unfold sync_store. rewrite Hlist.
  rewrite sync_loop_store_processed, count_at_upsert_all.
  unfold count_at. rewrite map_get_prune.
  now destruct (mem_Z k (map gh_number prs)).
Qed.

Lemma print_console line w :
  console (run (print line) w) = console w ++ [line] /\
  trackedPRs (run (print line) w) = trackedPRs w.
Proof. split; reflexivity. Qed.

(** The last thing a run prints. *)
Lemma syncWithGitHub_last_line w :
  exists earlier,
    console (run (syncWithGitHub octokit now gh_owner gh_repo) w)
    = earlier
      ++ [match sync_error octokit gh_owner gh_repo with
          | None =>
              console_log
                ("Sync complete: "
                   ++ string_of_Z
                        (Z.of_nat
                           (List.length
                              (trackedPRs
                                 (run (syncWithGitHub octokit now gh_owner
                                         gh_repo) w))))
                   ++ " PRs tracked")
          | Some e => console_error ("Error syncing with GitHub: " ++ e)
          end].
Proof.
  unfold syncWithGitHub, sync_error.
  destruct (pulls_list octokit gh_owner gh_repo state_open) as [prs|e];
    [|exists (console w); reflexivity].
  unfold await.
  match goal with
  | |- context [try_catch ?m ?h] => set (body := m); set (handler := h)
  end.
  assert (Hbody :
            match sync_loop_error octokit gh_owner gh_repo prs with
            | None =>
                exists wl,
                  body w
                  = (Returned tt,
                     run (print (console_log
                                   ("Sync complete: "
                                      ++ string_of_Z
                                           (Z.of_nat
                                              (List.length (trackedPRs wl)))
                                      ++ " PRs tracked"))) wl)
            | Some e => exists wl, body w = (Threw e, wl)
            end).
  { subst body.
    assert (Hsurj : forall (m : M unit) x, m x = (outcome m x, run m x)).
    { intros m x. unfold outcome, run. now destruct (m x). }
    match goal with
    | |- match _ with None => exists wl, ?m w = _ | Some _ => _ end =>
        rewrite (Hsurj m w)
    end.
    step_bind w prs. set (w1 := run (ret prs) w).
    step_bind w1 tt. set (w2 := run (print _) w1).
    step_bind w2 (trackedPRs w2). set (w3 := run get_store w2).
    destruct (prune_loop_run (map gh_number prs) (map_keys (trackedPRs w2)) w3)
      as (Hpo & _ & _).
    rewrite (run_bind _ _ w3 tt Hpo), (outcome_bind _ _ w3 tt Hpo).
    set (w4 := run (for_of (map_keys (trackedPRs w2)) _) w3).
    destruct (sync_loop_run octokit now gh_owner gh_repo prs w4) as [Hlo _].
    destruct (sync_loop_error octokit gh_owner gh_repo prs) as [e|].
    - destruct (run_bind_threw _
                  (fun _ => store' <- get_store ;;
                     print (console_log ("Sync complete: "
                        ++ string_of_Z (Z.of_nat (List.length store'))
                        ++ " PRs tracked"))) w4 e Hlo) as [Hr Ho].
      rewrite Hr, Ho. eexists. reflexivity.
    - rewrite (run_bind _ _ w4 tt Hlo), (outcome_bind _ _ w4 tt Hlo).
      eexists. reflexivity. }
  unfold run, try_catch.
  destruct (sync_loop_error octokit gh_owner gh_repo prs) as [e|].
  - destruct Hbody as (wl & Hb). rewrite Hb. subst handler.
    exists (console wl). reflexivity.
  - destruct Hbody as (wl & Hb). rewrite Hb.
    exists (console wl). reflexivity.
Qed.

(** X14. How a run ends. It returns exactly when the open-PR list and the
    reviews of every open PR that is not a draft are fetched; the reviews of
    a draft are not asked for.  Otherwise it throws to its caller the first
    rejection it meets, and that one only: the rejection of the open-PR
    list, or else the rejection of the reviews of the first PR of the list
    that is not a draft and whose reviews are not fetched.  The last line it
    prints is the error it throws, or on return the number of PRs the store
    tracks. *)
Theorem sync_outcome (w : World) :
  let w' := run (syncWithGitHub octokit now gh_owner gh_repo) w in
  (outcome (syncWithGitHub octokit now gh_owner gh_repo) w = Returned tt <->
   exists prs,
     pulls_list octokit gh_owner gh_repo state_open = Resolved prs /\
     forall pr, In pr prs -> gh_draft pr = false ->
                exists reviews,
                  pulls_listReviews octokit gh_owner gh_repo (gh_number pr)
                  = Resolved reviews) /\
  (forall e,
     outcome (syncWithGitHub octokit now gh_owner gh_repo) w = Threw e <->
     pulls_list octokit gh_owner gh_repo state_open = Rejected e \/
     exists before pr after,
       pulls_list octokit gh_owner gh_repo state_open
       = Resolved (before ++ pr :: after) /\
       gh_draft pr = false /\
       pulls_listReviews octokit gh_owner gh_repo (gh_number pr)
       = Rejected e /\
       forall p, In p before -> gh_draft p = false ->
                 exists reviews,
                   pulls_listReviews octokit gh_owner gh_repo (gh_number p)
                   = Resolved reviews) /\
  exists earlier,
    console w'
    = earlier
      ++ [match outcome (syncWithGitHub octokit now gh_owner gh_repo) w with
          | Returned _ =>
              console_log
                ("Sync complete: "
                   ++ string_of_Z (Z.of_nat (List.length (trackedPRs w')))
                   ++ " PRs tracked")
          | Threw e => console_error ("Error syncing with GitHub: " ++ e)
          end].
Proof.
  intros w'. subst w'.
  destruct (syncWithGitHub_run octokit now gh_owner gh_repo w) as [Hout _].
  rewrite Hout. split; [|split].
  - unfold sync_error.
    destruct (pulls_list octokit gh_owner gh_repo state_open) as [prs|e].
    + destruct (sync_loop_error octokit gh_owner gh_repo prs) as [e|] eqn:Herr.
      * split; [discriminate|]. intros (prs' & [= <-] & Hall).
        apply sync_loop_error_None in Hall. congruence.
      * split; [|reflexivity]. intros _. exists prs. split; [reflexivity|].
        now apply sync_loop_error_None.
    + split; [discriminate | intros (prs & [=] & _)].
  - intros e. unfold sync_error.
    destruct (pulls_list octokit gh_owner gh_repo state_open) as [prs|e0].
    + split.
      * destruct (sync_loop_error octokit gh_owner gh_repo prs) as [e1|]
          eqn:Herr; [|discriminate].
        intros [= <-]. right.
        destruct (proj1 (sync_loop_error_first prs e1) Herr)
          as (before & pr & after & -> & Hd & Hr & Hall).
        exists before, pr, after. auto.
      * intros [[=] | (before & pr & after & [= ->] & Hd & Hr & Hall)].
        assert (Herr : sync_loop_error octokit gh_owner gh_repo
                         (before ++ pr :: after) = Some e).
        { apply sync_loop_error_first. exists before, pr, after. auto. }
        now rewrite Herr.
    + split.
      * intros [= <-]. now left.
      * intros [[= <-] | (before & pr & after & [=] & _)]. reflexivity.
  - destruct (syncWithGitHub_last_line w) as (earlier & Hlast).
    exists earlier. rewrite Hlast.
    now destruct (sync_error octokit gh_owner gh_repo).
Qed.

End SyncStore.

Section SyncStoreInstances.

Import PrTracker StoreView SyncView Scenarios Scenarios2 Lifecycle.

Lemma sync_outcome_on_two_rejections :
  outcome (syncWithGitHub both_reviews_fail 9000000 "acme" "app")
          initial_world
  = Threw "HttpError: 502"%string /\
  outcome (syncWithGitHub both_reviews_fail 9000000 "acme" "app")
          initial_world
  <> Threw "HttpError: 404"%string.
Proof.
  pose proof (sync_outcome both_reviews_fail 9000000 "acme" "app"
                initial_world) as H.
  cbv zeta in H. destruct H as (_ & Hthrown & _).
  assert (Hfirst : outcome (syncWithGitHub both_reviews_fail 9000000 "acme"
                              "app") initial_world
                   = Threw "HttpError: 502"%string).
  { apply Hthrown. right. exists [], (open_pr 1), [open_pr 2].
    repeat split; try reflexivity. intros p []. }
  split; [exact Hfirst|]. rewrite Hfirst. discriminate.
Defined.

Lemma sync_tracks_open_prs_on_pr9 :
  pulls_list pr9_turned_draft "acme" "app" state_open
  = Resolved [draft_upstream 9; open_pr 1] /\
  (forall k,
     In k (map_keys
             (trackedPRs
                (run (syncWithGitHub pr9_turned_draft 9000000 "acme" "app")
                     tracking_pr9))) ->
     In k (map gh_number [draft_upstream 9; open_pr 1])) /\
  (forall k,
     In k (map_keys (trackedPRs tracking_pr9)) ->
     In k (map gh_number [draft_upstream 9; open_pr 1]) ->
     In k (map_keys
             (trackedPRs
                (run (syncWithGitHub pr9_turned_draft 9000000 "acme" "app")
                     tracking_pr9)))) /\
  (outcome (syncWithGitHub pr9_turned_draft 9000000 "acme" "app")
           tracking_pr9 = Returned tt ->
   forall pr, In pr [draft_upstream 9; open_pr 1] -> gh_draft pr = false ->
              In (gh_number pr)
                 (map_keys
                    (trackedPRs
                       (run (syncWithGitHub pr9_turned_draft 9000000
                               "acme" "app") tracking_pr9)))).
Proof.
  split; [reflexivity|].
  exact (sync_tracks_open_prs pr9_turned_draft 9000000 "acme" "app"
           [draft_upstream 9; open_pr 1] tracking_pr9 eq_refl).
Defined.

Lemma sync_keeps_entry_of_draft_on_pr9 :
  pulls_list pr9_turned_draft "acme" "app" state_open
  = Resolved [draft_upstream 9; open_pr 1] /\
  In 9 (map gh_number [draft_upstream 9; open_pr 1]) /\
  (forall pr, In pr [draft_upstream 9; open_pr 1] -> gh_number pr = 9 ->
              gh_draft pr = true) /\
  map_get 9 (trackedPRs
               (run (syncWithGitHub pr9_turned_draft 9000000 "acme" "app")
                    tracking_pr9))
  = map_get 9 (trackedPRs tracking_pr9).
Proof.
  assert (Hopen : In 9 (map gh_number [draft_upstream 9; open_pr 1]))
    by (left; reflexivity).
  assert (Hdraft : forall pr, In pr [draft_upstream 9; open_pr 1] ->
                              gh_number pr = 9 -> gh_draft pr = true).
  { intros pr [<- | [<- | []]] Hn; [reflexivity | discriminate Hn]. }
  split; [reflexivity|]. split; [exact Hopen|]. split; [exact Hdraft|].
  exact (sync_keeps_entry_of_draft pr9_turned_draft 9000000 "acme" "app"
           [draft_upstream 9; open_pr 1] tracking_pr9 9 eq_refl Hopen Hdraft).
Defined.

Lemma sync_entry_of_open_pr_on_pr1 :
  outcome (syncWithGitHub pr9_turned_draft 9000000 "acme" "app") tracking_pr9
  = Returned tt /\
  NoDup (map gh_number [draft_upstream 9; open_pr 1]) /\
  exists entry,
    map_get 1 (trackedPRs
                 (run (syncWithGitHub pr9_turned_draft 9000000 "acme" "app")
                      tracking_pr9)) = Some entry /\
    reviewers entry = ["bob"]%string /\
    lastReviewedAt entry = Some 7000 /\
    reviewCount entry = Some 0.
Proof.
  assert (Hret : outcome (syncWithGitHub pr9_turned_draft 9000000 "acme" "app")
                         tracking_pr9 = Returned tt) by reflexivity.
  assert (Hnd : NoDup (map gh_number [draft_upstream 9; open_pr 1])).
  { simpl. repeat constructor; simpl; intuition discriminate. }
  split; [exact Hret|]. split; [exact Hnd|].
  destruct (sync_entry_of_open_pr pr9_turned_draft 9000000 "acme" "app"
              [draft_upstream 9; open_pr 1] tracking_pr9 (open_pr 1)
              [review_by "bob" 5000; review_by "bob" 7000]
              eq_refl Hret Hnd (or_intror (or_introl eq_refl)) eq_refl eq_refl)
    as (entry & Hget & _ & _ & _ & _ & _ & _ & _ & _ & _ & Hlast & Hrev & _
        & Hcount).
  exists entry. split; [exact Hget|]. split; [exact Hrev|].
  split; [exact Hlast | exact Hcount].
Defined.

Lemma sync_keeps_held_counts_on_pr9 :
  pulls_list pr9_turned_draft "acme" "app" state_open
  = Resolved [draft_upstream 9; open_pr 1] /\
  count_at 1 (trackedPRs
                (run (syncWithGitHub pr9_turned_draft 9000000 "acme" "app")
                     tracking_pr9))
  = (if mem_Z 1 (map gh_number [draft_upstream 9; open_pr 1])
     then count_at 1 (trackedPRs tracking_pr9) else 0).
Proof.
  split; [reflexivity|].
  exact (sync_keeps_held_counts pr9_turned_draft 9000000 "acme" "app"
           [draft_upstream 9; open_pr 1] tracking_pr9 1 eq_refl).
Defined.

End SyncStoreInstances.

(** * No reviewer twice *)

Section ReviewersDistinct.

Import PrTracker StoreView SyncView GithubWebhook Ingestion Reviewers
       Lifecycle.

Lemma distinct_set k (v : TrackedPR) s :
  reviewers_distinct s -> NoDup (reviewers v) ->
  reviewers_distinct (map_set k v s).
Proof.
  unfold reviewers_distinct. intros Hs Hv.
  induction s as [|[k0 v0] s IH]; simpl.
  - now constructor.
  - inversion Hs as [|? ? H0 Hs']; subst.
    destruct (k =? k0); constructor; auto.
Qed.

Lemma distinct_filter (f : Z * TrackedPR -> bool) s :
  reviewers_distinct s -> reviewers_distinct (filter f s).
Proof.
  unfold reviewers_distinct. rewrite !Forall_forall.
  intros Hs kv Hin. apply filter_In in Hin as [Hin _]. auto.
Qed.

Lemma distinct_get k s (pr : TrackedPR) :
  reviewers_distinct s -> map_get k s = Some pr -> NoDup (reviewers pr).
Proof.
  unfold reviewers_distinct. rewrite Forall_forall. intros Hs Hget.
  apply map_get_Some_In in Hget. exact (Hs _ Hget).
Qed.

Lemma distinct_trackPR now prData s :
  reviewers_distinct s -> reviewers_distinct (trackPR_store now prData s).
Proof.
  intros Hs. apply distinct_set; [assumption|]. simpl.
  destruct (map_get (number prData) s) as [e|] eqn:E; [|constructor].
  now apply distinct_get with (number prData) s.
Qed.

Lemma distinct_updatePRStatus prNumber updates s :
  reviewers_distinct s ->
  match u_reviewers updates with
  | Some rs => NoDup rs
  | None => True
  end ->
  reviewers_distinct (updatePRStatus_store prNumber updates s).
Proof.
  intros Hs Hu. unfold updatePRStatus_store.
  destruct (map_get prNumber s) as [pr|] eqn:Hget; [|assumption].
  apply distinct_set; [assumption|]. simpl.
  destruct (u_reviewers updates); simpl;
    [assumption | now apply distinct_get with prNumber s].
Qed.

Lemma distinct_sync_store octokit now gh_owner gh_repo s :
  reviewers_distinct s ->
  reviewers_distinct (sync_store octokit now gh_owner gh_repo s).
Proof.
  intros Hs. unfold sync_store.
  destruct (pulls_list octokit gh_owner gh_repo state_open) as [prs|e];
    [|assumption].
  rewrite sync_loop_store_processed.
  assert (Hp : reviewers_distinct (prune (map gh_number prs) s))
    by now apply distinct_filter.
  revert Hp. generalize (prune (map gh_number prs) s).
  induction (processed octokit gh_owner gh_repo prs) as [|[pr reviews] items IH];
    intros s0 Hs0; [exact Hs0|].
  unfold upsert_all in *. simpl. apply IH.
  rewrite upsert_eq. apply distinct_set; [assumption|]. simpl.
  apply fold_set_add_NoDup; constructor.
Qed.

Lemma distinct_ingestion_step tracks s s' :
  reviewers_distinct s -> ingestion_step tracks s s' -> reviewers_distinct s'.
Proof.
  intros Hs [| now prData _ | prNumber updates Hu _ | prNumber].
  - assumption.
  - now apply distinct_trackPR.
  - apply distinct_updatePRStatus; [assumption|]. now rewrite Hu.
  - now apply distinct_filter.
Qed.

(** X15. No entry ever lists a reviewer twice: starting from a store where
    that holds (the empty one, say), it holds after every sequence of
    [trackPR], [updatePRStatus], [removePR], [syncWithGitHub] and webhook
    deliveries, provided [updatePRStatus] is not itself handed a list with a
    repetition; no webhook hands it any list. *)
Theorem reviewers_stay_distinct (ops : list Op) : forall w : World,
  reviewers_distinct (trackedPRs w) ->
  Forall hands_distinct_reviewers ops ->
  reviewers_distinct (trackedPRs (run_ops ops w)).
Proof.
  induction ops as [|op ops IH]; intros w Hw Hops; [exact Hw|].
  inversion Hops as [|? ? Hop Hops']; subst. simpl. apply IH; [|assumption].
  destruct op as [now prData | prNumber updates | prNumber
                 | octokit now gh_owner gh_repo
                 | crypto env now event payload body signature];
    cbn [run_op hands_distinct_reviewers] in *.
  - rewrite trackPR_run. now apply distinct_trackPR.
  - rewrite updatePRStatus_run. now apply distinct_updatePRStatus.
  - rewrite removePR_run. now apply distinct_filter.
  - rewrite (proj2 (syncWithGitHub_run octokit now gh_owner gh_repo w)).
    now apply distinct_sync_store.
  - eapply distinct_ingestion_step; [exact Hw | apply handleWebhook_step].
Qed.

Lemma reviewers_stay_distinct_on_a_day :
  reviewers_distinct (trackedPRs initial_world) /\
  Forall hands_distinct_reviewers a_day_of_operations /\
  reviewers_distinct (trackedPRs (run_ops a_day_of_operations initial_world)).
Proof.
  assert (Hw : reviewers_distinct (trackedPRs initial_world)) by constructor.
  assert (Hops : Forall hands_distinct_reviewers a_day_of_operations).
  { unfold a_day_of_operations. repeat constructor. }
  split; [exact Hw|]. split; [exact Hops|].
  exact (reviewers_stay_distinct a_day_of_operations initial_world Hw Hops).
Defined.

End ReviewersDistinct.

(** * Deliveries, the console and Slack *)

Section DeliveryEffects.

Import PrTracker StoreView SlackNotifier GithubWebhook Ingestion Delivery
       Outbox.

Variable env : Env.

Lemma posts_weaken {A} (m : M A) k k' :
  (k <= k')%nat -> posts_at_most env k m -> posts_at_most env k' m.
Proof.
  intros Hk Hm w. destruct (Hm w) as (later & posted & Hc & Hs & Hl & Ht).
  exists later, posted. repeat split; try assumption. lia.
Qed.

Lemma posts_quiet {A} (m : M A) :
  (forall w, exists later,
      console (run m w) = console w ++ later /\ slack (run m w) = slack w) ->
  posts_at_most env 0 m.
Proof.
  intros Hm w. destruct (Hm w) as (later & Hc & Hs).
  exists later, []. rewrite app_nil_r. repeat split; auto.
Qed.

Lemma posts_ret {A} (a : A) : posts_at_most env 0 (ret a).
Proof.
  apply posts_quiet. intros w. exists []. now rewrite app_nil_r.
Qed.

Lemma posts_throw {A} e : posts_at_most env 0 (@throw A e).
Proof.
  apply posts_quiet. intros w. exists []. now rewrite app_nil_r.
Qed.

Lemma posts_print line : posts_at_most env 0 (print line).
Proof. apply posts_quiet. intros w. now exists [line]. Qed.

Lemma posts_bind {A B} (m : M A) (f : A -> M B) k1 k2 :
  posts_at_most env k1 m ->
  (forall a, posts_at_most env k2 (f a)) ->
  posts_at_most env (k1 + k2) (bind m f).
Proof.
  intros Hm Hf w.
  destruct (Hm w) as (later1 & posted1 & Hc1 & Hs1 & Hl1 & Ht1).
  unfold run, bind in *. destruct (m w) as [[a|e] w1]; simpl in *.
  - destruct (Hf a w1) as (later2 & posted2 & Hc2 & Hs2 & Hl2 & Ht2).
    unfold run in Hc2, Hs2.
    exists (later1 ++ later2), (posted1 ++ posted2).
    rewrite Hc2, Hs2, Hc1, Hs1, <- !app_assoc, length_app.
    repeat split; [lia|]. intros Ht. now rewrite Ht1, Ht2.
  - exists later1, posted1. repeat split; try assumption. lia.
Qed.

Lemma posts_try_catch {A} (m : M A) (h : string -> M A) k1 k2 :
  posts_at_most env k1 m ->
  (forall e, posts_at_most env k2 (h e)) ->
  posts_at_most env (k1 + k2) (try_catch m h).
Proof.
  intros Hm Hh w.
  destruct (Hm w) as (later1 & posted1 & Hc1 & Hs1 & Hl1 & Ht1).
  unfold run, try_catch in *. destruct (m w) as [[a|e] w1]; simpl in *.
  - exists later1, posted1. repeat split; try assumption. lia.
  - destruct (Hh e w1) as (later2 & posted2 & Hc2 & Hs2 & Hl2 & Ht2).
    unfold run in Hc2, Hs2.
    exists (later1 ++ later2), (posted1 ++ posted2).
    rewrite Hc2, Hs2, Hc1, Hs1, <- !app_assoc, length_app.
    repeat split; [lia|]. intros Ht. now rewrite Ht1, Ht2.
Qed.

Lemma posts_trackPR now prData : posts_at_most env 0 (trackPR now prData).
Proof. apply posts_quiet. intros w. eexists. split; reflexivity. Qed.

Lemma posts_removePR prNumber : posts_at_most env 0 (removePR prNumber).
Proof. apply posts_quiet. intros w. eexists. split; reflexivity. Qed.

Lemma posts_updatePRStatus prNumber updates :
  posts_at_most env 0 (updatePRStatus prNumber updates).
Proof.
  apply posts_quiet. intros w. unfold run, updatePRStatus, bind, get_store.
  destruct (map_get prNumber (trackedPRs w)); eexists; split; reflexivity.
Qed.

Lemma posts_notify (msg : SlackMessage) (line : ConsoleLine) :
  posts_at_most env 1
    (if token_missing env then print disabled
     else post_message msg ;; print line).
Proof.
  intros w. destruct (token_missing env) eqn:Et.
  - exists [disabled], []. rewrite app_nil_r.
    repeat split; auto.
  - exists [line], [msg]. repeat split; auto. discriminate.
Qed.

Lemma posts_handlePullRequestEvent now payload :
  posts_at_most env 1 (handlePullRequestEvent env now payload).
Proof.
  unfold handlePullRequestEvent.
  destruct (pull_request payload) as [pull|];
    [|apply posts_weaken with 0%nat; [lia | apply posts_ret]].
  assert (Htrack : forall d,
             posts_at_most env 1
               (trackPR now d ;; notifyPROpened env (notification_of d))).
  { intros d. apply (posts_bind _ _ 0 1); [apply posts_trackPR|].
    intros _. apply posts_notify. }
  destruct (action_is payload "opened").
  { destruct (negb (p_draft pull)); [apply Htrack|].
    apply posts_weaken with 0%nat; [lia | apply posts_ret]. }
  destruct (action_is payload "ready_for_review"); [apply Htrack|].
  destruct (action_is payload "closed").
  { destruct (String.eqb (p_state pull) "closed");
      [|apply posts_weaken with 0%nat; [lia | apply posts_ret]].
    apply (posts_bind _ _ 0 1); [apply posts_removePR|].
    intros _. apply posts_notify. }
  destruct (action_is payload "reopened").
  { apply posts_weaken with 0%nat; [lia | apply posts_trackPR]. }
  destruct (action_is payload "synchronize").
  { apply posts_weaken with 0%nat; [lia | apply posts_updatePRStatus]. }
  apply posts_weaken with 0%nat; [lia | apply posts_print].
Qed.

Lemma posts_handlePullRequestReviewEvent payload :
  posts_at_most env 1 (handlePullRequestReviewEvent env payload).
Proof.
  unfold handlePullRequestReviewEvent.
  destruct (pull_request payload) as [pull|];
    [|apply posts_weaken with 0%nat; [lia | apply posts_ret]].
  destruct (review payload) as [rv|];
    [|apply posts_weaken with 0%nat; [lia | apply posts_ret]].
  destruct (action_is payload "submitted");
    [|apply posts_weaken with 0%nat; [lia | apply posts_ret]].
  apply (posts_bind _ _ 0 1); [apply posts_updatePRStatus|].
  intros _. apply posts_notify.
Qed.

Lemma posts_handlePullRequestReviewCommentEvent now payload :
  posts_at_most env 0 (handlePullRequestReviewCommentEvent now payload).
Proof.
  unfold handlePullRequestReviewCommentEvent.
  destruct (pull_request payload) as [pull|]; [|apply posts_ret].
  destruct (action_is payload "created"); [|apply posts_ret].
  apply posts_updatePRStatus.
Qed.

Lemma posts_dispatch now event payload :
  posts_at_most env 1 (dispatch env now event payload).
Proof.
  unfold dispatch.
  destruct (String.eqb event "pull_request");
    [apply posts_handlePullRequestEvent|].
  destruct (String.eqb event "pull_request_review");
    [apply posts_handlePullRequestReviewEvent|].
  destruct (String.eqb event "pull_request_review_comment").
  - apply posts_weaken with 0%nat;
      [lia | apply posts_handlePullRequestReviewCommentEvent].
  - apply posts_weaken with 0%nat; [lia | apply posts_print].
Qed.

Lemma dispatch_returns now event payload w :
  outcome (dispatch env now event payload) w = Returned tt.
Proof.
  unfold dispatch.
  destruct (String.eqb event "pull_request");
    [apply pull_request_event_step|].
  destruct (String.eqb event "pull_request_review");
    [apply review_event_returns|].
  destruct (String.eqb event "pull_request_review_comment");
    [apply review_comment_event_step | reflexivity].
Qed.

(** A delivery whose signature was found valid prints its first line and
    runs the handler of its event. *)
Lemma handle_verdict_valid now event payload w :
  outcome (handle_verdict env now true event payload) w = Returned tt /\
  run (handle_verdict env now true event payload) w
  = run (dispatch env now event payload)
        (run (print (received_line event payload)) w).
Proof.
  change (handle_verdict env now true event payload)
    with (print (received_line event payload) ;;
          try_catch (dispatch env now event payload)
            (fun error =>
               print (console_error ("Error handling webhook event "
                                       ++ event ++ ": " ++ error)) ;;
               throw error)).
  set (w0 := run (print (received_line event payload)) w).
  rewrite (run_bind (print (received_line event payload)) _ w tt eq_refl),
          (outcome_bind (print (received_line event payload)) _ w tt eq_refl).
  fold w0. split.
  - apply (outcome_try_catch _ _ w0 tt), dispatch_returns.
  - apply (run_try_catch _ _ w0 tt), dispatch_returns.
Qed.

Lemma accepted_verified crypto body signature w :
  accepted crypto env body signature ->
  outcome (verifySignature crypto env body signature) w = Returned true.
Proof.
  unfold accepted, secret_missing, verifySignature.
  destruct (GITHUB_WEBHOOK_SECRET env) as [[|c secret]|];
    try reflexivity.
  intros [Hmiss | (secret' & [= <-] & ->)]; [discriminate|].
  cbv zeta. set (digest := ("sha256=" ++ _)%string).
  unfold outcome, bind, Buffer_from, timingSafeEqual, ret. cbv beta iota.
  rewrite Nat.eqb_refl. cbn [fst]. now rewrite String.eqb_refl.
Qed.

(** An accepted delivery is the handling of a valid one, from the world
    [verifySignature] leaves: the world before, with the warning when no
    secret is set. *)
Lemma handleWebhook_accepted crypto now event payload body signature w :
  accepted crypto env body signature ->
  exists wv,
    trackedPRs wv = trackedPRs w /\
    slack wv = slack w /\
    console wv
    = console w ++ (if secret_missing env then [secret_not_set] else []) /\
    run (handleWebhook crypto env now event payload body signature) w
    = run (handle_verdict env now true event payload) wv /\
    outcome (handleWebhook crypto env now event payload body signature) w
    = outcome (handle_verdict env now true event payload) wv.
Proof.
  intros Hacc. exists (run (verifySignature crypto env body signature) w).
  destruct (verifySignature_world crypto env body signature w)
    as (Hs & Hk & Hc).
  split; [exact Hs|]. split; [exact Hk|]. split; [exact Hc|].
  unfold run at 1, outcome at 1.
  now rewrite handleWebhook_run, (accepted_verified _ _ _ w Hacc).
Qed.

(** X16. How a delivery ends.  With no secret configured every delivery is
    handled: it never throws, whatever its event, action, payload and
    signature, and it prints the warning that verification is skipped and
    then the line naming the event and the action.  With a secret, the
    delivery whose signature header is "sha256=" followed by the HMAC of the
    body is handled the same way, without the warning.  Any other delivery
    is refused and leaves the store, the console and Slack as they were: it
    throws "Invalid webhook signature" when the header has the length of the
    expected one, the RangeError of [timingSafeEqual] when it has another
    length, and the TypeError of [Buffer.from] when it is missing. *)
Theorem delivery_outcome
    (crypto : Crypto) (now : Z) (event : string) (payload : WebhookPayload)
    (body : string) (signature : option string) (w : World) :
  let w' :=
    run (handleWebhook crypto env now event payload body signature) w in
  let result :=
    outcome (handleWebhook crypto env now event payload body signature) w in
  let received :=
    console_log ("Received GitHub webhook: " ++ event ++ " - "
                   ++ match action payload with
                      | Some a => a
                      | None => "undefined"
                      end) in
  match GITHUB_WEBHOOK_SECRET env with
  | None | Some EmptyString =>
      result = Returned tt /\
      exists later,
        console w'
        = console w
          ++ console_warn
               "WARNING: GITHUB_WEBHOOK_SECRET not set - skipping signature verification"
             :: received :: later
  | Some secret =>
      let expected :=
        ("sha256=" ++ hmac_sha256_hex crypto secret body)%string in
      match signature with
      | None =>
          w' = w /\
          result
          = Threw
              "The first argument must be of type string or an instance of Buffer, ArrayBuffer, or Array or an Array-like Object. Received undefined"
      | Some header =>
          if String.eqb header expected then
            result = Returned tt /\
            exists later, console w' = console w ++ received :: later
          else
            w' = w /\
            result
            = Threw
                (if Nat.eqb (String.length header) (String.length expected)
                 then "Invalid webhook signature"
                 else "Input buffers must have the same byte length")
      end
  end.
Proof.
  intros w' result received. subst w' result.
  assert (Hhandled : forall w0,
             fst (handle_verdict env now true event payload w0)
             = Returned tt /\
             exists later,
               console (snd (handle_verdict env now true event payload w0))
               = console w0 ++ received :: later).
  { intros w0.
    destruct (handle_verdict_valid now event payload w0) as [Hout Hrun].
    split; [exact Hout|]. fold (run (handle_verdict env now true event payload) w0).
    rewrite Hrun.
    destruct (posts_dispatch now event payload
                (run (print (received_line event payload)) w0))
      as (later & _ & Hc & _).
    exists later. rewrite Hc. simpl. now rewrite <- app_assoc. }
  assert (Hwarned : fst (handle_verdict env now true event payload
                           (run (print secret_not_set) w))
                    = Returned tt /\
                    exists later,
                      console (snd (handle_verdict env now true event payload
                                      (run (print secret_not_set) w)))
                      = console w ++ secret_not_set :: received :: later).
  { destruct (Hhandled (run (print secret_not_set) w)) as (Hout & later & Hc).
    split; [exact Hout|]. exists later. rewrite Hc.
    change (console (run (print secret_not_set) w))
      with (console w ++ [secret_not_set]).
    now rewrite <- app_assoc. }
  unfold run, outcome. rewrite handleWebhook_run.
  unfold run, outcome. rewrite verifySignature_cases.
  destruct (GITHUB_WEBHOOK_SECRET env) as [[|c secret]|];
    cbn [fst snd]; [exact Hwarned | | exact Hwarned].
  cbv zeta. destruct signature as [header|]; [|split; reflexivity].
  set (expected := ("sha256=" ++ _)%string).
  destruct (String.eqb_spec header expected) as [-> | Hne].
  - rewrite Nat.eqb_refl. cbn [fst snd]. apply Hhandled.
  - destruct (Nat.eqb _ _); cbn [fst snd]; split; reflexivity.
Qed.

(** X17. A delivery, accepted or refused, posts at most one message to
    Slack, after the ones already posted, and none at all when no bot token
    is configured; it never removes a line from the console. *)
Theorem delivery_posts_at_most_one
    (crypto : Crypto) (now : Z) (event : string) (payload : WebhookPayload)
    (body : string) (signature : option string) (w : World) :
  let w' :=
    run (handleWebhook crypto env now event payload body signature) w in
  exists later posted,
    console w' = console w ++ later /\
    slack w' = slack w ++ posted /\
    (List.length posted <= 1)%nat /\
    (token_missing env = true -> posted = []).
Proof.
  intros w'. subst w'.
  destruct (verifySignature_world crypto env body signature w)
    as (_ & Hk & Hc).
  assert (Hrun :
            run (handleWebhook crypto env now event payload body signature) w
            = match outcome (verifySignature crypto env body signature) w with
              | Returned isValid =>
                  run (handle_verdict env now isValid event payload)
                      (run (verifySignature crypto env body signature) w)
              | Threw _ => run (verifySignature crypto env body signature) w
              end).
  { unfold run at 1. rewrite handleWebhook_run.
    now destruct (outcome (verifySignature crypto env body signature) w). }
  rewrite Hrun. clear Hrun.
  set (wv := run (verifySignature crypto env body signature) w) in *.
  set (lines := if secret_missing env then [secret_not_set] else []) in *.
  destruct (outcome (verifySignature crypto env body signature) w)
    as [[|]|e].
  - rewrite (proj2 (handle_verdict_valid now event payload wv)).
    destruct (posts_dispatch now event payload
                (run (print (received_line event payload)) wv))
      as (later & posted & Hc' & Hs' & Hl & Ht).
    exists (lines ++ received_line event payload :: later), posted.
    rewrite Hc', Hs'. simpl. rewrite Hc, Hk, <- !app_assoc.
    repeat split; assumption.
  - exists lines, []. change (run (handle_verdict env now false event payload) wv) with wv.
    rewrite Hc, Hk, app_nil_r. repeat split; auto.
  - exists lines, []. rewrite Hc, Hk, app_nil_r. repeat split; auto.
Qed.

End DeliveryEffects.

(** * Deliveries, branch by branch *)

(** Decide the comparisons of string literals in the goal. *)
Ltac eqb_literals :=
  repeat match goal with
         | |- context [String.eqb ?a ?b] =>
             let v := eval vm_compute in (String.eqb a b) in
             lazymatch v with
             | true => change (String.eqb a b) with true
             | false => change (String.eqb a b) with false
             end
         end.

Section DeliveryBranches.

Import PrTracker StoreView SlackNotifier GithubWebhook Ingestion Delivery
       Scenarios Scenarios2 Lifecycle.

Lemma delivery_outcome_on_signed :
  outcome (handleWebhook keyed with_token_signing 9000000 "pull_request"
             (pr9_payload "opened" "open") raw (signed raw)) initial_world
  = Returned tt /\
  outcome (handleWebhook keyed with_token_signing 9000000 "pull_request"
             (pr9_payload "opened" "open") raw (Some "sha256=0"%string))
          initial_world
  = Threw "Input buffers must have the same byte length"%string.
Proof.
  pose proof (delivery_outcome with_token_signing keyed 9000000
                "pull_request" (pr9_payload "opened" "open") raw
                (signed raw) initial_world) as Hok.
  pose proof (delivery_outcome with_token_signing keyed 9000000
                "pull_request" (pr9_payload "opened" "open") raw
                (Some "sha256=0"%string) initial_world) as Hbad.
  split; [exact (proj1 Hok) | exact (proj2 Hbad)].
Defined.

Lemma no_secret_accepted crypto body signature :
  accepted crypto with_token body signature.
Proof. now left. Qed.

Lemma signed_accepted body :
  accepted keyed with_token_signing body (signed body).
Proof. right. exists "s3cret"%string. split; reflexivity. Qed.

Lemma pull_request_delivery env now payload w :
  run (handle_verdict env now true "pull_request" payload) w
  = run (handlePullRequestEvent env now payload)
        (run (print (received_line "pull_request" payload)) w).
Proof. now rewrite (proj2 (handle_verdict_valid env now _ payload w)). Qed.

Lemma notify_world env msg line w :
  run (if token_missing env then print disabled
       else post_message msg ;; print line) w
  = mkWorld (trackedPRs w)
            (console w ++ [if token_missing env then disabled else line])
            (slack w ++ if token_missing env then [] else [msg]).
Proof.
  destruct (token_missing env); unfold run, print, bind, post_message; simpl;
    [now rewrite app_nil_r | reflexivity].
Qed.

Lemma closed_delivery_store
    (crypto : Crypto) (env : Env) (now : Z) (payload : WebhookPayload)
    (body : string) (signature : option string)
    (pull : PullRequestPayload) (w : World) :
  accepted crypto env body signature ->
  action payload = Some "closed"%string ->
  pull_request payload = Some pull ->
  p_state pull = "closed"%string ->
  trackedPRs
    (run (handleWebhook crypto env now "pull_request" payload body signature)
         w)
  = map_delete (p_number pull) (trackedPRs w).
Proof.
  intros Hacc Hact Hpull Hstate.
  destruct (handleWebhook_accepted env crypto now "pull_request" payload body
              signature w Hacc) as (wv & Hs & _ & _ & Hrun & _).
  rewrite Hrun, <- Hs. clear Hrun Hs.
  rewrite pull_request_delivery.
  unfold handlePullRequestEvent. rewrite Hpull.
  rewrite !(action_is_eq payload _ Hact). eqb_literals. cbv iota.
  rewrite Hstate. change (String.eqb "closed" "closed") with true. cbv iota.
  set (w0 := run (print (received_line "pull_request" payload)) wv).
  rewrite (run_bind (removePR (p_number pull)) _ w0 tt eq_refl).
  unfold notifyPRMerged. rewrite notify_world. reflexivity.
Qed.

Lemma opened_delivery_store
    (crypto : Crypto) (env : Env) (now : Z) (payload : WebhookPayload)
    (body : string) (signature : option string)
    (pull : PullRequestPayload) (w : World) :
  accepted crypto env body signature ->
  action payload = Some "opened"%string ->
  pull_request payload = Some pull ->
  p_draft pull = false ->
  trackedPRs
    (run (handleWebhook crypto env now "pull_request" payload body signature)
         w)
  = trackPR_store now (payload_prData pull payload) (trackedPRs w).
Proof.
  intros Hacc Hact Hpull Hdraft.
  destruct (handleWebhook_accepted env crypto now "pull_request" payload body
              signature w Hacc) as (wv & Hs & _ & _ & Hrun & _).
  rewrite Hrun, <- Hs. clear Hrun Hs.
  rewrite pull_request_delivery.
  unfold handlePullRequestEvent. rewrite Hpull.
  rewrite !(action_is_eq payload _ Hact). eqb_literals. cbv iota.
  rewrite Hdraft. cbn [negb].
  set (w0 := run (print (received_line "pull_request" payload)) wv).
  set (prData := payload_prData pull payload).
  rewrite (run_bind (trackPR now prData) _ w0 tt eq_refl).
  rewrite (proj2 (notifyPROpened_store env (notification_of prData) _)).
  now rewrite trackPR_run.
Qed.

(** X18. An accepted [closed] delivery whose PR state is "closed" removes
    the PR from the store and, with a token configured, posts one merge
    notification for it; the handler has nothing to tell a merge from a
    plain close.  With any other state the delivery changes neither the
    store nor Slack. *)
Theorem closed_delivery
    (crypto : Crypto) (env : Env) (now : Z) (payload : WebhookPayload)
    (body : string) (signature : option string)
    (pull : PullRequestPayload) (w : World) :
  accepted crypto env body signature ->
  action payload = Some "closed"%string ->
  pull_request payload = Some pull ->
  let w' :=
    run (handleWebhook crypto env now "pull_request" payload body signature)
        w in
  if String.eqb (p_state pull) "closed" then
    trackedPRs w' = map_delete (p_number pull) (trackedPRs w) /\
    slack w'
    = slack w
      ++ (if token_missing env then []
          else [MsgPRMerged
                  (notification_of (payload_prData pull payload))])
  else trackedPRs w' = trackedPRs w /\ slack w' = slack w.
Proof.
  intros Hacc Hact Hpull w'. subst w'.
  destruct (handleWebhook_accepted env crypto now "pull_request" payload body
              signature w Hacc) as (wv & Hs & Hk & _ & Hrun & _).
  rewrite Hrun, <- Hs, <- Hk. clear Hrun Hs Hk.
  rewrite pull_request_delivery.
  unfold handlePullRequestEvent. rewrite Hpull.
  rewrite !(action_is_eq payload _ Hact). eqb_literals. cbv iota.
  destruct (String.eqb (p_state pull) "closed"); [|split; reflexivity].
  set (w0 := run (print (received_line "pull_request" payload)) wv).
  rewrite (run_bind (removePR (p_number pull)) _ w0 tt eq_refl).
  unfold notifyPRMerged. rewrite notify_world. split; reflexivity.
Qed.

Lemma closed_delivery_on_pr9 :
  accepted keyed with_token_signing raw (signed raw) /\
  trackedPRs
    (run (handleWebhook keyed with_token_signing 9000000 "pull_request"
            (pr9_payload "closed" "closed") raw (signed raw))
         tracking_pr9) = [] /\
  List.length
    (slack
       (run (handleWebhook keyed with_token_signing 9000000 "pull_request"
               (pr9_payload "closed" "closed") raw (signed raw))
            tracking_pr9)) = 1%nat.
Proof.
  split; [apply signed_accepted|].
  pose proof (closed_delivery keyed with_token_signing 9000000
                (pr9_payload "closed" "closed") raw (signed raw)
                (pr9_pull "closed") tracking_pr9
                (signed_accepted raw) eq_refl eq_refl) as H.
  cbv zeta in H. change (String.eqb _ _) with true in H. cbv iota in H.
  destruct H as [Hstore Hslack]. rewrite Hstore, Hslack. split; reflexivity.
Defined.

(** X19. Opening and closing undo each other on the store: after the
    accepted [opened] delivery of a PR that is not a draft and was not
    tracked, followed by its accepted [closed] delivery, the store is what
    it was before the two. *)
Theorem opened_then_closed
    (crypto : Crypto) (env : Env) (now now' : Z)
    (opened closed : WebhookPayload) (body body' : string)
    (signature signature' : option string)
    (pull pull' : PullRequestPayload) (w : World) :
  accepted crypto env body signature ->
  accepted crypto env body' signature' ->
  action opened = Some "opened"%string ->
  pull_request opened = Some pull ->
  p_draft pull = false ->
  action closed = Some "closed"%string ->
  pull_request closed = Some pull' ->
  p_number pull' = p_number pull ->
  p_state pull' = "closed"%string ->
  map_get (p_number pull) (trackedPRs w) = None ->
  trackedPRs
    (run (handleWebhook crypto env now' "pull_request" closed body'
            signature')
         (run (handleWebhook crypto env now "pull_request" opened body
                 signature) w))
  = trackedPRs w.
Proof.
  intros Hacc Hacc' Hact Hpull Hdraft Hact' Hpull' Hn Hstate Hnone.
  rewrite (closed_delivery_store crypto env now' closed body' signature'
             pull' _ Hacc' Hact' Hpull' Hstate).
  rewrite Hn.
  rewrite (opened_delivery_store crypto env now opened body signature pull w
             Hacc Hact Hpull Hdraft).
  unfold trackPR_store.
  change (number (payload_prData pull opened)) with (p_number pull).
  apply map_delete_set_absent. now apply map_get_None.
Qed.

Lemma opened_then_closed_on_pr9 :
  accepted keyed with_token raw None /\
  map_get 9 (trackedPRs initial_world) = None /\
  trackedPRs
    (run (handleWebhook keyed with_token 9000000 "pull_request"
            (pr9_payload "closed" "closed") raw None)
         (run (handleWebhook keyed with_token 3600000 "pull_request"
                 (pr9_payload "opened" "open") raw None)
              initial_world))
  = trackedPRs initial_world.
Proof.
  split; [apply no_secret_accepted|]. split; [reflexivity|].
  exact (opened_then_closed keyed with_token 3600000 9000000
           (pr9_payload "opened" "open") (pr9_payload "closed" "closed")
           raw raw None None
           (pr9_pull "open") (pr9_pull "closed") initial_world
           (no_secret_accepted _ _ _) (no_secret_accepted _ _ _)
           eq_refl eq_refl eq_refl eq_refl eq_refl eq_refl eq_refl eq_refl).
Defined.

(** X20. An accepted [synchronize] delivery, and an accepted [created]
    review-comment delivery, only stamp the activity: a tracked PR gets
    [lastUpdated] set to the clock and keeps everything else, its stored age
    included; other entries and Slack are untouched.  For a PR that is not
    tracked the store stays as it is and the console gets, after the
    warning of [verifySignature] when no secret is set, the line of the
    delivery and the [console.warn] line that the PR is not found. *)
Theorem activity_delivery
    (crypto : Crypto) (env : Env) (now : Z) (event act : string)
    (payload : WebhookPayload) (body : string) (signature : option string)
    (pull : PullRequestPayload) (w : World) :
  accepted crypto env body signature ->
  pull_request payload = Some pull ->
  action payload = Some act ->
  (event = "pull_request"%string /\ act = "synchronize"%string) \/
  (event = "pull_request_review_comment"%string /\ act = "created"%string) ->
  let w' :=
    run (handleWebhook crypto env now event payload body signature) w in
  slack w' = slack w /\
  (forall k, k <> p_number pull ->
             map_get k (trackedPRs w') = map_get k (trackedPRs w)) /\
  match map_get (p_number pull) (trackedPRs w) with
  | Some pr =>
      exists pr',
        map_get (p_number pull) (trackedPRs w') = Some pr' /\
        lastUpdated pr' = Some now /\
        age pr' = age pr /\ reviewers pr' = reviewers pr /\
        reviewCount pr' = reviewCount pr /\
        lastReviewedAt pr' = lastReviewedAt pr /\
        number pr' = number pr /\ title pr' = title pr /\
        url pr' = url pr /\ author pr' = author pr /\
        createdAt pr' = createdAt pr /\ owner pr' = owner pr /\
        repo pr' = repo pr /\ isDraft pr' = isDraft pr
  | None =>
      trackedPRs w' = trackedPRs w /\
      console w'
      = console w
        ++ (if secret_missing env
            then [console_warn
                    "WARNING: GITHUB_WEBHOOK_SECRET not set - skipping signature verification"]
            else [])
        ++ [console_log ("Received GitHub webhook: " ++ event ++ " - " ++ act);
            console_warn ("PR #" ++ string_of_Z (p_number pull)
                            ++ " not found in tracker")]
  end.
Proof.
  intros Hacc Hpull Hact Hkind w'. subst w'.
  destruct (handleWebhook_accepted env crypto now event payload body
              signature w Hacc) as (wv & Hs & Hk & Hc & Hrun & _).
  rewrite Hrun, <- Hs, <- Hk. clear Hrun.
  assert (Hline : received_line event payload
                  = console_log ("Received GitHub webhook: " ++ event
                                   ++ " - " ++ act)).
  { unfold received_line, show_action. now rewrite Hact. }
  assert (Hrun : run (handle_verdict env now true event payload) wv
                 = run (updatePRStatus (p_number pull) (activity_updates now))
                       (run (print (received_line event payload)) wv)).
  { rewrite (proj2 (handle_verdict_valid env now event payload wv)).
    destruct Hkind as [[-> ->] | [-> ->]]; unfold dispatch; eqb_literals;
      cbv iota.
    - unfold handlePullRequestEvent. rewrite Hpull.
      rewrite !(action_is_eq payload _ Hact). eqb_literals. reflexivity.
    - unfold handlePullRequestReviewCommentEvent. rewrite Hpull.
      rewrite !(action_is_eq payload _ Hact). eqb_literals. reflexivity. }
  rewrite Hrun. clear Hrun Hkind.
  set (w0 := run (print (received_line event payload)) wv).
  assert (Hstore : trackedPRs w0 = trackedPRs wv) by reflexivity.
  split; [|split].
  - unfold run, updatePRStatus, bind, get_store.
    now destruct (map_get (p_number pull) (trackedPRs w0)).
  - intros k Hk'. rewrite updatePRStatus_run, map_get_updatePRStatus_store.
    rewrite Hstore. destruct (Z.eqb_spec k (p_number pull));
      [contradiction | reflexivity].
  - rewrite updatePRStatus_run, map_get_updatePRStatus_store, Z.eqb_refl.
    rewrite Hstore.
    destruct (map_get (p_number pull) (trackedPRs wv)) as [pr|] eqn:Hget.
    + eexists. split; [reflexivity|]. repeat split.
    + split.
      * unfold updatePRStatus_store. now rewrite Hget.
      * unfold run, updatePRStatus, bind, get_store. rewrite Hstore, Hget.
        simpl. rewrite Hc, Hline, <- !app_assoc. reflexivity.
Qed.

Lemma activity_delivery_on_pr9 :
  accepted keyed with_token raw None /\
  slack (run (handleWebhook keyed with_token 9000000 "pull_request"
                (pr9_payload "synchronize" "open") raw None) tracking_pr9)
  = slack tracking_pr9 /\
  exists pr',
    map_get 9 (trackedPRs
                 (run (handleWebhook keyed with_token 9000000 "pull_request"
                         (pr9_payload "synchronize" "open") raw None)
                      tracking_pr9)) = Some pr' /\
    lastUpdated pr' = Some 9000000 /\ age pr' = 1.
Proof.
  split; [apply no_secret_accepted|].
  destruct (activity_delivery keyed with_token 9000000 "pull_request"
              "synchronize" (pr9_payload "synchronize" "open") raw None
              (pr9_pull "open") tracking_pr9 (no_secret_accepted _ _ _)
              eq_refl eq_refl (or_introl (conj eq_refl eq_refl)))
    as (Hslack & _ & pr' & Hget & Hupd & Hage & _).
  split; [exact Hslack|]. exists pr'.
  split; [exact Hget|]. split; [exact Hupd | exact Hage].
Defined.

(** X21. An accepted [submitted] review delivery for a PR that is not
    tracked is dropped by the tracker, store unchanged and the
    [console.warn] line that the PR is not found printed, but the review
    notification is posted all the same when a token is configured. *)
Theorem review_of_untracked_pr
    (crypto : Crypto) (env : Env) (now : Z) (payload : WebhookPayload)
    (body : string) (signature : option string)
    (pull : PullRequestPayload) (rv : ReviewPayload) (w : World) :
  accepted crypto env body signature ->
  action payload = Some "submitted"%string ->
  pull_request payload = Some pull ->
  review payload = Some rv ->
  map_get (p_number pull) (trackedPRs w) = None ->
  let w' :=
    run (handleWebhook crypto env now "pull_request_review" payload body
           signature) w in
  trackedPRs w' = trackedPRs w /\
  In (console_warn ("PR #" ++ string_of_Z (p_number pull)
                      ++ " not found in tracker"))
     (console w') /\
  slack w'
  = slack w
    ++ (if token_missing env then []
        else [MsgPRReviewed (notification_of (payload_prData pull payload))
                (r_user_login rv) (r_state rv)]).
Proof.
  intros Hacc Hact Hpull Hrv Hnone w'. subst w'.
  destruct (handleWebhook_accepted env crypto now "pull_request_review"
              payload body signature w Hacc) as (wv & Hs & Hk & _ & Hrun & _).
  rewrite Hrun, <- Hs, <- Hk. rewrite <- Hs in Hnone. clear Hrun Hs Hk.
  rewrite (proj2 (handle_verdict_valid env now _ payload wv)).
  unfold dispatch. eqb_literals. cbv iota.
  unfold handlePullRequestReviewEvent. rewrite Hpull, Hrv.
  rewrite !(action_is_eq payload _ Hact). eqb_literals. cbv iota.
  set (w0 := run (print (received_line "pull_request_review" payload)) wv).
  rewrite (run_bind _ _ w0 tt (updatePRStatus_returns _ _ w0)).
  unfold notifyPRReviewed. rewrite notify_world.
  assert (Hw1 : run (updatePRStatus (p_number pull)
                       (review_updates (r_submitted_at rv))) w0
                = mkWorld (trackedPRs wv)
                          (console w0 ++ [not_found_warning (p_number pull)])
                          (slack wv)).
  { unfold run, updatePRStatus, bind, get_store.
    change (trackedPRs w0) with (trackedPRs wv). now rewrite Hnone. }
  rewrite Hw1. cbn [trackedPRs console slack].
  split; [reflexivity|]. split; [|reflexivity].
  apply in_or_app. left. apply in_or_app. right. now left.
Qed.

Lemma review_of_untracked_pr_on_pr9 :
  accepted keyed with_token_signing raw (signed raw) /\
  map_get 9 (trackedPRs initial_world) = None /\
  trackedPRs (run (handleWebhook keyed with_token_signing 9000000
                     "pull_request_review" (review_of_pr9 7200000) raw
                     (signed raw))
                  initial_world) = trackedPRs initial_world /\
  List.length
    (slack (run (handleWebhook keyed with_token_signing 9000000
                   "pull_request_review" (review_of_pr9 7200000) raw
                   (signed raw))
                initial_world)) = 1%nat.
Proof.
  split; [apply signed_accepted|]. split; [reflexivity|].
  destruct (review_of_untracked_pr keyed with_token_signing 9000000
              (review_of_pr9 7200000) raw (signed raw) pr9_snapshot
              (mkReviewPayload "approved" "bob" 7200000) initial_world
              (signed_accepted raw) eq_refl eq_refl eq_refl eq_refl)
    as (Hstore & _ & Hslack).
  split; [exact Hstore|]. rewrite Hslack. reflexivity.
Defined.

End DeliveryBranches.

(** * Counting and ranking *)

Section Leaderboards.

Import MetricsReport TallyView.

Lemma occurrences_nonneg k keys : 0 <= occurrences k keys.
Proof. unfold occurrences, len. lia. Qed.

Lemma occurrences_app k keys keys' :
  occurrences k (keys ++ keys') = occurrences k keys + occurrences k keys'.
Proof.
  unfold occurrences, len. rewrite filter_app, length_app. lia.
Qed.

Lemma occurrences_pos k keys : 0 < occurrences k keys <-> In k keys.
Proof.
  unfold occurrences, len. induction keys as [|k0 keys IH]; simpl.
  - split; [lia | intros []].
  - destruct (String.eqb_spec k k0) as [->|Hne]; simpl.
    + split; [now left | lia].
    + rewrite IH. split; [now right | intros [Heq | H]; congruence].
Qed.

Lemma tally_get_bump k k' m :
  tally_get k' (bump k m)
  = if String.eqb k' k
    then Some (match tally_get k m with Some n => n | None => 0 end + 1)
    else tally_get k' m.
Proof.
  induction m as [|[k0 n0] m IH]; simpl.
  - destruct (String.eqb_spec k' k); reflexivity.
  - destruct (String.eqb_spec k k0) as [->|Hk]; simpl.
    + destruct (String.eqb_spec k' k0); reflexivity.
    + rewrite IH. destruct (String.eqb_spec k' k0) as [->|Hk'].
      * destruct (String.eqb_spec k0 k); [congruence | reflexivity].
      * reflexivity.
Qed.

Lemma tally_get_None k m : tally_get k m = None <-> ~ In k (map fst m).
Proof.
  induction m as [|[k0 n0] m IH]; simpl; [intuition|].
  destruct (String.eqb_spec k k0) as [->|Hk].
  - split; [discriminate | intros H; exfalso; apply H; now left].
  - rewrite IH. intuition.
Qed.

Lemma tally_get_In k n m :
  NoDup (map fst m) -> (In (k, n) m <-> tally_get k m = Some n).
Proof.
  induction m as [|[k0 n0] m IH]; simpl; intros Hnd.
  - split; [intros [] | discriminate].
  - inversion Hnd as [|? ? Hnotin Hnd']; subst.
    destruct (String.eqb_spec k k0) as [->|Hk].
    + split.
      * intros [[= ->] | Hin]; [reflexivity|].
        exfalso. apply Hnotin. change k0 with (fst (k0, n)). now apply in_map.
      * intros [= ->]. now left.
    + rewrite <- (IH Hnd'). split; [intros [[= ? ?] | H]; congruence || exact H
                                   | now right].
Qed.

Lemma keys_bump k m :
  map fst (bump k m)
  = if existsb (String.eqb k) (map fst m) then map fst m
    else map fst m ++ [k].
Proof.
  induction m as [|[k0 n0] m IH]; simpl; [reflexivity|].
  destruct (String.eqb_spec k k0) as [->|Hk]; simpl; [reflexivity|].
  rewrite IH. now destruct (existsb (String.eqb k) (map fst m)).
Qed.

Lemma NoDup_snoc {A} (l : list A) (x : A) :
  NoDup l -> ~ In x l -> NoDup (l ++ [x]).
Proof.
  intros Hnd Hx. apply NoDup_rev in Hnd.
  rewrite <- (rev_involutive (l ++ [x])). apply NoDup_rev.
  rewrite rev_app_distr. simpl. constructor; [now rewrite <- in_rev | assumption].
Qed.

Lemma counts_of_bump keys m k :
  counts_of keys m -> counts_of (keys ++ [k]) (bump k m).
Proof.
  intros [Hnd Hget]. split.
  - rewrite keys_bump.
    destruct (existsb (String.eqb k) (map fst m)) eqn:E; [assumption|].
    apply NoDup_snoc; [assumption|]. intros Hin.
    assert (existsb (String.eqb k) (map fst m) = true); [|congruence].
    apply existsb_exists. exists k. split; [assumption | apply String.eqb_refl].
  - intros k'. rewrite tally_get_bump, occurrences_app.
    pose proof (occurrences_nonneg k' keys) as Hk'.
    unfold occurrences at 2 4. unfold len. simpl.
    destruct (String.eqb_spec k' k) as [->|Hne]; simpl.
    + rewrite Hget. destruct (Z.ltb_spec 0 (occurrences k keys));
        destruct (Z.ltb_spec 0 (occurrences k keys + 1)); try lia.
      * reflexivity.
      * f_equal. pose proof (occurrences_nonneg k keys). lia.
    + rewrite Hget. now rewrite Z.add_0_r.
Qed.

Lemma counts_of_bump_all more : forall keys m,
  counts_of keys m -> counts_of (keys ++ more) (bump_all more m).
Proof.
  induction more as [|k more IH]; intros keys m Hm; simpl.
  - now rewrite app_nil_r.
  - replace (keys ++ k :: more) with ((keys ++ [k]) ++ more)
      by now rewrite <- app_assoc.
    apply IH. now apply counts_of_bump.
Qed.

Lemma counts_of_tally keys : counts_of keys (tally keys).
Proof.
  apply (counts_of_bump_all keys [] []). split; [constructor|].
  intros k. reflexivity.
Qed.

Lemma In_insert_desc x y sorted :
  In y (insert_desc x sorted) <-> y = x \/ In y sorted.
Proof.
  induction sorted as [|z sorted IH]; simpl; [intuition|].
  destruct (snd z <=? snd x); simpl; [intuition|].
  rewrite IH. intuition.
Qed.

Lemma insert_desc_sorted x sorted :
  StronglySorted (fun a b : string * Z => snd b <= snd a) sorted ->
  StronglySorted (fun a b : string * Z => snd b <= snd a)
                 (insert_desc x sorted).
Proof.
  induction 1 as [|z sorted Hs IH Hz]; simpl.
  - constructor; constructor.
  - destruct (Z.leb_spec (snd z) (snd x)).
    + constructor; [now constructor|].
      constructor; [assumption|].
      rewrite Forall_forall in *. intros b Hb. specialize (Hz b Hb). lia.
    + constructor; [assumption|].
      rewrite Forall_forall in *. intros b Hb.
      apply In_insert_desc in Hb as [-> | Hb]; [lia | auto].
Qed.

Lemma sort_desc_sorted entries :
  StronglySorted (fun a b : string * Z => snd b <= snd a) (sort_desc entries).
Proof.
  induction entries as [|x entries IH]; simpl;
    [constructor | now apply insert_desc_sorted].
Qed.

Lemma insert_desc_perm x sorted : Permutation (x :: sorted) (insert_desc x sorted).
Proof.
  induction sorted as [|z sorted IH]; simpl; [reflexivity|].
  destruct (snd z <=? snd x); [reflexivity|].
  rewrite perm_swap. now constructor.
Qed.

Lemma sort_desc_perm entries : Permutation entries (sort_desc entries).
Proof.
  induction entries as [|x entries IH]; simpl; [constructor|].
  rewrite <- insert_desc_perm. now constructor.
Qed.

Lemma StronglySorted_app_inv {A} (R : A -> A -> Prop) l1 l2 :
  StronglySorted R (l1 ++ l2) ->
  StronglySorted R l1 /\ forall x y, In x l1 -> In y l2 -> R x y.
Proof.
  induction l1 as [|a l1 IH]; simpl; intros Hs.
  - split; [constructor | intros x y []].
  - inversion Hs as [|? ? Hs' Ha]; subst. destruct (IH Hs') as [H1 H2].
    rewrite Forall_forall in Ha. split.
    + constructor; [assumption|]. rewrite Forall_forall. intros x Hx.
      apply Ha, in_or_app. now left.
    + intros x y [<- | Hx] Hy; [|now apply H2].
      apply Ha, in_or_app. now right.
Qed.

Lemma NoDup_app_l {A} (l1 l2 : list A) : NoDup (l1 ++ l2) -> NoDup l1.
Proof.
  induction l1 as [|a l1 IH]; simpl; intros Hnd; [constructor|].
  inversion Hnd as [|? ? Hnotin Hnd']; subst. constructor; [|now apply IH].
  intros Hin. apply Hnotin, in_or_app. now left.
Qed.

(** The five most frequent keys of a list, as the leaderboards compute
    them. *)
Lemma top5_tally keys : leaderboard_of keys (top5 (tally keys)).
Proof.
  destruct (counts_of_tally keys) as [Hnd Hget].
  set (sorted := sort_desc (tally keys)).
  assert (Hperm : Permutation (tally keys) sorted) by apply sort_desc_perm.
  assert (Hsorted : StronglySorted (fun a b : string * Z => snd b <= snd a)
                                   sorted) by apply sort_desc_sorted.
  assert (Hnd' : NoDup (map fst sorted)).
  { eapply Permutation_NoDup; [|exact Hnd]. now apply Permutation_map. }
  assert (Hsplit : sorted = top5 (tally keys) ++ skipn 5 sorted)
    by (symmetry; apply firstn_skipn).
  assert (Hin : forall k n, In (k, n) sorted
                            <-> n = occurrences k keys /\ 1 <= n).
  { intros k n. rewrite <- (Permutation_in' eq_refl Hperm).
    rewrite (tally_get_In k n _ Hnd), Hget.
    destruct (Z.ltb_spec 0 (occurrences k keys)).
    - split; [intros [= <-]; split; [reflexivity | lia]
             | intros [-> _]; reflexivity].
    - split; [discriminate | intros [-> H1]; lia]. }
  unfold leaderboard_of. fold sorted in Hsplit |- *.
  change (top5 (tally keys)) with (firstn 5 sorted) in *.
  split; [apply firstn_le_length|]. split; [|split; [|split]].
  - rewrite Hsplit, map_app in Hnd'. now apply NoDup_app_l in Hnd'.
  - intros k n Hk. apply Hin. rewrite Hsplit. apply in_or_app. now left.
  - rewrite Hsplit in Hsorted. now apply StronglySorted_app_inv in Hsorted.
  - intros k Hk Hout.
    assert (Hentry : In (k, occurrences k keys) sorted).
    { apply Hin. split; [reflexivity|].
      apply occurrences_pos in Hk. lia. }
    assert (Hrest : In (k, occurrences k keys) (skipn 5 sorted)).
    { rewrite Hsplit in Hentry. apply in_app_or in Hentry as [H | H];
        [|exact H].
      exfalso. apply Hout. change k with (fst (k, occurrences k keys)).
      now apply in_map. }
    split.
    + destruct (Nat.le_gt_cases 5 (List.length sorted)) as [Hlen | Hlen].
      * now apply firstn_length_le.
      * rewrite skipn_all2 in Hrest by lia. destruct Hrest.
    + intros k' n Hk'. rewrite Hsplit in Hsorted.
      apply StronglySorted_app_inv in Hsorted as [_ Hcross].
      exact (Hcross (k', n) (k, occurrences k keys) Hk' Hrest).
Qed.

End Leaderboards.

(** * The report of the metrics *)

Section Report.

Import PrTracker Metrics MetricsView MetricsReport TallyView.

Variable octokit : Octokit.
Variables (now : Z) (gh_owner gh_repo : string).

Lemma getPRMetrics_run w :
  getPRMetrics octokit now gh_owner gh_repo w
  = match pulls_list octokit gh_owner gh_repo state_closed with
    | Resolved closedPRs =>
        (Returned (report octokit now gh_owner gh_repo w closedPRs), w)
    | Rejected e =>
        (Threw e,
         mkWorld (trackedPRs w)
                 (console w
                    ++ [console_error ("Error calculating metrics: " ++ e)])
                 (slack w))
    end.
Proof.
  unfold getPRMetrics.
  now destruct (pulls_list octokit gh_owner gh_repo state_closed).
Qed.

Lemma filter_length_le {A} (f : A -> bool) (l : list A) :
  (List.length (filter f l) <= List.length l)%nat.
Proof.
  induction l as [|a l IH]; simpl; [lia|]. destruct (f a); simpl; lia.
Qed.

Lemma review_time_count prs : forall acc,
  snd acc
  <= snd (fold_left (review_time_step octokit gh_owner gh_repo) prs acc)
  <= snd acc + len prs.
Proof.
  unfold len. induction prs as [|pr prs IH]; intros acc; simpl; [lia|].
  specialize (IH (review_time_step octokit gh_owner gh_repo acc pr)).
  assert (Hstep : snd acc
                  <= snd (review_time_step octokit gh_owner gh_repo acc pr)
                  <= snd acc + 1).
  { unfold review_time_step.
    destruct (pulls_listReviews octokit gh_owner gh_repo (gh_number pr))
      as [[|r rs]|e]; simpl; lia. }
  lia.
Qed.

Lemma merge_time_count prs : forall acc,
  Forall (fun pr => is_merged pr = true) prs ->
  snd (fold_left merge_time_step prs acc) = snd acc + len prs.
Proof.
  unfold len. induction prs as [|pr prs IH]; intros acc Hall; simpl; [lia|].
  inversion Hall as [|? ? Hpr Hall']; subst. rewrite IH by assumption.
  unfold merge_time_step. unfold is_merged in Hpr.
  destruct (gh_merged_at pr); [simpl; lia | discriminate].
Qed.

Lemma In_firstn {A} (n : nat) (l : list A) (x : A) :
  In x (firstn n l) -> In x l.
Proof.
  intros Hin. rewrite <- (firstn_skipn n l). apply in_or_app. now left.
Qed.

Lemma merged_sample closedPRs :
  Forall (fun pr => is_merged pr = true)
         (firstn 30 (filter is_merged closedPRs)).
Proof.
  apply Forall_forall. intros pr Hin. apply In_firstn in Hin.
  now apply filter_In in Hin.
Qed.

Lemma review_time_count_exact prs : forall acc,
  snd (fold_left (review_time_step octokit gh_owner gh_repo) prs acc)
  = snd acc
    + len (filter (SampleView.has_first_review octokit gh_owner gh_repo) prs).
Proof.
  unfold len. induction prs as [|pr prs IH]; intros acc; simpl; [lia|].
  rewrite IH. unfold review_time_step, SampleView.has_first_review.
  destruct (pulls_listReviews octokit gh_owner gh_repo (gh_number pr))
    as [[|r rs]|e]; simpl; lia.
Qed.

Lemma bump_all_app keys keys' m :
  bump_all (keys ++ keys') m = bump_all keys' (bump_all keys m).
Proof. apply fold_left_app. Qed.

Lemma bump_reviews reviews : forall m,
  fold_left (fun m review => bump (or_unknown (rv_user_login review)) m)
            reviews m
  = bump_all (map (fun review => or_unknown (rv_user_login review)) reviews) m.
Proof.
  induction reviews as [|r reviews IH]; intros m; [reflexivity|].
  simpl. now rewrite IH.
Qed.

Lemma review_counts_fold prs : forall acc,
  fold_left (review_count_step octokit gh_owner gh_repo) prs acc
  = (fst acc
     + len (flat_map
              (fun pr =>
                 match pulls_listReviews octokit gh_owner gh_repo
                         (gh_number pr) with
                 | Resolved reviews =>
                     map (fun review => or_unknown (rv_user_login review))
                         reviews
                 | Rejected _ => []
                 end) prs),
     bump_all (flat_map
                 (fun pr =>
                    match pulls_listReviews octokit gh_owner gh_repo
                            (gh_number pr) with
                    | Resolved reviews =>
                        map (fun review => or_unknown (rv_user_login review))
                            reviews
                    | Rejected _ => []
                    end) prs)
              (snd acc)).
Proof.
  unfold len. induction prs as [|pr prs IH]; intros [total m]; simpl.
  - now rewrite Z.add_0_r.
  - rewrite IH. unfold review_count_step. simpl.
    destruct (pulls_listReviews octokit gh_owner gh_repo (gh_number pr))
      as [reviews|e]; simpl.
    + rewrite bump_all_app, bump_reviews, length_app, length_map.
      f_equal. lia.
    + reflexivity.
Qed.

Lemma review_counts_sampled mergedPRs :
  review_counts octokit gh_owner gh_repo mergedPRs
  = (len (sampled_logins octokit gh_owner gh_repo mergedPRs),
     tally (sampled_logins octokit gh_owner gh_repo mergedPRs)).
Proof. unfold review_counts. now rewrite review_counts_fold. Qed.

(** X22. [getPRMetrics] only reads: it leaves the store and Slack as they
    are, and the console too unless it throws.  It throws exactly when the
    list of closed PRs cannot be fetched, with that rejection.  In the
    report it returns, the open PRs are the tracked ones, those needing
    review and the stale ones are no more than the open ones, the reviewed
    PRs are no more than the merged ones, and the merged ones are the
    merged PRs of the closed list up to the first 30. *)
Theorem getPRMetrics_reads_only (w : World) :
  let w' := run (getPRMetrics octokit now gh_owner gh_repo) w in
  trackedPRs w' = trackedPRs w /\
  slack w' = slack w /\
  (forall e,
     outcome (getPRMetrics octokit now gh_owner gh_repo) w = Threw e <->
     pulls_list octokit gh_owner gh_repo state_closed = Rejected e) /\
  (forall metrics,
     outcome (getPRMetrics octokit now gh_owner gh_repo) w = Returned metrics ->
     console w' = console w /\
     totalOpenPRs metrics = len (getTrackedPRs w) /\
     0 <= needingReview metrics <= totalOpenPRs metrics /\
     0 <= stalePRs metrics <= totalOpenPRs metrics /\
     0 <= totalReviewed (reviewStats metrics)
       <= totalMerged (reviewStats metrics) /\
     exists closedPRs,
       pulls_list octokit gh_owner gh_repo state_closed = Resolved closedPRs /\
       totalMerged (reviewStats metrics)
       = Z.min 30 (len (filter is_merged closedPRs))).
Proof.
  intros w'. subst w'. unfold run, outcome. rewrite getPRMetrics_run.
  destruct (pulls_list octokit gh_owner gh_repo state_closed)
    as [closedPRs|e0]; simpl.
  - split; [reflexivity|]. split; [reflexivity|]. split.
    + intros e. split; discriminate.
    + intros metrics [= <-]. unfold report.
      cbn [totalOpenPRs needingReview stalePRs reviewStats totalReviewed
           totalMerged].
      split; [reflexivity|]. split; [reflexivity|].
      assert (Hmerged : snd (merge_time_totals (filter is_merged closedPRs))
                        = len (firstn 30 (filter is_merged closedPRs))).
      { unfold merge_time_totals.
        rewrite merge_time_count by apply merged_sample. reflexivity. }
      unfold len in *. split; [|split; [|split]].
      * unfold getPRsNeedingReview, getTrackedPRs.
        pose proof (filter_length_le needs_review (map_values (trackedPRs w))).
        lia.
      * unfold getStalePRs, getTrackedPRs.
        pose proof (filter_length_le
                      (is_stale now (24 * 60 * 60 * 1000))
                      (map_values (trackedPRs w))).
        lia.
      * rewrite Hmerged. unfold review_time_totals.
        pose proof (review_time_count
                      (firstn 30 (filter is_merged closedPRs)) (0, 0)) as H.
        unfold len in H. cbn [fst snd] in H. lia.
      * exists closedPRs. split; [reflexivity|].
        rewrite Hmerged, length_firstn. lia.
  - split; [reflexivity|]. split; [reflexivity|]. split.
    + intros e. split; intros [= ->]; reflexivity.
    + intros metrics [=].
Qed.

(** X23. The top contributors of the report are the leaderboard of the
    authors of the tracked PRs: at most five authors, none twice, each with
    the number of PRs of theirs the store tracks, by decreasing number, and
    no author left out who has more open PRs than a listed one. *)
Theorem topContributors_leaderboard (w : World) (metrics : PRMetrics) :
  outcome (getPRMetrics octokit now gh_owner gh_repo) w = Returned metrics ->
  leaderboard_of (map (fun pr : TrackedPR => author pr) (getTrackedPRs w))
                 (topContributors metrics).
Proof.
  unfold outcome. rewrite getPRMetrics_run.
  destruct (pulls_list octokit gh_owner gh_repo state_closed)
    as [closedPRs|e0]; simpl; [|discriminate].
  intros [= <-]. unfold report. simpl. apply top5_tally.
Qed.

(** X24. The top reviewers of the report are the leaderboard of the
    reviewer logins ("unknown" without a login) over the reviews of the
    first 30 merged PRs of the closed list whose reviews can be fetched,
    one occurrence per review; they are drawn from that sample, not from
    the store. *)
Theorem topReviewers_leaderboard
    (w : World) (metrics : PRMetrics) (closedPRs : list GhPull) :
  pulls_list octokit gh_owner gh_repo state_closed = Resolved closedPRs ->
  outcome (getPRMetrics octokit now gh_owner gh_repo) w = Returned metrics ->
  leaderboard_of
    (sampled_logins octokit gh_owner gh_repo (filter is_merged closedPRs))
    (topReviewers metrics).
Proof.
  intros Hlist. unfold outcome. rewrite getPRMetrics_run, Hlist. simpl.
  intros [= <-]. unfold report. simpl.
  rewrite review_counts_sampled. simpl. apply top5_tally.
Qed.

End Report.

(** * The average strings *)

Section Averages.

Import PrTracker Metrics MetricsView MetricsReport SampleView.

Lemma append_assoc_string (s1 s2 s3 : string) :
  ((s1 ++ s2) ++ s3)%string = (s1 ++ (s2 ++ s3))%string.
Proof. induction s1 as [|c s1 IH]; simpl; [reflexivity | now rewrite IH]. Qed.

Lemma append_last_char (s s' : string) (c c' : ascii) :
  (s ++ String c "")%string = (s' ++ String c' "")%string -> c = c'.
Proof.
  revert s'. induction s as [|a s IH]; intros [|b s']; simpl; intros Heq.
  - congruence.
  - exfalso. destruct s'; discriminate Heq.
  - exfalso. destruct s; discriminate Heq.
  - apply IH with s'. congruence.
Qed.

Lemma mean_tier_available total count : mean_tier total count <> "N/A"%string.
Proof.
  unfold mean_tier.
  assert (Hend : forall (s : string) (c : ascii),
             c <> "A"%char -> (s ++ String c "")%string <> "N/A"%string).
  { intros s c Hc Heq. apply Hc.
    now apply (append_last_char s "N/" c "A"%char). }
  destruct (total <? count * 3600000); [apply Hend; discriminate|].
  destruct (total <? count * 86400000); [apply Hend; discriminate|].
  destruct (total / (count * 86400000) =? 1); [discriminate|].
  change " days"%string with (" day" ++ "s")%string.
  rewrite <- append_assoc_string. apply Hend. discriminate.
Qed.

Lemma mean_tier_duration total count :
  duration_string (mean_tier total count).
Proof.
  unfold mean_tier, duration_string.
  destruct (total <? count * 3600000);
    [exists (total / (count * 60000)); now left|].
  destruct (total <? count * 86400000);
    [exists (total / (count * 3600000)); right; now left|].
  destruct (total / (count * 86400000) =? 1);
    [exists 1; right; right; now left|].
  exists (total / (count * 86400000)). right; right; now right.
Qed.

Lemma not_available_no_duration : ~ duration_string "N/A".
Proof.
  assert (Hend : forall (s : string) (c : ascii),
             c <> "A"%char -> (s ++ String c "")%string <> "N/A"%string).
  { intros s c Hc Heq. apply Hc.
    now apply (append_last_char s "N/" c "A"%char). }
  intros (n & [H | [H | [H | H]]]); symmetry in H.
  - now apply Hend in H.
  - now apply Hend in H.
  - discriminate H.
  - change " days"%string with (" day" ++ "s")%string in H.
    rewrite <- append_assoc_string in H. now apply Hend in H.
Qed.

Lemma average_string_duration totals :
  average_string totals = "N/A"%string \/
  duration_string (average_string totals).
Proof.
  rewrite average_string_tier.
  destruct (0 <? snd totals); [right; apply mean_tier_duration | now left].
Qed.

Lemma average_string_not_available totals :
  average_string totals = "N/A"%string <-> snd totals <= 0.
Proof.
  rewrite average_string_tier.
  destruct (Z.ltb_spec 0 (snd totals)) as [Hpos | Hnone].
  - split; [|lia]. intros Heq. now apply mean_tier_available in Heq.
  - split; [intros _; exact Hnone | reflexivity].
Qed.

Lemma length_zero_iff_nil {A} (l : list A) : len l <= 0 <-> l = [].
Proof.
  unfold len. destruct l; simpl; split; try reflexivity; try discriminate; lia.
Qed.

Lemma firstn_nil_iff {A} (n : nat) (l : list A) :
  firstn (S n) l = [] <-> l = [].
Proof. destruct l; simpl; split; congruence. Qed.

Lemma filter_nil_iff {A} (f : A -> bool) (l : list A) :
  filter f l = [] <-> forall x, In x l -> f x = false.
Proof.
  induction l as [|a l IH]; simpl.
  - split; [intros _ x [] | reflexivity].
  - destruct (f a) eqn:E.
    + split; [discriminate|]. intros H. specialize (H a (or_introl eq_refl)).
      congruence.
    + rewrite IH. split.
      * intros H x [<- | Hx]; auto.
      * intros H x Hx. apply H. now right.
Qed.

(** X25. When an average of the report is "N/A". The average time to merge
    is "N/A" exactly when no PR of the closed list is merged; the average
    time to first review is "N/A" exactly when none of the first 30 merged
    PRs has a review that could be fetched.  In every other case the string
    is a duration: a number of minutes ("<n>m"), of hours ("<n>h") or of
    days ("1 day", "<n> days"), which "N/A" is not. *)
Theorem averages_not_available
    (octokit : Octokit) (now : Z) (gh_owner gh_repo : string)
    (w : World) (metrics : PRMetrics) (closedPRs : list GhPull) :
  pulls_list octokit gh_owner gh_repo state_closed = Resolved closedPRs ->
  outcome (getPRMetrics octokit now gh_owner gh_repo) w = Returned metrics ->
  (MetricsReport.averageMergeTime metrics = "N/A"%string <->
   forall pr, In pr closedPRs -> gh_merged_at pr = None) /\
  (MetricsReport.averageReviewTime metrics = "N/A"%string <->
   forall pr, In pr (firstn 30 (filter is_merged closedPRs)) ->
              has_first_review octokit gh_owner gh_repo pr = false) /\
  (MetricsReport.averageMergeTime metrics = "N/A"%string \/
   duration_string (MetricsReport.averageMergeTime metrics)) /\
  (MetricsReport.averageReviewTime metrics = "N/A"%string \/
   duration_string (MetricsReport.averageReviewTime metrics)) /\
  ~ duration_string "N/A".
Proof.
  intros Hlist. unfold outcome.
  rewrite getPRMetrics_run, Hlist. simpl. intros [= <-].
  unfold report.
  cbn [MetricsReport.averageMergeTime MetricsReport.averageReviewTime].
  split; [|split; [|split; [apply average_string_duration|
                            split; [apply average_string_duration|
                                    exact not_available_no_duration]]]];
    rewrite !average_string_not_available.
  - unfold merge_time_totals.
    rewrite merge_time_count by apply merged_sample.
    cbn [snd]. rewrite Z.add_0_l.
    rewrite length_zero_iff_nil. change 30%nat with (S 29).
    rewrite firstn_nil_iff, filter_nil_iff. unfold is_merged.
    split; intros H pr Hin; specialize (H pr Hin);
      destruct (gh_merged_at pr); congruence.
  - unfold review_time_totals. rewrite review_time_count_exact.
    cbn [snd]. rewrite Z.add_0_l.
    rewrite length_zero_iff_nil. apply filter_nil_iff.
Qed.

(** X26. The numbers in a duration string. For a mean of [total / count]
    milliseconds: below one hour and not negative it is "<m>m" with m from 0
    to 59; from one hour to below 24 hours it is "<h>h" with h from 1 to 23;
    from 24 hours to below 48 hours it is "1 day"; from 48 hours on it is
    "<d> days" with d at least 2. *)
Theorem formatTimeDifference_tiers (total count : Z) :
  0 < count ->
  let s := formatTimeDifference (inject_Z total / inject_Z count) in
  (0 <= total < count * 3600000 ->
   exists m, 0 <= m <= 59 /\ s = (string_of_Z m ++ "m")%string) /\
  (count * 3600000 <= total < count * 86400000 ->
   exists h, 1 <= h <= 23 /\ s = (string_of_Z h ++ "h")%string) /\
  (count * 86400000 <= total < count * 172800000 -> s = "1 day"%string) /\
  (count * 172800000 <= total ->
   exists d, 2 <= d /\ s = (string_of_Z d ++ " days")%string).
Proof.
  intros Hc s. subst s. rewrite formatTimeDifference_mean by assumption.
  unfold mean_tier.
  destruct (Z.ltb_spec total (count * 3600000)) as [H1 | H1];
    [|destruct (Z.ltb_spec total (count * 86400000)) as [H24 | H24]].
  - split; [|repeat split; intros; lia].
    intros [H0 _]. exists (total / (count * 60000)). split; [|reflexivity].
    split; [apply Z.div_pos; lia|].
    assert (total / (count * 60000) < 60)
      by (apply Z.div_lt_upper_bound; lia).
    lia.
  - split; [intros; lia|]. split; [|split; intros; lia].
    intros _. exists (total / (count * 3600000)). split; [|reflexivity].
    split; [apply Z.div_le_lower_bound; lia|].
    assert (total / (count * 3600000) < 24)
      by (apply Z.div_lt_upper_bound; lia).
    lia.
  - split; [intros; lia|]. split; [intros; lia|]. split.
    + intros [_ H48].
      assert (Hd : total / (count * 86400000) = 1).
      { assert (1 <= total / (count * 86400000))
          by (apply Z.div_le_lower_bound; lia).
        assert (total / (count * 86400000) < 2)
          by (apply Z.div_lt_upper_bound; lia).
        lia. }
      now rewrite Hd.
    + intros H48.
      assert (Hd : 2 <= total / (count * 86400000))
        by (apply Z.div_le_lower_bound; lia).
      destruct (Z.eqb_spec (total / (count * 86400000)) 1); [lia|].
      now exists (total / (count * 86400000)).
Qed.

Lemma formatTimeDifference_tiers_on_three :
  0 < 3 /\
  (3 * 3600000 <= 32400000 < 3 * 86400000 ->
   exists h, 1 <= h <= 23 /\
             formatTimeDifference (inject_Z 32400000 / inject_Z 3)
             = (string_of_Z h ++ "h")%string).
Proof.
  assert (Hc : 0 < 3) by lia.
  split; [exact Hc|].
  exact (proj1 (proj2 (formatTimeDifference_tiers 32400000 3 Hc))).
Defined.

End Averages.

Section ReportInstances.

Import PrTracker Metrics MetricsView MetricsReport SampleView Scenarios.

Lemma topContributors_leaderboard_on_pr9 :
  outcome (getPRMetrics three_merged_reviews 9000000 "acme" "app")
          tracking_pr9
  = Returned (report three_merged_reviews 9000000 "acme" "app" tracking_pr9
                three_merged) /\
  leaderboard_of
    (map (fun pr : TrackedPR => author pr) (getTrackedPRs tracking_pr9))
    (topContributors
       (report three_merged_reviews 9000000 "acme" "app" tracking_pr9
          three_merged)).
Proof.
  split; [reflexivity|].
  exact (topContributors_leaderboard three_merged_reviews 9000000 "acme" "app"
           tracking_pr9 _ eq_refl).
Defined.

Lemma topReviewers_leaderboard_on_three :
  pulls_list three_merged_reviews "acme" "app" state_closed
  = Resolved three_merged /\
  leaderboard_of
    (sampled_logins three_merged_reviews "acme" "app"
       (filter is_merged three_merged))
    (topReviewers
       (report three_merged_reviews 9000000 "acme" "app" tracking_pr9
          three_merged)).
Proof.
  split; [reflexivity|].
  exact (topReviewers_leaderboard three_merged_reviews 9000000 "acme" "app"
           tracking_pr9 _ three_merged eq_refl eq_refl).
Defined.

Lemma averages_not_available_on_three :
  pulls_list three_merged_reviews "acme" "app" state_closed
  = Resolved three_merged /\
  (MetricsReport.averageMergeTime
     (report three_merged_reviews 9000000 "acme" "app" tracking_pr9
        three_merged) = "N/A"%string <->
   forall pr, In pr three_merged -> gh_merged_at pr = None) /\
  (MetricsReport.averageReviewTime
     (report three_merged_reviews 9000000 "acme" "app" tracking_pr9
        three_merged) = "N/A"%string <->
   forall pr, In pr (firstn 30 (filter is_merged three_merged)) ->
              has_first_review three_merged_reviews "acme" "app" pr = false) /\
  duration_string
    (MetricsReport.averageReviewTime
       (report three_merged_reviews 9000000 "acme" "app" tracking_pr9
          three_merged)).
Proof.
  split; [reflexivity|].
  destruct (averages_not_available three_merged_reviews 9000000 "acme" "app"
              tracking_pr9 _ three_merged eq_refl eq_refl)
    as (Hmerge & Hreview & _ & [Hna | Hduration] & _).
  - discriminate Hna.
  - split; [exact Hmerge|]. split; [exact Hreview | exact Hduration].
Defined.

End ReportInstances.

(** * The scheduled jobs *)

Section JobMonad.

Lemma run_s_lift {A} (m : M A) d :
  run_s (lift m) d = mkDesk (run m (tracker d)) (digests d).
Proof. unfold run_s, lift, run. now destruct (m (tracker d)). Qed.

Lemma outcome_s_lift {A} (m : M A) d :
  outcome_s (lift m) d = outcome m (tracker d).
Proof. unfold outcome_s, lift, outcome. now destruct (m (tracker d)). Qed.

Lemma run_s_bind {A B} (m : Job A) (f : A -> Job B) d a :
  outcome_s m d = Returned a ->
  run_s (bind_s m f) d = run_s (f a) (run_s m d).
Proof.
  unfold run_s, outcome_s, bind_s. destruct (m d) as [[x|e] d1]; simpl;
    [now intros [= ->] | discriminate].
Qed.

Lemma outcome_s_bind {A B} (m : Job A) (f : A -> Job B) d a :
  outcome_s m d = Returned a ->
  outcome_s (bind_s m f) d = outcome_s (f a) (run_s m d).
Proof.
  unfold run_s, outcome_s, bind_s. destruct (m d) as [[x|e] d1]; simpl;
    [now intros [= ->] | discriminate].
Qed.

Lemma bind_s_threw {A B} (m : Job A) (f : A -> Job B) d e :
  outcome_s m d = Threw e ->
  run_s (bind_s m f) d = run_s m d /\ outcome_s (bind_s m f) d = Threw e.
Proof.
  unfold run_s, outcome_s, bind_s. destruct (m d) as [[x|e'] d1]; simpl;
    [discriminate | now intros [= ->]].
Qed.

Lemma try_catch_s_returned {A} (m : Job A) (h : string -> Job A) d a :
  outcome_s m d = Returned a ->
  run_s (try_catch_s m h) d = run_s m d /\
  outcome_s (try_catch_s m h) d = Returned a.
Proof.
  unfold run_s, outcome_s, try_catch_s. destruct (m d) as [[x|e] d1]; simpl;
    [now intros [= ->] | discriminate].
Qed.

Lemma try_catch_s_threw {A} (m : Job A) (h : string -> Job A) d e :
  outcome_s m d = Threw e ->
  run_s (try_catch_s m h) d = run_s (h e) (run_s m d) /\
  outcome_s (try_catch_s m h) d = outcome_s (h e) (run_s m d).
Proof.
  unfold run_s, outcome_s, try_catch_s. destruct (m d) as [[x|e'] d1]; simpl;
    [discriminate | now intros [= ->]].
Qed.

End JobMonad.

Section NoSlack.

Import PrTracker Quiet.

Lemma no_slack_bind {A B} (m : M A) (f : A -> M B) :
  no_slack m -> (forall a, no_slack (f a)) -> no_slack (bind m f).
Proof.
  intros Hm Hf w. specialize (Hm w). unfold run, bind in *.
  destruct (m w) as [[a|e] w1]; simpl in *; [|assumption].
  rewrite <- Hm. apply (Hf a w1).
Qed.

Lemma no_slack_try_catch {A} (m : M A) (h : string -> M A) :
  no_slack m -> (forall e, no_slack (h e)) -> no_slack (try_catch m h).
Proof.
  intros Hm Hh w. specialize (Hm w). unfold run, try_catch in *.
  destruct (m w) as [[a|e] w1]; simpl in *; [assumption|].
  rewrite <- Hm. apply (Hh e w1).
Qed.

Lemma no_slack_for_of {A} (xs : list A) (body : A -> M unit) :
  (forall x, no_slack (body x)) -> no_slack (for_of xs body).
Proof.
  intros Hbody. induction xs as [|x xs IH]; simpl.
  - intros w. reflexivity.
  - apply no_slack_bind; [apply Hbody | intros _; exact IH].
Qed.

Lemma no_slack_await {A} (r : Fetched A) : no_slack (await r).
Proof. destruct r; intros w; reflexivity. Qed.

Lemma no_slack_trackPR now prData : no_slack (trackPR now prData).
Proof. intros w. reflexivity. Qed.

Lemma no_slack_sync_one octokit now gh_owner gh_repo pr :
  no_slack (sync_one octokit now gh_owner gh_repo pr).
Proof.
  unfold sync_one. destruct (gh_draft pr); [intros w; reflexivity|].
  apply no_slack_bind; [apply no_slack_await|]. intros reviews.
  apply no_slack_bind; [apply no_slack_trackPR|]. intros _.
  apply no_slack_bind; [intros w; reflexivity|]. intros store.
  destruct (map_get (gh_number pr) store); intros w; reflexivity.
Qed.

(** Reconciliation never posts to Slack. *)
Lemma no_slack_syncWithGitHub octokit now gh_owner gh_repo :
  no_slack (syncWithGitHub octokit now gh_owner gh_repo).
Proof.
  unfold syncWithGitHub. apply no_slack_try_catch.
  - apply no_slack_bind; [apply no_slack_await|]. intros prs.
    apply no_slack_bind; [intros w; reflexivity|]. intros _.
    apply no_slack_bind; [intros w; reflexivity|]. intros store.
    apply no_slack_bind.
    + apply no_slack_for_of. intros k.
      destruct (negb (mem_Z k (map gh_number prs))); intros w; reflexivity.
    + intros _. apply no_slack_bind.
      * apply no_slack_for_of. intros pr. apply no_slack_sync_one.
      * intros _.
        apply no_slack_bind; [intros w; reflexivity | intros ? w; reflexivity].
  - intros e.
    apply no_slack_bind; [intros w; reflexivity | intros ? w; reflexivity].
Qed.

End NoSlack.

Section Jobs.

Import PrTracker StoreView SyncView SlackNotifier Digests Scheduler Quiet.

Lemma sync_outcome_any_world octokit now gh_owner gh_repo w w' :
  outcome (syncWithGitHub octokit now gh_owner gh_repo) w
  = outcome (syncWithGitHub octokit now gh_owner gh_repo) w'.
Proof.
  now rewrite !(proj1 (syncWithGitHub_run octokit now gh_owner gh_repo _)).
Qed.

Lemma sync_store_any_world octokit now gh_owner gh_repo w w' :
  trackedPRs w = trackedPRs w' ->
  trackedPRs (run (syncWithGitHub octokit now gh_owner gh_repo) w)
  = trackedPRs (run (syncWithGitHub octokit now gh_owner gh_repo) w').
Proof.
  intros Heq.
  now rewrite !(proj2 (syncWithGitHub_run octokit now gh_owner gh_repo _)), Heq.
Qed.

(** A line, then reconciliation, at the desk. *)
Lemma announce_then_sync octokit now gh_owner gh_repo line d :
  let job := (lift (print line) ;;
              lift (syncWithGitHub octokit now gh_owner gh_repo))%desk in
  outcome_s job d
  = outcome (syncWithGitHub octokit now gh_owner gh_repo) (tracker d) /\
  run_s job d
  = mkDesk (run (syncWithGitHub octokit now gh_owner gh_repo)
                (run (print line) (tracker d)))
           (digests d).
Proof.
  intros job. subst job.
  assert (Hp : outcome_s (lift (print line)) d = Returned tt) by reflexivity.
  rewrite (outcome_s_bind _ _ d tt Hp), (run_s_bind _ _ d tt Hp).
  rewrite outcome_s_lift, !run_s_lift. cbn [tracker digests].
  split; [apply sync_outcome_any_world | reflexivity].
Qed.

Lemma notifyStalePRs_run env prs d :
  outcome_s (notifyStalePRs env prs) d = Returned tt /\
  trackedPRs (tracker (run_s (notifyStalePRs env prs) d))
  = trackedPRs (tracker d) /\
  slack (tracker (run_s (notifyStalePRs env prs) d)) = slack (tracker d) /\
  digests (run_s (notifyStalePRs env prs) d)
  = digests d
    ++ (if token_missing env then []
        else match prs with
             | [] => []
             | _ :: _ => [StaleDigest (stale_text prs) (map stale_block prs)]
             end).
Proof.
  unfold notifyStalePRs. destruct (token_missing env).
  - repeat split; try reflexivity. simpl. now rewrite app_nil_r.
  - destruct prs as [|pr prs]; simpl.
    + repeat split; try reflexivity. simpl. now rewrite app_nil_r.
    + repeat split; reflexivity.
Qed.

Lemma getStalePRs_parsed_store now th w w' :
  trackedPRs w = trackedPRs w' ->
  getStalePRs_parsed now th w = getStalePRs_parsed now th w'.
Proof.
  intros Heq. unfold getStalePRs_parsed, getStalePRs. now rewrite Heq.
Qed.

Variable parseInt : string -> option Z.
Variable octokit : Octokit.
Variables (now later : Z).

(** X27. [checkStalePRs] never throws. Without [GITHUB_OWNER] or
    [GITHUB_REPO] it prints that they must be configured and does nothing
    else: no sync, no digest.  When the sync it starts with throws, the job
    posts no digest at all, whatever is stale, and ends by printing the error;
    the store is left as the failed sync left it. *)
Theorem checkStalePRs_guarded (senv : SchedulerEnv) (d : Desk) :
  let d' := run_s (checkStalePRs parseInt octokit now later senv) d in
  outcome_s (checkStalePRs parseInt octokit now later senv) d = Returned tt /\
  match configured senv with
  | None =>
      trackedPRs (tracker d') = trackedPRs (tracker d) /\
      slack (tracker d') = slack (tracker d) /\
      digests d' = digests d /\
      console (tracker d') = console (tracker d) ++ [not_configured]
  | Some (gh_owner, gh_repo) =>
      forall e,
        outcome (syncWithGitHub octokit now gh_owner gh_repo) (tracker d)
        = Threw e ->
        digests d' = digests d /\
        trackedPRs (tracker d')
        = trackedPRs (run (syncWithGitHub octokit now gh_owner gh_repo)
                          (tracker d)) /\
        exists earlier,
          console (tracker d')
          = earlier ++ [console_error ("Error checking stale PRs: " ++ e)]
  end.
Proof.
  intros d'. subst d'. unfold checkStalePRs.
  destruct (configured senv) as [[gh_owner gh_repo]|];
    [|split; [reflexivity | repeat split; reflexivity]].
  set (line := console_log "Running stale PR check...").
  destruct (announce_then_sync octokit now gh_owner gh_repo line d)
    as [Hout Hrun].
  cbv zeta in Hout, Hrun.
  match goal with
  | |- context [try_catch_s ?m ?h] => set (body := m); set (handler := h)
  end.
  set (rest := fun _ : unit =>
         (w <- read_tracker ;;
          if (0 <? List.length
                     (getStalePRs_parsed later
                        (staleThreshold parseInt senv) w))%nat
          then
            lift (print (console_log
                           ("Found "
                              ++ string_of_Z
                                   (Z.of_nat
                                      (List.length
                                         (getStalePRs_parsed later
                                            (staleThreshold parseInt senv) w)))
                              ++ " stale PR(s)"))) ;;
            notifyStalePRs (slack_env senv)
              (map stale_notification
                   (getStalePRs_parsed later (staleThreshold parseInt senv) w))
          else lift (print (console_log "No stale PRs found")))%desk).
  assert (Hbody : body
                  = bind_s (lift (print line) ;;
                            lift (syncWithGitHub octokit now gh_owner gh_repo))%desk
                           rest).
  { subst body rest. unfold bind_s. reflexivity. }
  destruct (outcome (syncWithGitHub octokit now gh_owner gh_repo) (tracker d))
    as [[]|e] eqn:Hsync.
  - assert (Hret : outcome_s body d = Returned tt).
    { rewrite Hbody, (outcome_s_bind _ _ d tt Hout), Hrun.
      subst rest. cbv beta.
      set (d2 := mkDesk _ _).
      assert (Hr : outcome_s read_tracker d2 = Returned (tracker d2))
        by reflexivity.
      rewrite (outcome_s_bind _ _ d2 _ Hr).
      change (run_s read_tracker d2) with d2.
      destruct (0 <? List.length _)%nat; [|reflexivity].
      match goal with
      | |- outcome_s (bind_s ?m ?f) d2 = _ =>
          rewrite (outcome_s_bind m f d2 tt eq_refl)
      end.
      apply notifyStalePRs_run. }
    split; [apply (try_catch_s_returned _ handler d tt Hret)|].
    intros e [=].
  - assert (Hthrew : outcome_s body d = Threw e /\
                     run_s body d
                     = mkDesk (run (syncWithGitHub octokit now gh_owner gh_repo)
                                   (run (print line) (tracker d)))
                              (digests d)).
    { rewrite Hbody.
      destruct (bind_s_threw _ rest d e Hout) as [Hr Ho].
      now rewrite Hr, Ho, Hrun. }
    destruct Hthrew as [Ho Hr].
    destruct (try_catch_s_threw body handler d e Ho) as [Hrun' Hout'].
    rewrite Hrun', Hout', Hr. subst handler. cbv beta.
    split; [reflexivity|].
    intros e' [= <-]. rewrite run_s_lift. cbn [tracker digests].
    split; [reflexivity|]. split.
    + apply sync_store_any_world. reflexivity.
    + eexists. reflexivity.
Qed.

(** X28. When the sync of [checkStalePRs] returns, the job leaves the store
    as the sync made it and posts at most one digest: exactly one, listing in
    store order every PR that [getStalePRs] selects from the synced store at
    the parsed threshold, when the token is set and that list is not empty;
    none otherwise.  The per-PR notifications are never used. *)
Theorem checkStalePRs_digest (senv : SchedulerEnv) (d : Desk)
    (gh_owner gh_repo : string) :
  configured senv = Some (gh_owner, gh_repo) ->
  outcome (syncWithGitHub octokit now gh_owner gh_repo) (tracker d)
  = Returned tt ->
  let synced := run (syncWithGitHub octokit now gh_owner gh_repo) (tracker d) in
  let d' := run_s (checkStalePRs parseInt octokit now later senv) d in
  let stale :=
    map stale_notification
        (getStalePRs_parsed later (staleThreshold parseInt senv) synced) in
  trackedPRs (tracker d') = trackedPRs synced /\
  slack (tracker d') = slack (tracker d) /\
  digests d'
  = digests d
    ++ (if token_missing (slack_env senv) then []
        else match stale with
             | [] => []
             | _ :: _ => [StaleDigest (stale_text stale) (map stale_block stale)]
             end).
Proof.
  intros Hconf Hsync synced d' stale. subst d'. unfold checkStalePRs.
  rewrite Hconf.
  set (line := console_log "Running stale PR check...").
  destruct (announce_then_sync octokit now gh_owner gh_repo line d)
    as [Hout Hrun].
  cbv zeta in Hout, Hrun. rewrite Hsync in Hout.
  match goal with
  | |- context [try_catch_s ?m ?h] => set (body := m); set (handler := h)
  end.
  set (d2 := mkDesk (run (syncWithGitHub octokit now gh_owner gh_repo)
                         (run (print line) (tracker d)))
                    (digests d)) in *.
  assert (Hstore2 : trackedPRs (tracker d2) = trackedPRs synced).
  { subst d2 synced. cbn [tracker]. apply sync_store_any_world. reflexivity. }
  assert (Hslack2 : slack (tracker d2) = slack (tracker d)).
  { subst d2. cbn [tracker].
    now rewrite (no_slack_syncWithGitHub octokit now gh_owner gh_repo). }
  assert (Hstale : map stale_notification
                       (getStalePRs_parsed later
                          (staleThreshold parseInt senv) (tracker d2))
                   = stale).
  { subst stale. f_equal. now apply getStalePRs_parsed_store. }
  set (rest := fun _ : unit =>
         (w <- read_tracker ;;
          if (0 <? List.length
                     (getStalePRs_parsed later
                        (staleThreshold parseInt senv) w))%nat
          then
            lift (print (console_log
                           ("Found "
                              ++ string_of_Z
                                   (Z.of_nat
                                      (List.length
                                         (getStalePRs_parsed later
                                            (staleThreshold parseInt senv) w)))
                              ++ " stale PR(s)"))) ;;
            notifyStalePRs (slack_env senv)
              (map stale_notification
                   (getStalePRs_parsed later (staleThreshold parseInt senv) w))
          else lift (print (console_log "No stale PRs found")))%desk).
  assert (Hbody : body
                  = bind_s (lift (print line) ;;
                            lift (syncWithGitHub octokit now gh_owner gh_repo))%desk
                           rest).
  { subst body rest. unfold bind_s. reflexivity. }
  assert (Hr : outcome_s read_tracker d2 = Returned (tracker d2))
    by reflexivity.
  assert (Hrest :
    outcome_s (rest tt) d2 = Returned tt /\
    trackedPRs (tracker (run_s (rest tt) d2)) = trackedPRs (tracker d2) /\
    slack (tracker (run_s (rest tt) d2)) = slack (tracker d2) /\
    digests (run_s (rest tt) d2)
    = digests d
      ++ (if token_missing (slack_env senv) then []
          else match stale with
               | [] => []
               | _ :: _ =>
                   [StaleDigest (stale_text stale) (map stale_block stale)]
               end)).
  { subst rest. cbv beta.
    rewrite (outcome_s_bind _ _ d2 _ Hr), (run_s_bind _ _ d2 _ Hr).
    change (run_s read_tracker d2) with d2.
    rewrite <- Hstale.
    destruct (getStalePRs_parsed later (staleThreshold parseInt senv)
                (tracker d2)) as [|pr prs] eqn:Hlist.
    - cbn [List.length Nat.ltb Nat.leb map].
      repeat split; try reflexivity.
      rewrite run_s_lift. cbn [digests].
      destruct (token_missing (slack_env senv)); now rewrite app_nil_r.
    - change (0 <? List.length (pr :: prs))%nat with true. cbv iota.
      match goal with
      | |- context [outcome_s (bind_s ?m ?f) d2] =>
          rewrite (outcome_s_bind m f d2 tt eq_refl),
                  (run_s_bind m f d2 tt eq_refl)
      end.
      set (d3 := run_s (lift (print _)) d2).
      destruct (notifyStalePRs_run (slack_env senv)
                  (map stale_notification (pr :: prs)) d3)
        as (Ho & Hs & Hk & Hd).
      repeat split; [exact Ho | now rewrite Hs | now rewrite Hk |].
      rewrite Hd. reflexivity. }
  destruct Hrest as (Ho & Hs & Hk & Hd).
  assert (Hret : outcome_s body d = Returned tt).
  { rewrite Hbody, (outcome_s_bind _ _ d tt Hout), Hrun. exact Ho. }
  assert (Hfinal : run_s (try_catch_s body handler) d = run_s (rest tt) d2).
  { rewrite (proj1 (try_catch_s_returned body handler d tt Hret)).
    now rewrite Hbody, (run_s_bind _ _ d tt Hout), Hrun. }
  rewrite Hfinal.
  repeat split.
  - now rewrite Hs.
  - now rewrite Hk.
  - exact Hd.
Qed.

(** X29. [periodicSync] never throws, posts no digest and sends nothing to
    Slack.  Without owner or repository it does nothing at all, not even a
    console line; otherwise the store it leaves is the one [syncWithGitHub]
    leaves, and a failure of the sync ends up as the last console line. *)
Theorem periodicSync_quiet (senv : SchedulerEnv) (d : Desk) :
  let d' := run_s (periodicSync octokit now senv) d in
  outcome_s (periodicSync octokit now senv) d = Returned tt /\
  digests d' = digests d /\
  slack (tracker d') = slack (tracker d) /\
  match configured senv with
  | None => d' = d
  | Some (gh_owner, gh_repo) =>
      trackedPRs (tracker d')
      = trackedPRs (run (syncWithGitHub octokit now gh_owner gh_repo)
                        (tracker d)) /\
      forall e,
        outcome (syncWithGitHub octokit now gh_owner gh_repo) (tracker d)
        = Threw e ->
        exists earlier,
          console (tracker d')
          = earlier ++ [console_error ("Error during periodic sync: " ++ e)]
  end.
Proof.
  intros d'. subst d'. unfold periodicSync.
  destruct (configured senv) as [[gh_owner gh_repo]|];
    [|repeat split; reflexivity].
  set (line := console_log "Running periodic GitHub sync...").
  destruct (announce_then_sync octokit now gh_owner gh_repo line d)
    as [Hout Hrun].
  cbv zeta in Hout, Hrun.
  match goal with
  | |- context [try_catch_s ?m ?h] => set (body := m); set (handler := h)
  end.
  assert (Hslack : slack (run (syncWithGitHub octokit now gh_owner gh_repo)
                              (run (print line) (tracker d)))
                   = slack (tracker d)).
  { now rewrite (no_slack_syncWithGitHub octokit now gh_owner gh_repo). }
  assert (Hstore : trackedPRs (run (syncWithGitHub octokit now gh_owner gh_repo)
                                   (run (print line) (tracker d)))
                   = trackedPRs (run (syncWithGitHub octokit now gh_owner
                                        gh_repo) (tracker d))).
  { apply sync_store_any_world. reflexivity. }
  destruct (outcome (syncWithGitHub octokit now gh_owner gh_repo) (tracker d))
    as [[]|e] eqn:Hsync.
  - destruct (try_catch_s_returned body handler d tt Hout) as [Hr Ho].
    rewrite Hr, Ho. fold body in Hrun. rewrite Hrun. cbn [tracker digests].
    repeat split; try assumption. intros e [=].
  - destruct (try_catch_s_threw body handler d e Hout) as [Hr Ho].
    rewrite Hr, Ho. fold body in Hrun. rewrite Hrun. subst handler. cbv beta.
    rewrite run_s_lift, outcome_s_lift. cbn [tracker digests].
    repeat split; try assumption.
    intros e' [= <-]. eexists. reflexivity.
Qed.

Lemma queries_of_store w w' :
  trackedPRs w = trackedPRs w' ->
  getTrackedPRs w = getTrackedPRs w' /\
  getPRsNeedingReview w = getPRsNeedingReview w' /\
  forall t hours, getStalePRs t hours w = getStalePRs t hours w'.
Proof.
  intros Heq. unfold getTrackedPRs, getPRsNeedingReview, getStalePRs.
  now rewrite Heq.
Qed.

Lemma sendDailySummary_run env a b c avg d :
  outcome_s (sendDailySummary env a b c avg) d = Returned tt /\
  trackedPRs (tracker (run_s (sendDailySummary env a b c avg) d))
  = trackedPRs (tracker d) /\
  slack (tracker (run_s (sendDailySummary env a b c avg) d))
  = slack (tracker d) /\
  digests (run_s (sendDailySummary env a b c avg) d)
  = digests d
    ++ (if token_missing env then [] else [DailySummary a b c avg]).
Proof.
  unfold sendDailySummary. destruct (token_missing env).
  - repeat split; try reflexivity. simpl. now rewrite app_nil_r.
  - repeat split; reflexivity.
Qed.

(** X30. [sendDailyMetricsSummary], once configured, never throws, leaves
    the store as its sync made it and sends nothing through the per-PR
    notifications.  It posts one daily summary exactly when the sync
    returns, the closed PRs can be listed and the token is set.  The three
    counts of that summary are the tracked, the needing-review and the stale
    (24 hours) PRs of the synced store, and the average is the average
    review time over the merged PRs of the closed list. *)
Theorem sendDailyMetricsSummary_post (senv : SchedulerEnv) (d : Desk)
    (gh_owner gh_repo : string) :
  configured senv = Some (gh_owner, gh_repo) ->
  let synced := run (syncWithGitHub octokit now gh_owner gh_repo) (tracker d) in
  let d' := run_s (sendDailyMetricsSummary octokit now later senv) d in
  outcome_s (sendDailyMetricsSummary octokit now later senv) d = Returned tt /\
  trackedPRs (tracker d') = trackedPRs synced /\
  slack (tracker d') = slack (tracker d) /\
  digests d'
  = digests d
    ++ match outcome (syncWithGitHub octokit now gh_owner gh_repo) (tracker d),
             pulls_list octokit gh_owner gh_repo state_closed with
       | Returned _, Resolved closedPRs =>
           if token_missing (slack_env senv) then []
           else [DailySummary
                   (MetricsReport.len (getTrackedPRs synced))
                   (MetricsReport.len (getPRsNeedingReview synced))
                   (MetricsReport.len (getStalePRs later 24 synced))
                   (Metrics.average_string
                      (Metrics.review_time_totals octokit gh_owner gh_repo
                         (filter Metrics.is_merged closedPRs)))]
       | _, _ => []
       end.
Proof.
  intros Hconf synced d'. subst d'. unfold sendDailyMetricsSummary.
  rewrite Hconf.
  set (line := console_log "Generating daily metrics summary...").
  destruct (announce_then_sync octokit now gh_owner gh_repo line d)
    as [Hout Hrun].
  cbv zeta in Hout, Hrun.
  match goal with
  | |- context [try_catch_s ?m ?h] => set (body := m); set (handler := h)
  end.
  set (d2 := mkDesk (run (syncWithGitHub octokit now gh_owner gh_repo)
                         (run (print line) (tracker d)))
                    (digests d)) in *.
  assert (Hstore2 : trackedPRs (tracker d2) = trackedPRs synced).
  { subst d2 synced. cbn [tracker]. apply sync_store_any_world. reflexivity. }
  assert (Hslack2 : slack (tracker d2) = slack (tracker d)).
  { subst d2. cbn [tracker].
    now rewrite (no_slack_syncWithGitHub octokit now gh_owner gh_repo). }
  destruct (queries_of_store _ _ Hstore2) as (Hq1 & Hq2 & Hq3).
  set (rest := fun _ : unit =>
         (w <- read_tracker ;;
          metrics <- lift (MetricsReport.getPRMetrics octokit later gh_owner
                             gh_repo) ;;
          sendDailySummary (slack_env senv)
            (MetricsReport.len (getTrackedPRs w))
            (MetricsReport.len (getPRsNeedingReview w))
            (MetricsReport.len (getStalePRs later 24 w))
            (MetricsReport.averageReviewTime metrics))%desk).
  assert (Hbody : body
                  = bind_s (lift (print line) ;;
                            lift (syncWithGitHub octokit now gh_owner gh_repo))%desk
                           rest).
  { subst body rest. unfold bind_s. reflexivity. }
  destruct (outcome (syncWithGitHub octokit now gh_owner gh_repo) (tracker d))
    as [[]|e] eqn:Hsync.
  - assert (Hr : outcome_s read_tracker d2 = Returned (tracker d2))
      by reflexivity.
    assert (Hrest_run : run_s body d = run_s (rest tt) d2).
    { now rewrite Hbody, (run_s_bind _ _ d tt Hout), Hrun. }
    assert (Hrest_out : outcome_s body d = outcome_s (rest tt) d2).
    { now rewrite Hbody, (outcome_s_bind _ _ d tt Hout), Hrun. }
    assert (Hm_out :
      outcome_s (lift (MetricsReport.getPRMetrics octokit later gh_owner
                         gh_repo)) d2
      = outcome (MetricsReport.getPRMetrics octokit later gh_owner gh_repo)
                (tracker d2)) by apply outcome_s_lift.
    assert (Hm_run :
      run_s (lift (MetricsReport.getPRMetrics octokit later gh_owner
                     gh_repo)) d2
      = mkDesk (run (MetricsReport.getPRMetrics octokit later gh_owner gh_repo)
                    (tracker d2)) (digests d2)) by apply run_s_lift.
    unfold run, outcome in Hm_out, Hm_run.
    rewrite getPRMetrics_run in Hm_out, Hm_run.
    destruct (pulls_list octokit gh_owner gh_repo state_closed)
      as [closedPRs|e]; cbn [fst snd] in Hm_out, Hm_run.
    + assert (Ho : outcome_s (rest tt) d2 = Returned tt /\
                   run_s (rest tt) d2
                   = run_s (sendDailySummary (slack_env senv)
                              (MetricsReport.len (getTrackedPRs (tracker d2)))
                              (MetricsReport.len
                                 (getPRsNeedingReview (tracker d2)))
                              (MetricsReport.len
                                 (getStalePRs later 24 (tracker d2)))
                              (MetricsReport.averageReviewTime
                                 (MetricsReport.report octokit later gh_owner
                                    gh_repo (tracker d2) closedPRs)))
                           d2).
      { subst rest. cbv beta.
        rewrite (outcome_s_bind _ _ d2 _ Hr), (run_s_bind _ _ d2 _ Hr).
        change (run_s read_tracker d2) with d2.
        rewrite (outcome_s_bind _ _ d2 _ Hm_out), (run_s_bind _ _ d2 _ Hm_out).
        rewrite Hm_run.
        replace (mkDesk (tracker d2) (digests d2)) with d2
          by now destruct d2.
        split; [apply sendDailySummary_run | reflexivity]. }
      destruct Ho as [Ho Hrn].
      rewrite Ho in Hrest_out.
      destruct (try_catch_s_returned body handler d tt Hrest_out)
        as [Hr' Ho'].
      rewrite Hr', Ho', Hrest_run, Hrn.
      match goal with
      | |- context [run_s (sendDailySummary ?env ?a ?b ?c ?avg) d2] =>
          destruct (sendDailySummary_run env a b c avg d2)
            as (_ & Hs & Hk & Hd)
      end.
      rewrite Hs, Hk, Hd, Hq1, Hq2, Hq3.
      repeat split; try assumption.
    + assert (Ho : outcome_s (rest tt) d2 = Threw e /\
                   digests (run_s (rest tt) d2) = digests d /\
                   trackedPRs (tracker (run_s (rest tt) d2))
                   = trackedPRs (tracker d2) /\
                   slack (tracker (run_s (rest tt) d2)) = slack (tracker d2)).
      { subst rest. cbv beta.
        rewrite (outcome_s_bind _ _ d2 _ Hr), (run_s_bind _ _ d2 _ Hr).
        change (run_s read_tracker d2) with d2.
        match goal with
        | |- context [outcome_s (bind_s ?m ?f) d2] =>
            destruct (bind_s_threw m f d2 e Hm_out) as [Hbr Hbo]
        end.
        rewrite Hbr, Hbo, Hm_run. repeat split. }
      destruct Ho as (Ho & Hd & Hs & Hk).
      rewrite Ho in Hrest_out.
      destruct (try_catch_s_threw body handler d e Hrest_out) as [Hr' Ho'].
      rewrite Hr', Ho', Hrest_run. subst handler. cbv beta.
      rewrite run_s_lift, outcome_s_lift. cbn [tracker digests].
      rewrite Hd, app_nil_r.
      repeat split; try reflexivity.
      * change (trackedPRs
                  (run (print (console_error
                                 ("Error sending daily summary: " ++ e)))
                       (tracker (run_s (rest tt) d2))))
          with (trackedPRs (tracker (run_s (rest tt) d2))).
        now rewrite Hs.
      * change (slack
                  (run (print (console_error
                                 ("Error sending daily summary: " ++ e)))
                       (tracker (run_s (rest tt) d2))))
          with (slack (tracker (run_s (rest tt) d2))).
        now rewrite Hk.
  - destruct (bind_s_threw _ rest d e Hout) as [Hbr Hbo].
    rewrite <- Hbody in Hbr, Hbo.
    destruct (try_catch_s_threw body handler d e Hbo) as [Hr' Ho'].
    rewrite Hr', Ho', Hbr, Hrun. subst handler. cbv beta.
    rewrite run_s_lift, outcome_s_lift. cbn [tracker digests].
    rewrite app_nil_r.
    repeat split; try reflexivity; assumption.
Qed.

End Jobs.

Section JobInstances.

Import PrTracker SlackNotifier Digests Scheduler Scenarios Scenarios2
       Schedules.

#[local] Open Scope string_scope.

Lemma checkStalePRs_guarded_on_failing_sync :
  outcome (syncWithGitHub five_open_third_fails 9000000 "acme" "app")
          (tracker desk_pr9)
  = Threw "HttpError: 502" /\
  outcome_s (checkStalePRs parse_default five_open_third_fails 9000000
               360000000 acme_app) desk_pr9
  = Returned tt /\
  digests (run_s (checkStalePRs parse_default five_open_third_fails 9000000
                    360000000 acme_app) desk_pr9)
  = [].
Proof.
  destruct (checkStalePRs_guarded parse_default five_open_third_fails 9000000
              360000000 acme_app desk_pr9) as [Hret Hconf].
  change (configured acme_app) with (Some ("acme", "app")) in Hconf.
  destruct (Hconf "HttpError: 502" eq_refl) as (Hd & _).
  split; [reflexivity|]. split; [exact Hret | exact Hd].
Defined.

Lemma checkStalePRs_digest_on_pr9 :
  configured acme_app = Some ("acme", "app") /\
  outcome (syncWithGitHub pr9_turned_draft 9000000 "acme" "app")
          (tracker desk_pr9)
  = Returned tt /\
  exists first second,
    digests (run_s (checkStalePRs parse_default pr9_turned_draft 9000000
                      360000000 acme_app) desk_pr9)
    = [StaleDigest "2 stale PRs need attention" [first; second]].
Proof.
  split; [reflexivity|]. split; [reflexivity|].
  destruct (checkStalePRs_digest parse_default pr9_turned_draft 9000000
              360000000 acme_app desk_pr9 "acme" "app" eq_refl eq_refl)
    as (_ & _ & Hd).
  rewrite Hd. eexists. eexists. reflexivity.
Defined.

Lemma periodicSync_quiet_on_owner_only :
  configured owner_only = None /\
  run_s (periodicSync pr9_turned_draft 9000000 owner_only) desk_pr9
  = desk_pr9.
Proof.
  split; [reflexivity|].
  exact (proj2 (proj2 (proj2 (periodicSync_quiet pr9_turned_draft 9000000
                                owner_only desk_pr9)))).
Defined.

Lemma sendDailyMetricsSummary_post_on_pr9 :
  configured acme_app = Some ("acme", "app") /\
  digests (run_s (sendDailyMetricsSummary pr9_turned_draft 9000000 360000000
                    acme_app) desk_pr9)
  = [DailySummary 2 2 2 "N/A"].
Proof.
  split; [reflexivity|].
  destruct (sendDailyMetricsSummary_post pr9_turned_draft 9000000 360000000
              acme_app desk_pr9 "acme" "app" eq_refl)
    as (_ & _ & _ & Hd).
  rewrite Hd. reflexivity.
Defined.

End JobInstances.
